(* ===== verification/_CoqProject ===== *)
-Q . S2P
Prelude.v
PyDict.v
Template.v
Bytes.v
ModuleProp.v
Regex.v
Shebang.v
FileSystem.v
Glob.v
Effects.v
Debloat.v
Argparse.v
Packaging.v
SourceBuild.v
UpdateBin.v
Release.v
Config.v
Cli.v
