(* ===== verification/Prelude.v ===== *)
(** * Py2Droid: a verification development of the build scripts

    The repository builds CPython for Android and packs it into a Magisk
    module.  Its code is three Python scripts:

    - [src/scripts/build.py]: the build.  [CPythonBuilder.build] fetches,
      extracts and patches the CPython sources, finds the NDK toolchain,
      builds the environment and cross-compiles one install prefix per
      host triplet.  [ModuleBuilder.build] then post-processes every
      prefix ([_debloat], [_fix_shebangs], [_strip]), compresses it
      ([_compress]) and writes the module zip ([_package_module]), whose
      [module.prop] is re-generated by [parse_module_prop] and
      [format_module_prop].  Helpers: [run], [update_env_path],
      [is_binary], [load_config].
    - [src/scripts/release.py]: the release workflow.  [main] normalises
      and checks the tags; [prepare_release] bumps the CPython references
      of [build.toml] and [README.md], rewrites the version of
      [module.prop] and [update.json] with [re.sub], runs [git-cliff] and
      commits and tags with [git].
    - [src/module/update-bin.py]: run on the device; keeps one shell
      wrapper per executable found on [$PATH] ([sync_wrappers]).

    ** How the parts interact

    [main] runs [CPythonBuilder.build] once and hands its result (the
    source directory and the NDK toolchain) to [ModuleBuilder.build].
    Both act on one state: the project tree, [os.environ] and the
    external programs they start ([curl], [patch], [android.py],
    [llvm-strip]).  The development models that state as a [world]
    (Effects.v): a tree ([gmap] from paths to entries), the environment
    (an ordered [dict]) and the log of commands run; an operation is a
    computation [M A := world -> result A * world], which keeps the world
    reached when an exception is raised.  Loops that remove or write
    entries ([_debloat], the clean step of [main], [sync_wrappers]) run
    one tree operation per step, so an exception leaves on disk what the
    earlier iterations did; each also has a pure outcome model ([debloat],
    [clean], [sync_wrappers]: the tree it returns with, or the exception)
    that the step-wise version is proved to refine.  The external programs are a
    parameter [exec : fs -> command -> completed * fs] and the theorems
    hold for every such [exec] (or for every one with the stated frame
    condition); witnesses use small simulations of [android.py].

    ** Files of the development, in dependency order

    - [Prelude.v] (this file): the Python exceptions [py_exc], the result
      monad [result] with stdpp's [x ← c; k] notation, [str.join], the
      path notation of [py_scope], byte-string literals, the hint database
      [py2droid], the tactic [vm_decide] and the generic lemmas on lists
      and results.
    - [PyDict.v]: Python's insertion-ordered [dict] as an association
      list ([get], item assignment [set], [update], iteration order).
    - [Template.v]: [string.Template.substitute] as an automaton over the
      template, refined by an abstract list of literal and field pieces.
    - [Bytes.v]: [TEXT_CHARS], [bytes.translate] and [is_binary];
      [BufferedReader.readline(limit)]; UTF-8 for the code points below 256.
    - [ModuleProp.v]: [parse_module_prop] and [format_module_prop].
    - [Regex.v]: the fragment of [re] used by the shebang patterns, with
      a derivative matcher proved equal to the language of [re.match].
    - [Shebang.v]: [python_shebang_re], [shell_shebang_re] and the
      per-file rewrite of [_fix_shebangs].
    - [FileSystem.v]: [pathlib], [os] and [shutil] on the tree: [stat]
      following at most 40 links (Linux's [MAXSYMLINKS], beyond which
      [os.stat] fails with [ELOOP]), [unlink], [rmtree], [iterdir],
      [write_bytes], [mkdir], [chmod] on a table of modes, and the invariant [fs_wf] (every entry's
      parent is a directory).
    - [Glob.v]: [wcmatch] globbing behind the class [Matcher], the lazy
      generator [for_glob], and a concrete matcher [wc_match] whose brace
      expansion runs on fuel [length pattern + 1], enough because every
      expansion step consumes a character.
    - [Effects.v]: the project layout, [pathlib] paths (an absolute path
      starts with the component ["/"]), the world, the monad [M] with
      [try]/[except] ([catch]), [run] and [update_env_path]; loops of
      tree operations ([forM_fs_op_Ok]); the judgements [runs] (the
      commands a computation runs) and [keeps] (a property of the tree
      it preserves), each with its tactic.
    - [Debloat.v]: [_debloat] on the world ([debloat_m], one removal per
      step) and its outcome [debloat], refined by a declarative "remove
      every selected subtree" loop; idempotence, kinds removed, errors.
    - [Argparse.v]: [ArgumentParser.parse_args] from CPython 3.11's
      [argparse.py] for the actions the scripts declare ([store] with a
      [type], [store_true], [version], [help]): the scan into an
      [O]/[A]/[-] pattern, abbreviations, ["="] and attached short values,
      combined short flags, ["--"], negative numbers, and each error and
      exit.  Its main loop runs on fuel [length args + 1], enough because
      every round consumes an argument ([parse_args_fuel_enough]).  The
      model agrees with Python 3.11 on 2328 random command lines of the
      two parsers.
    - [Packaging.v]: [ModuleBuilder]: the cacert download, the walk of
      [_fix_shebangs], [_strip], [_compress] with [arch_mapping],
      [_package_module] with the zip's member list, and [build]; the end-
      to-end scenario of the specification.
    - [SourceBuild.v]: [CPythonBuilder]: [_download], [_extract],
      [_apply_patches], [_find_ndk_toolchain], [_create_env],
      [_build_hosts] and [build]; the resumption scenario of the
      specification; repeated runs of [_build_hosts] ([rerun]) as a trace
      of worlds for the liveness of resumption.
    - [UpdateBin.v]: [update-bin.py]: [iter_env_path], [sync_wrappers]
      (existing wrappers as an ordered [dict], available names as a
      [gset]) on the world ([sync_wrappers_io]) and as its outcome,
      [sync_wrappers_m], which also tracks the file modes [chmod(0o755)]
      sets, and [main] with its [SystemExit(1)] on [OSError].
    - [Release.v]: [release.py]: [VERSION_TAG_RE], [version_re] and
      [badge_re] as matchers, [pattern.sub] with [re]'s replacement
      templates ([parse_template], fuel [length template], enough because
      every step consumes a character), [_process_module_prop],
      [_process_update_json] ([json] behind the class [JsonCodec]),
      [update_cpython_refs], [prepare_release] and [main].  The commands
      a computation runs are tracked by the judgement [Effects.runs], a
      Hoare-style specification over [M] with the tactic [runs_solve].
    - [Config.v]: [load_config] and [_process_raw_config] over TOML
      values ([tomllib] behind the class [TomlParser]), the dataclass
      keyword check, [typed_config] (how the builders read each value:
      truthiness for flags, Python iteration for lists), [init]
      ([_prepare_environment] with [shutil.which],
      [_prepare_project_directory]), the clean step on the world
      ([clean_m]) and as its outcome ([clean]), and [main], which
      composes [CPythonBuilder.build] and [ModuleBuilder.build].
    - [Cli.v]: the two scripts' [main] from the command line on: the
      parsers as declared ([build_parser], [release_parser]),
      [release.py]'s [prepare_environment], [build_main] (into
      [Config.main]) and [release_main] (into [Release.main]), with the
      exits of the parser raised as [SystemExit] before any effect.

    ** What the theorems show

    - Debloat: idempotence, refinement of both loops by subtree removal,
      the kinds a conditional rule can remove, [KeyError] as the only
      error, refinement of [debloat_m] by [debloat], the removals a
      [KeyError] leaves on disk, and counterexamples where the code
      departs from the specification (symlinks to files, rule order,
      listing order).
    - Shebangs: the walk rewrites exactly the regular files of [bin/];
      the rewrite keeps the rest of the file byte for byte, leaves a file
      that already carries a target shebang alone
      and never touches a file whose first line is binary.
    - [module.prop]: the round trip of well-formed items, and the loss of
      comments and of blank lines.
    - Packaging: [_strip] never raises and runs one command per regular
      file; [_compress] raises [KeyError] on an unmapped host; the zip
      holds the module's files and the description, fails with the first
      unknown template field, duplicates an included [module.prop] and
      skips missing includes; the hosts [arm-linux-androideabi] and
      [armv7a-linux-androideabi] share one tarball path, the second
      overwriting the first; the end-to-end scenario.
    - Source pipeline: every step's skip check (resumption runs no
      download or extraction), abort on the first failing host, the build
      environment, patch results, and two resumption defects: a corrupt
      tarball is never fetched again and an interrupted [make-build] is
      never redone; and liveness of resumption: under an [android.py]
      that keeps prefixes and succeeds on each host's commands in
      infinitely many runs, re-running eventually builds every host for
      good (the fairness hypothesis is what the interrupted [make-build]
      defeats).
    - Wrappers: [sync_wrappers] keeps, creates and removes exactly the
      wrappers the available names call for; with modes tracked, the tree
      is the same and only created wrappers get [0o755] (a kept wrapper
      that is not executable stays so); an [OSError] while creating a
      wrapper exits with [SystemExit(1)], the wrappers written before it
      staying; [iter_env_path] also takes directories that merely
      contain the text of [HOME].
    - Configuration and start-up: a loaded configuration has exactly the
      dataclass fields and a version without leading [v];
      [_process_raw_config] keeps every other value as written whatever
      its type ([include = "a.pem"] is five paths, the project root among
      them); [_prepare_project_directory] creates [build] and [dist]; the
      clean step removes exactly what lies below them, runs before the
      configuration is read, and, when [dist] is no directory, raises
      after emptying [build].
    - Release: the exact command sequence of [prepare_release]; [main]
      accepts a tag when it begins with a version number (the language
      of [VERSION_TAG_RE], proved equal to its matcher); [sub(count=1)]
      replaces the leftmost version; a version without number is kept;
      the template fuel is enough; and any tag that passes the check but
      is no valid template fails after the bump commit.
    - Command lines: parsing terminates on every command line of both
      scripts (termination of the fuelled loop); the canonical command
      line of any namespace parses back to it (round trip); and the
      option value ["--"], which the [argparse] of CPython 3.11 strips
      to an empty list, makes [release.py] (Python 3.11 or later) die
      with [AttributeError]; [build.py] requires Python 3.12, whose later
      releases changed that stripping, so the same example for
      [build.py -c] is only an illustration.

    ** Not modelled (yet)

    Logging and console output, including the text of [argparse]'s usage
    and help messages (an exit is its structured reason and status);
    the [if __name__ == "__main__"] blocks, which only configure logging;
    TOML parsing (the class [TomlParser]; dates and floats are not among
    the values); [os.chdir] of both scripts, replaced by the convention
    that relative paths start at the project root; the execute
    permission [shutil.which] checks, and file modes other than those
    [update-bin.py] sets with [chmod]; [main] past [load_config] for
    configuration values whose later use [typed_config] does not cover
    (it returns [false] there, where Python goes on and fails, or not,
    at the first use).  [json.load]/[json.dump] and [VERSION_CODE_DATE]
    are parameters.  Library
    behaviour is modelled from its documentation: [wcmatch] (extended
    globs, character classes and escapes not yet), [tarfile] and
    [zipfile] (member lists only; the encoders are parameters), paths
    that go through a symlinked directory, [Path.write_bytes] on a
    symlink (the model replaces the link by a file where Python writes
    through it to the target; [_fix_shebangs] skips links and
    the specification of [sync_wrappers] assumes no link among the
    names it writes),
    and UTF-8 text beyond U+00FF
    (decoded as an error).  A loop whose body cannot raise on a
    well-formed tree ([_fix_shebangs]) is one step of the world.
*)

From stdpp Require Export base list gmap strings.
From Stdlib Require Export Strings.Byte Ascii.

(** ** Python exceptions raised by the modelled code *)

Inductive py_exc :=
| KeyError (key : string)
| ValueError (msg : string)
| FileNotFoundError (path : list string)
| IsADirectoryError (path : list string)
| NotADirectoryError (path : list string)
| FileExistsError (path : list string)
| OSError (msg : string)
| CalledProcessError (returncode : Z)
| BuilderError (msg : string)
| ReleaseError (msg : string)
| ReadError (msg : string)
| IndexError
| TypeError (msg : string)
| AttributeError (msg : string)
| ReError (msg : string)
| SystemExit (code : Z).

(** ** The result of a Python call: a value or a raised exception *)

Inductive result (A : Type) :=
| Ok (a : A)
| Err (e : py_exc).
Arguments Ok {A} a.
Arguments Err {A} e.

#[export] Instance py_exc_eq_dec : EqDecision py_exc.
Proof. solve_decision. Defined.

#[export] Instance result_eq_dec {A} `{EqDecision A} : EqDecision (result A).
Proof. solve_decision. Defined.

#[export] Instance result_ret : MRet result := @Ok.
#[export] Instance result_bind : MBind result :=
  fun A B f r => match r with Ok a => f a | Err e => Err e end.
#[export] Instance result_fmap : FMap result :=
  fun A B f r => match r with Ok a => Ok (f a) | Err e => Err e end.

Definition is_ok {A} (r : result A) : bool :=
  match r with Ok _ => true | Err _ => false end.

(** A [for] loop whose body may raise: stops at the first exception. *)
Fixpoint foldM {A B} (f : A -> B -> result A) (a : A) (l : list B) : result A :=
  match l with
  | [] => Ok a
  | x :: l' => f a x ≫= fun a' => foldM f a' l'
  end.

(** ** Notations of the development *)

Declare Scope py_scope.
Delimit Scope py_scope with py.

(** [p </> n] is pathlib's [p / n]: one more component. *)
Notation "p </> n" := (p ++ [n]) (at level 40, left associativity) : py_scope.

(** Byte-string literals: [b"..."] is written [bytes_of_string "..."]. *)
Definition bytes_of_string (s : string) : list byte :=
  map Ascii.byte_of_ascii (String.list_ascii_of_string s).

(** A Python [str] is a list of characters (code points below 256);
    [str_of "..."] is a literal. *)
Abbreviation str := (list ascii).
Definition str_of (s : string) : str := String.list_ascii_of_string s.

#[export] Instance byte_eq_decision : EqDecision byte := Byte.byte_eq_dec.

Definition LF : byte := x0a.

(** [sep.join(items)] *)
Fixpoint join (sep : str) (items : list str) : str :=
  match items with
  | [] => []
  | [x] => x
  | x :: items' => x ++ sep ++ join sep items'
  end.

(** ** Automation *)

Create HintDb py2droid discriminated.
Create Rewrite HintDb py2droid.

Lemma bind_Ok {A B} (a : A) (f : A -> result B) : (Ok a ≫= f) = f a.
Proof. done. Qed.

Lemma bind_Err {A B} (e : py_exc) (f : A -> result B) : (Err e ≫= f) = Err e.
Proof. done. Qed.

Lemma bind_eq_Ok {A B} (r : result A) (f : A -> result B) b :
  (r ≫= f) = Ok b <-> exists a, r = Ok a /\ f a = Ok b.
Proof.
  destruct r as [a|e]; simpl; split.
  - eauto.
  - by intros (? & [= ->] & ?).
  - discriminate.
  - by intros (? & ? & ?).
Qed.

Lemma foldM_app {A B} (f : A -> B -> result A) a l1 l2 :
  foldM f a (l1 ++ l2) = foldM f a l1 ≫= fun a' => foldM f a' l2.
Proof. revert a; induction l1 as [|x l1 IH]; intros a; simpl; [done|].
  destruct (f a x); simpl; auto. Qed.

(** A loop whose body never raises is a [fold_left]. *)
Lemma foldM_total {A B} (f : A -> B -> result A) (g : A -> B -> A) a l :
  (forall a x, f a x = Ok (g a x)) -> foldM f a l = Ok (fold_left g l a).
Proof.
  intros Hf; revert a; induction l as [|x l IH]; intros a; cbn [foldM fold_left]; [done|].
  rewrite Hf. apply IH.
Qed.

(** A loop over a pair of states whose steps act on the first component
    as another loop's steps do, and on the second by a total function,
    is that loop with the second component folded alongside. *)
Lemma foldM_pair {A B C} (f : A -> C -> result A) (h : B -> C -> B) (g : A * B -> C -> result (A * B)) l a b :
  (forall a b x, g (a, b) x = (fun a' => (a', h b x)) <$> f a x) ->
  foldM g (a, b) l = (fun a' => (a', fold_left h l b)) <$> foldM f a l.
Proof.
  intros H. revert a b; induction l as [|x l IH]; intros a b; [done|]. cbn [foldM fold_left].
  rewrite H. destruct (f a x) as [a'|e]; simpl; [apply IH|done].
Qed.

#[export] Hint Rewrite @bind_Ok @bind_Err : py2droid.

(** [simpl_result] splits a hypothesis [r ≫= f = Ok b]. *)
Ltac simpl_result :=
  repeat match goal with
  | H : (_ ≫= _) = Ok _ |- _ =>
      apply bind_eq_Ok in H; destruct H as (? & ? & ?)
  | H : Ok _ = Ok _ |- _ => injection H as H
  | H : Err _ = Ok _ |- _ => discriminate H
  end.

(** [vm_decide] proves a closed decidable proposition by evaluation. *)
Ltac vm_decide := apply (bool_decide_unpack _); vm_compute; exact I.

(** ** Generic list lemmas shared by the components *)

Lemma fold_left_invariant {A B} (P : A -> Prop) (g : A -> B -> A) l a :
  P a -> (forall a x, In x l -> P a -> P (g a x)) -> P (fold_left g l a).
Proof.
  revert a; induction l as [|x l IH]; intros a Ha Hg; simpl; [done|].
  apply IH; [apply Hg; simpl; auto | intros; apply Hg; simpl; auto].
Qed.

Lemma fold_left_fmap {A B C} (f : A -> B -> A) (g : C -> B) l a :
  fold_left f (map g l) a = fold_left (fun a x => f a (g x)) l a.
Proof. revert a; induction l; simpl; auto. Qed.

Lemma fold_left_ext_in' {A B} (f g : A -> B -> A) l a :
  (forall a x, In x l -> f a x = g a x) -> fold_left f l a = fold_left g l a.
Proof.
  revert a; induction l as [|x l IH]; intros a H; simpl; [done|].
  rewrite H by (simpl; auto). apply IH. intros; apply H; simpl; auto.
Qed.

(** The prefixes of a list, shortest first. *)
Fixpoint inits {A} (l : list A) : list (list A) :=
  [] :: match l with [] => [] | x :: l' => map (cons x) (inits l') end.

Lemma elem_of_inits {A} (k l : list A) : k ∈ inits l <-> k `prefix_of` l.
Proof.
  revert k; induction l as [|x l IH]; intros k; simpl.
  - rewrite list_elem_of_singleton. split; [intros ->; done | apply prefix_nil_inv].
  - rewrite elem_of_cons, list_elem_of_fmap. setoid_rewrite IH. split.
    + intros [->|(k' & -> & Hk)]; [apply prefix_nil | by apply prefix_cons].
    + destruct k as [|y k]; [by left|]. intros Hp. right. exists k.
      split; [by rewrite (prefix_cons_inv_1 _ _ _ _ Hp) | eapply prefix_cons_inv_2; eauto].
Qed.

(** [mapM] fails with the first failure of its function. *)
Lemma mapM_Err {A B} (f : A -> result B) l e :
  mapM f l = Err e -> exists x, x ∈ l /\ f x = Err e.
Proof.
  induction l as [|x l IH]; simpl; [discriminate|].
  destruct (f x) eqn:Hx; simpl; [|intros [= ->]; exists x; split; [left | done]].
  destruct (mapM f l) eqn:Hl; simpl; [discriminate|]. intros [= ->].
  destruct (IH eq_refl) as (y & ? & ?). exists y. split; [by right | done].
Qed.
