(* ===== verification/PyDict.v ===== *)
(** * Python's [dict]: an insertion-ordered association list

    [build.py] iterates dicts in insertion order ([format_module_prop]
    writes [props.items()]), overwrites values in place ([props[k] = v]
    keeps the key's first position) and merges them ([env.update(...)]).
    A [gmap] forgets the order, so a dict is a list of pairs with
    distinct keys. *)

From S2P Require Import Prelude.

Module PyDict.

Definition dict (K V : Type) : Type := list (K * V).

Section Dict.
Context {K V : Type} `{EqK : EqDecision K}.
Implicit Types (d e : dict K V) (k : K) (v : V).

(** [d.get(k)] *)
Fixpoint get k d : option V :=
  match d with
  | [] => None
  | (k', v') :: d' => if decide (k = k') then Some v' else get k d'
  end.

(** [d[k] = v]: an existing key keeps its position, a new key goes last. *)
Fixpoint set k v d : dict K V :=
  match d with
  | [] => [(k, v)]
  | (k', v') :: d' => if decide (k = k') then (k, v) :: d' else (k', v') :: set k v d'
  end.

(** [d.update(e)]: the items of [e] assigned in [e]'s order. *)
Definition update d e : dict K V := fold_left (fun acc '(k, v) => set k v acc) e d.

(** [list(d)]: the keys in iteration order. *)
Definition keys d : list K := map fst d.

(** Keys are distinct: the invariant of every dict value. *)
Definition dict_wf d : Prop := NoDup (keys d).

(** [dict(pairs)]: built by assignment, like Python's constructor. *)
Definition of_list (l : list (K * V)) : dict K V := update [] l.

Lemma get_set_eq k v d : get k (set k v d) = Some v.
Proof. induction d as [|[k' v'] d IH]; simpl; repeat (case_decide; simpl); auto; congruence. Qed.

Lemma get_set_ne k k' v d : k <> k' -> get k' (set k v d) = get k' d.
Proof.
  intros Hne. induction d as [|[k2 v2] d IH]; simpl; repeat (case_decide; simpl); subst; auto; congruence.
Qed.

Lemma get_set k k' v d : get k' (set k v d) = if decide (k = k') then Some v else get k' d.
Proof. case_decide; subst; [apply get_set_eq | by apply get_set_ne]. Qed.

Lemma keys_set_in k v d : k ∈ keys d -> keys (set k v d) = keys d.
Proof.
  induction d as [|[k' v'] d IH]; simpl; [by rewrite elem_of_nil|].
  rewrite elem_of_cons. case_decide; simpl; subst; [done|]. intros [?|?]; [congruence|].
  by rewrite IH.
Qed.

Lemma keys_set_notin k v d : k ∉ keys d -> keys (set k v d) = keys d ++ [k].
Proof.
  induction d as [|[k' v'] d IH]; simpl; [done|].
  rewrite not_elem_of_cons. case_decide; simpl; subst; [naive_solver|]. intros [? ?].
  by rewrite IH.
Qed.

Lemma elem_of_keys_set k k' v d : k' ∈ keys (set k v d) <-> k' = k \/ k' ∈ keys d.
Proof.
  destruct (decide (k ∈ keys d)).
  - rewrite keys_set_in by done. naive_solver.
  - rewrite keys_set_notin by done. set_solver.
Qed.

Lemma set_dict_wf k v d : dict_wf d -> dict_wf (set k v d).
Proof.
  unfold dict_wf. destruct (decide (k ∈ keys d)).
  - by rewrite keys_set_in.
  - rewrite keys_set_notin by done. intros. apply NoDup_app. split_and!; [done| |].
    + intros x ? ->%list_elem_of_singleton. done.
    + apply NoDup_singleton.
Qed.

Lemma update_dict_wf d e : dict_wf d -> dict_wf (update d e).
Proof.
  unfold update. revert d. induction e as [|[k v] e IH]; intros d Hd; simpl; [done|].
  apply IH, set_dict_wf, Hd.
Qed.

Lemma get_Some_keys k d v : get k d = Some v -> k ∈ keys d.
Proof.
  induction d as [|[k' v'] d IH]; simpl; [done|]. rewrite elem_of_cons.
  case_decide; auto.
Qed.

Lemma get_None_keys k d : get k d = None <-> k ∉ keys d.
Proof.
  induction d as [|[k' v'] d IH]; simpl; [set_solver|]. rewrite not_elem_of_cons.
  case_decide; naive_solver.
Qed.

(** A new key is appended. *)
Lemma set_fresh k v d : k ∉ keys d -> set k v d = d ++ [(k, v)].
Proof.
  induction d as [|[k' v'] d IH]; simpl; [done|]. rewrite not_elem_of_cons.
  case_decide; [naive_solver|]. intros [_ ?]. by rewrite IH.
Qed.

(** Assigning distinct new keys in order builds the list of items. *)
Lemma fold_set_fresh (acc d : dict K V) :
  NoDup (keys acc ++ keys d) ->
  fold_left (fun acc '(k, v) => set k v acc) d acc = acc ++ d.
Proof.
  revert acc; induction d as [|[k v] d IH]; intros acc Hnd; simpl; [by rewrite app_nil_r|].
  rewrite set_fresh.
  - rewrite IH, <- app_assoc; [done|]. unfold keys in *. rewrite map_app, <- app_assoc. done.
  - apply NoDup_app in Hnd as (_ & Hdis & _). intros Hk. apply (Hdis k Hk). simpl. set_solver.
Qed.

(** Assigning the value the dict already holds changes nothing. *)
Lemma get_update k d e :
  dict_wf e -> get k (update d e) = match get k e with Some v => Some v | None => get k d end.
Proof.
  unfold dict_wf. revert d. induction e as [|[k' v'] e IH]; intros d Hwf; [done|].
  simpl in Hwf. apply NoDup_cons in Hwf as [Hk' Hwf]. unfold update in *. simpl.
  rewrite IH by done. rewrite get_set. simpl. destruct (decide (k = k')) as [->|Hne].
  - rewrite (proj2 (get_None_keys k' e)) by done. by rewrite decide_True.
  - rewrite decide_False by congruence. by destruct (get k e).
Qed.

Lemma set_get_id k v d : get k d = Some v -> set k v d = d.
Proof.
  induction d as [|[k' v'] d IH]; simpl; [done|].
  case_decide as Hk; subst; [by intros [= ->]|]. intros Hg. by rewrite IH.
Qed.

End Dict.

#[export] Instance dict_wf_dec {K V} `{EqDecision K} (d : dict K V) : Decision (dict_wf d).
Proof. unfold dict_wf. apply _. Defined.

End PyDict.
