(* ===== verification/Template.v ===== *)
(** * [string.Template.substitute]

    [ModuleConfig.name] is a [string.Template] and [_package_module]
    names the zip [DIST_DIR / name.substitute(props)].  The library
    finds placeholders with the regular expression
    [\$(?:(?P<escaped>\$)|(?P<named>ID)|{(?P<braced>ID)}|(?P<invalid>))]
    where [ID] is [idpattern]: an ASCII letter or ['_'], then ASCII
    letters, digits and ['_'] ([re.IGNORECASE]); a named
    or braced placeholder is replaced by [mapping[name]] ([KeyError] when
    absent), [$$] by [$], and the invalid alternative raises
    [ValueError].  [subst_scan] is that scan as an automaton over the
    characters, left to right, so the first offending placeholder decides
    the error.  The abstract view is a list of pieces (literal text and
    fields): [render] writes a template for it and [expand] is what it
    means; [substitute_render] is the refinement of the two. *)

From S2P Require Import Prelude PyDict.

Module Template.
Import PyDict.

Definition is_alpha (c : ascii) : bool :=
  let n := nat_of_ascii c in bool_decide ((65 <= n <= 90) \/ (97 <= n <= 122)).
Definition is_digit (c : ascii) : bool :=
  let n := nat_of_ascii c in bool_decide (48 <= n <= 57).

(** [[_a-z]] and [[_a-z0-9]] under [IGNORECASE], ASCII only. *)
Definition ident_start (c : ascii) : bool := bool_decide (c = "_"%char) || is_alpha c.
Definition ident_char (c : ascii) : bool := ident_start c || is_digit c.

Definition valid_ident (k : str) : bool :=
  match k with [] => false | c :: k' => ident_start c && forallb ident_char k' end.

(** Where the scan is: in text, after a ['$'], inside a name, inside [${...}]. *)
Inductive scan := Text | Dollar | Named (acc : str) | Braced (acc : str).

Section Subst.
Variable mapping : dict str str.

(** [mapping[name]] *)
Definition lookup (k : str) : result str :=
  match get k mapping with Some v => Ok v | None => Err (KeyError (String.string_of_list_ascii k)) end.

(** The [invalid] group: [ValueError("Invalid placeholder in string: ...")]. *)
Definition invalid_placeholder : py_exc := ValueError "Invalid placeholder in string".

Fixpoint subst_scan (st : scan) (s : str) : result str :=
  match st, s with
  | Text, [] => Ok []
  | Text, c :: s' =>
      if decide (c = "$"%char) then subst_scan Dollar s' else cons c <$> subst_scan Text s'
  | Dollar, [] => Err invalid_placeholder
  | Dollar, c :: s' =>
      if decide (c = "$"%char) then cons "$"%char <$> subst_scan Text s'
      else if ident_start c then subst_scan (Named [c]) s'
      else if decide (c = "{"%char) then subst_scan (Braced []) s'
      else Err invalid_placeholder
  | Named acc, [] => lookup acc
  | Named acc, c :: s' =>
      if ident_char c then subst_scan (Named (acc ++ [c])) s'
      else v ← lookup acc;
           (v ++.) <$> (if decide (c = "$"%char) then subst_scan Dollar s'
                        else cons c <$> subst_scan Text s')
  | Braced acc, [] => Err invalid_placeholder
  | Braced acc, c :: s' =>
      if decide (c = "}"%char) then
        if valid_ident acc then v ← lookup acc; (v ++.) <$> subst_scan Text s'
        else Err invalid_placeholder
      else if (if acc is [] then ident_start c else ident_char c)
      then subst_scan (Braced (acc ++ [c])) s'
      else Err invalid_placeholder
  end.

(** [Template(template).substitute(mapping)] *)
Definition substitute (template : str) : result str := subst_scan Text template.

(** ** The abstract template *)

Inductive piece := Lit (s : str) | Field (k : str).

(** A template for the pieces: ['$'] doubled, fields braced. *)
Definition escape (s : str) : str := s ≫= fun c => if decide (c = "$"%char) then [c; c] else [c].

Definition render (ps : list piece) : str :=
  ps ≫= fun p => match p with Lit s => escape s | Field k => "$"%char :: "{"%char :: k ++ ["}"%char] end.

(** What the pieces mean: each field replaced by its value, left to right. *)
Fixpoint expand (ps : list piece) : result str :=
  match ps with
  | [] => Ok []
  | Lit s :: ps' => (s ++.) <$> expand ps'
  | Field k :: ps' => v ← lookup k; (v ++.) <$> expand ps'
  end.

Definition fields_ok (ps : list piece) : Prop :=
  Forall (fun p => match p with Field k => valid_ident k = true | Lit _ => True end) ps.

(** ** Lemmas *)

Lemma fmap_app_Ok (a b : str) (r : result str) : (a ++.) <$> ((b ++.) <$> r) = ((a ++ b) ++.) <$> r.
Proof. destruct r; simpl; by rewrite ?app_assoc. Qed.

Lemma subst_escape s rest :
  subst_scan Text (escape s ++ rest) = (s ++.) <$> subst_scan Text rest.
Proof.
  induction s as [|c s IH]; simpl; [by destruct (subst_scan Text rest)|].
  case_decide; subst; simpl; rewrite ?decide_True by done; simpl;
    rewrite ?decide_False by done; rewrite IH; by destruct (subst_scan Text rest).
Qed.

Lemma subst_braced_go acc k rest :
  forallb ident_char k = true -> acc <> [] ->
  subst_scan (Braced acc) (k ++ "}"%char :: rest) = subst_scan (Braced (acc ++ k)) ("}"%char :: rest).
Proof.
  revert acc. induction k as [|c k IH]; intros acc Hk Hacc; simpl; [by rewrite app_nil_r|].
  apply andb_prop in Hk as [Hc Hk].
  rewrite decide_False by (intros ->; done). destruct acc; [done|]. rewrite Hc.
  rewrite IH by (done || by destruct acc). by rewrite <- app_assoc.
Qed.

Lemma subst_field k rest :
  valid_ident k = true ->
  subst_scan Text ("$"%char :: "{"%char :: k ++ "}"%char :: rest) =
  v ← lookup k; (v ++.) <$> subst_scan Text rest.
Proof.
  destruct k as [|c k]; [done|]. intros Hk. apply andb_prop in Hk as [Hc Hk]. simpl.
  destruct (ident_start "{"%char) eqn:E; [discriminate|].
  rewrite decide_False by (intros ->; vm_compute in Hc; discriminate). rewrite Hc.
  rewrite (subst_braced_go [c]) by done. simpl.
  cbn [valid_ident]. by rewrite Hc, Hk.
Qed.

(** Substituting into the rendered template of well-formed pieces is
    expanding the pieces: literal text (with any ['$']) is kept, each
    field is replaced by its value, and the first unknown field raises
    [KeyError]. *)
Lemma substitute_render ps : fields_ok ps -> substitute (render ps) = expand ps.
Proof.
  unfold substitute, render. induction 1 as [|p ps Hp _ IH]; [done|].
  rewrite bind_cons. destruct p as [s|k]; cbn [expand].
  - by rewrite subst_escape, IH.
  - cbn [app]. rewrite <- app_assoc. cbn [app]. by rewrite subst_field, IH.
Qed.

End Subst.

(** Whether the substitution succeeds does not depend on the values. *)
Lemma expand_Ok_keys m1 m2 ps :
  keys m1 = keys m2 -> is_ok (expand m1 ps) = is_ok (expand m2 ps).
Proof.
  intros Hk. induction ps as [|[s|k] ps IH]; simpl; [done| |].
  - by destruct (expand m1 ps), (expand m2 ps).
  - unfold lookup. destruct (get k m1) eqn:E1, (get k m2) eqn:E2; simpl;
      try by destruct (expand m1 ps), (expand m2 ps).
    + apply get_Some_keys in E1. apply get_None_keys in E2. congruence.
    + apply get_None_keys in E1. apply get_Some_keys in E2. congruence.
Qed.

End Template.
