(* ===== verification/Bytes.v ===== *)
(** * Byte-level helpers of [src/scripts/build.py]

    [TEXT_CHARS] and [is_binary] (the heuristic that keeps
    [_fix_shebangs] away from binaries), and the
    [BufferedReader.readline(limit)] call that reads the first line of a
    file, and UTF-8 for the text the scripts read and write (code points
    below 256, the characters of the model's [str]).  Bytes are Stdlib's
    [byte]; a Python [bytes] value is a [list byte]. *)

From S2P Require Import Prelude.

Module Binary.

(** [TEXT_CHARS = bytearray({7, 8, 9, 10, 12, 13, 27}
                            | set(range(0x20, 0x100)) - {0x7F})]: the set
    difference binds tighter than the union. *)
Definition TEXT_CHARS : list N :=
  [7; 8; 9; 10; 12; 13; 27]%N
  ++ list_difference (N.of_nat <$> seq 32 224) [127%N].

(** [data.translate(None, delete)]: the bytes of [data] not in [delete]. *)
Definition translate_delete (delete : list N) (data : list byte) : list byte :=
  filter (fun b => Byte.to_N b ∉ delete) data.

(** [is_binary(data) = bool(data.translate(None, TEXT_CHARS))]. *)
Definition is_binary (data : list byte) : bool :=
  bool_decide (translate_delete TEXT_CHARS data ≠ []).

(** The arithmetic reading of [TEXT_CHARS]. *)
Definition text_byte (b : byte) : Prop :=
  let n := Byte.to_N b in
  n = 7%N \/ n = 8%N \/ n = 9%N \/ n = 10%N \/ n = 12%N \/ n = 13%N
  \/ n = 27%N \/ (32 <= n /\ n <> 127)%N.

#[export] Instance text_byte_dec b : Decision (text_byte b).
Proof. unfold text_byte. apply _. Defined.

(** Checked byte by byte: [TEXT_CHARS] is exactly the set [text_byte]. *)
Lemma elem_of_TEXT_CHARS (b : byte) : Byte.to_N b ∈ TEXT_CHARS <-> text_byte b.
Proof.
  rewrite <- (bool_decide_eq_true (Byte.to_N b ∈ TEXT_CHARS)),
    <- (bool_decide_eq_true (text_byte b)).
  enough (bool_decide (Byte.to_N b ∈ TEXT_CHARS) = bool_decide (text_byte b))
    as -> by done.
  destruct b; vm_compute; reflexivity.
Qed.

Lemma translate_delete_app d l1 l2 :
  translate_delete d (l1 ++ l2) = translate_delete d l1 ++ translate_delete d l2.
Proof. apply filter_app. Qed.

(** [is_binary] holds exactly when some byte is outside [TEXT_CHARS]. *)
Lemma is_binary_true (data : list byte) :
  is_binary data = true <-> Exists (fun b => ~ text_byte b) data.
Proof.
  unfold is_binary, translate_delete. rewrite bool_decide_eq_true.
  induction data as [|b data IH]; simpl.
  - split; [done | inversion 1].
  - rewrite filter_cons, Exists_cons, <- IH.
    case_decide as Hd; rewrite elem_of_TEXT_CHARS in Hd; naive_solver.
Qed.

Lemma is_binary_app (l1 l2 : list byte) :
  is_binary (l1 ++ l2) = is_binary l1 || is_binary l2.
Proof.
  apply eq_bool_prop_intro. rewrite orb_True, !Is_true_true, !is_binary_true.
  apply Exists_app.
Qed.

End Binary.

Module Readline.

(** [fin.readline(limit)] on a file opened with ["rb"]: the bytes up to
    and including the first [b"\n"], at most [limit] of them; the second
    component is what a following [fin.read()] returns. *)
Fixpoint readline (limit : nat) (data : list byte) : list byte * list byte :=
  match limit with
  | 0 => ([], data)
  | S n =>
      match data with
      | [] => ([], [])
      | b :: rest =>
          if decide (b = LF) then ([b], rest)
          else let '(l, r) := readline n rest in (b :: l, r)
      end
  end.

(** Nothing is lost: the line followed by the rest is the file. *)
Lemma readline_app (limit : nat) (data : list byte) :
  (readline limit data).1 ++ (readline limit data).2 = data.
Proof.
  revert data; induction limit as [|n IH]; intros [|b rest]; simpl; auto.
  case_decide; [done|]. specialize (IH rest).
  destruct (readline n rest) as [l r]; simpl in *. by rewrite IH.
Qed.

Lemma readline_length (limit : nat) (data : list byte) :
  length (readline limit data).1 <= limit.
Proof.
  revert data; induction limit as [|n IH]; intros [|b rest]; simpl; try lia.
  case_decide; simpl; [lia|]. specialize (IH rest).
  destruct (readline n rest) as [l r]; simpl in *. lia.
Qed.

(** A line shorter than the limit that ends in [b"\n"] is read whole. *)
Lemma readline_line (limit : nat) (l rest : list byte) :
  LF ∉ l -> length l < limit -> readline limit (l ++ LF :: rest) = (l ++ [LF], rest).
Proof.
  revert limit; induction l as [|b l IH]; intros [|n] Hnl Hlen;
    cbn [readline app length] in *; try lia.
  - by rewrite decide_True.
  - rewrite not_elem_of_cons in Hnl. rewrite decide_False by naive_solver.
    rewrite IH by (naive_solver lia). done.
Qed.

(** The line holds no [b"\n"] except possibly as its last byte. *)
Lemma readline_no_LF (limit : nat) (data : list byte) l1 l2 :
  (readline limit data).1 = l1 ++ LF :: l2 -> l2 = [].
Proof.
  revert data l1; induction limit as [|n IH]; intros [|b rest] l1; simpl;
    try by destruct l1.
  case_decide.
  - destruct l1 as [|? [|]]; simpl; congruence.
  - specialize (IH rest). destruct (readline n rest) as [l r]; simpl in *.
    destruct l1 as [|c l1]; simpl; [congruence|]. intros [= -> ?]. eauto.
Qed.

End Readline.

(** * Text encoding: UTF-8 for the code points the model represents *)

Module Utf8.

(** UTF-8 of the code points of the model (below 256). *)
Definition byte_of_N (n : N) : byte := default x00 (Byte.of_N n).

Definition utf8_encode (s : str) : list byte :=
  s ≫= fun c => let n := N_of_ascii c in
    if decide (n < 128)%N then [byte_of_N n]
    else [byte_of_N (N.lor 192 (N.shiftr n 6)); byte_of_N (N.lor 128 (N.land n 63))].

(** [bytes.decode("utf-8")] for texts whose code points are below 256;
    [None] for invalid UTF-8 and for larger code points, which the model
    does not represent. *)
Fixpoint utf8_decode (bs : list byte) : option str :=
  match bs with
  | [] => Some []
  | b :: bs' =>
      let n := Byte.to_N b in
      if decide (n < 128)%N then cons (ascii_of_N n) <$> utf8_decode bs'
      else if decide (n = 194 \/ n = 195)%N then
        match bs' with
        | b2 :: bs'' =>
            let n2 := Byte.to_N b2 in
            if decide (128 <= n2 < 192)%N
            then cons (ascii_of_N ((n - 192) * 64 + (n2 - 128))) <$> utf8_decode bs''
            else None
        | [] => None
        end
      else None
  end.

End Utf8.
