(* ===== verification/ModuleProp.v ===== *)
(** * [module.prop]: [parse_module_prop] and [format_module_prop]

    [module.prop] is read in text mode ([open(encoding="utf-8")]), so
    ["\r\n"] and ["\r"] arrive as ["\n"] ([universal_newlines]); the file
    is iterated line by line, each line keeping its ["\n"] ([split_lines]);
    each line is [strip]ped, comment lines are skipped, and
    [line.partition("=")] gives the key and the value, assigned into an
    insertion-ordered dict.  [format_module_prop] writes [f"{k}={v}\n"]
    for every item.  The same loop is [_process_module_prop] of
    [src/scripts/release.py]. *)

From S2P Require Import Prelude PyDict.

Module ModuleProp.
Import PyDict.

Definition CR : ascii := "013"%char.
Definition NL : ascii := "010"%char.

(** Universal newlines: ["\r\n"] and a lone ["\r"] read as ["\n"]. *)
Fixpoint universal_newlines (s : str) : str :=
  match s with
  | [] => []
  | c :: s' =>
      if decide (c = CR) then
        match s' with
        | c2 :: s'' => if decide (c2 = NL) then NL :: universal_newlines s''
                       else NL :: universal_newlines s'
        | [] => [NL]
        end
      else c :: universal_newlines s'
  end.

(** [for line in fin]: the lines, each with its terminating ["\n"]; the
    last one may lack it. *)
Fixpoint split_lines (s : str) : list str :=
  match s with
  | [] => []
  | c :: s' =>
      if decide (c = NL) then [NL] :: split_lines s'
      else match split_lines s' with
           | [] => [[c]]
           | l :: ls => (c :: l) :: ls
           end
  end.

(** [str.isspace] on code points below 256. *)
Definition is_space (c : ascii) : bool :=
  bool_decide (nat_of_ascii c ∈ [9; 10; 11; 12; 13; 28; 29; 30; 31; 32; 133; 160]).

Fixpoint lstrip (s : str) : str :=
  match s with
  | c :: s' => if is_space c then lstrip s' else s
  | [] => []
  end.

(** [s.strip()] *)
Definition strip (s : str) : str := rev (lstrip (rev (lstrip s))).

(** [s.partition(sep)] for a one-character separator. *)
Fixpoint partition (sep : ascii) (s : str) : str * str * str :=
  match s with
  | [] => ([], [], [])
  | c :: s' =>
      if decide (c = sep) then ([], [sep], s')
      else let '(h, m, t) := partition sep s' in (c :: h, m, t)
  end.

(** One iteration of the loop of [parse_module_prop]. *)
Definition parse_line (props : dict str str) (line : str) : dict str str :=
  let new_line := strip line in
  match new_line with
  | "#"%char :: _ => props
  | _ => let '(k, _, v) := partition "="%char new_line in set k v props
  end.

(** [parse_module_prop()] on the text of [module/module.prop]. *)
Definition parse_module_prop (text : str) : dict str str :=
  fold_left parse_line (split_lines (universal_newlines text)) [].

(** [format_module_prop(props)] *)
Definition format_module_prop (props : dict str str) : str :=
  foldr (fun '(k, v) acc => k ++ "="%char :: v ++ NL :: acc) [] props.

(** ** Which items survive a write and a read *)

(** A key is written and read back unchanged when it has no ['='], no line
    break, and does not start with ['#'] or a blank. *)
Definition key_ok (k : str) : Prop :=
  "="%char ∉ k /\ NL ∉ k /\ CR ∉ k /\
  match k with c :: _ => c <> "#"%char /\ is_space c = false | [] => True end.

(** A value has no line break and does not end with a blank. *)
Definition value_ok (v : str) : Prop :=
  NL ∉ v /\ CR ∉ v /\
  match last v with Some c => is_space c = false | None => True end.

Definition item_ok (kv : str * str) : Prop := key_ok kv.1 /\ value_ok kv.2.

#[export] Instance key_ok_dec k : Decision (key_ok k).
Proof. unfold key_ok. destruct k; apply _. Defined.
#[export] Instance value_ok_dec v : Decision (value_ok v).
Proof. unfold value_ok. destruct (last v); apply _. Defined.
#[export] Instance item_ok_dec kv : Decision (item_ok kv).
Proof. unfold item_ok. apply _. Defined.

(** The line [format_module_prop] writes for one item. *)
Definition prop_line (k v : str) : str := k ++ "="%char :: v ++ [NL].

Lemma universal_newlines_id (s : str) : CR ∉ s -> universal_newlines s = s.
Proof.
  induction s as [|c s IH]; intros Hs; cbn [universal_newlines]; [done|].
  rewrite not_elem_of_cons in Hs. rewrite decide_False by naive_solver. f_equal. naive_solver.
Qed.

Lemma split_lines_line (l rest : str) :
  NL ∉ l -> split_lines (l ++ NL :: rest) = (l ++ [NL]) :: split_lines rest.
Proof.
  induction l as [|c l IH]; intros Hl; cbn [split_lines app]; [by rewrite decide_True|].
  rewrite not_elem_of_cons in Hl. rewrite decide_False by naive_solver.
  rewrite IH by naive_solver. done.
Qed.

Lemma lstrip_nonspace (c : ascii) s : is_space c = false -> lstrip (c :: s) = c :: s.
Proof. simpl. by intros ->. Qed.

Lemma lstrip_space (c : ascii) s : is_space c = true -> lstrip (c :: s) = lstrip s.
Proof. simpl. by intros ->. Qed.

(** A string that ends with a non-blank keeps its end under [strip]. *)
Lemma lstrip_rev_last (s : str) :
  (forall c, last s = Some c -> is_space c = false) -> lstrip (rev s) = rev s.
Proof.
  destruct s as [|c s _] using rev_ind; [done|]. rewrite last_snoc, rev_unit.
  intros Hc. apply lstrip_nonspace, Hc. done.
Qed.

Lemma strip_prop_line (k v : str) :
  key_ok k -> value_ok v -> strip (k ++ "="%char :: v ++ [NL]) = k ++ "="%char :: v.
Proof.
  intros (_ & _ & _ & Hk) (_ & _ & Hv). unfold strip.
  assert (lstrip (k ++ "="%char :: v ++ [NL]) = k ++ "="%char :: v ++ [NL]) as ->.
  { destruct k as [|c k]; [done|]. apply lstrip_nonspace, Hk. }
  replace (k ++ "="%char :: v ++ [NL]) with ((k ++ "="%char :: v) ++ [NL])
    by (by rewrite <- app_assoc).
  rewrite rev_unit, lstrip_space by done. rewrite lstrip_rev_last, rev_involutive; [done|].
  destruct v as [|c v _] using rev_ind.
  - rewrite last_snoc. by intros c [= <-].
  - rewrite app_comm_cons, app_assoc, !last_snoc in *. by intros ? [= <-].
Qed.

Lemma partition_key (k v : str) : "="%char ∉ k -> partition "="%char (k ++ "="%char :: v) = (k, ["="%char], v).
Proof.
  induction k as [|c k IH]; intros Hk; cbn [partition app]; [by rewrite decide_True|].
  rewrite not_elem_of_cons in Hk. rewrite decide_False by naive_solver. rewrite IH by naive_solver. done.
Qed.

Lemma parse_line_prop_line props (k v : str) :
  key_ok k -> value_ok v -> parse_line props (prop_line k v) = set k v props.
Proof.
  intros Hk Hv. unfold parse_line, prop_line. rewrite strip_prop_line by done.
  destruct Hk as (He & _ & _ & Hc).
  assert (partition "="%char (k ++ "="%char :: v) = (k, ["="%char], v)) as Hp by (by apply partition_key).
  destruct k as [|c k]; simpl in *; [done|]. destruct Hc as [Hc _].
  destruct (decide (c = "="%char)) as [->|]; [set_solver|].
  rewrite Hp. destruct c as [[] [] [] [] [] [] [] []]; try done; congruence.
Qed.

Lemma split_format (d : dict str str) :
  Forall item_ok d ->
  split_lines (universal_newlines (format_module_prop d)) = map (fun '(k, v) => prop_line k v) d.
Proof.
  intros Hok. rewrite universal_newlines_id.
  - induction Hok as [|[k v] d [(? & Hnl & ?) (Hvn & ?)] _ IH]; simpl; [done|].
    rewrite app_comm_cons, app_assoc, split_lines_line, IH.
    + unfold prop_line. by rewrite <- app_assoc.
    + rewrite elem_of_app, elem_of_cons. intros [?|[Heq|?]]; [done| |done]. discriminate.
  - induction Hok as [|[k v] d [(? & ? & Hcr & ?) (? & Hvc & ?)] _ IH]; simpl; [set_solver|].
    rewrite elem_of_app, elem_of_cons, elem_of_app, elem_of_cons.
    intros [?|[Heq|[?|[Heq'|?]]]]; try done; discriminate.
Qed.

(** C9: Round trip: writing a dict of well-formed items and parsing the
    text back gives the same dict, in the same key order. *)
Theorem parse_format_module_prop (d : dict str str) :
  dict_wf d -> Forall item_ok d -> parse_module_prop (format_module_prop d) = d.
Proof.
  intros Hwf Hok. unfold parse_module_prop. rewrite split_format by done.
  rewrite fold_left_fmap.
  erewrite fold_left_ext_in'.
  - apply (fold_set_fresh [] d). done.
  - intros acc [k v] Hin. apply Forall_forall with (x := (k, v)) in Hok as [Hk Hv]; [|by apply list_elem_of_In].
    by apply parse_line_prop_line.
Qed.

(** A re-written [module.prop] loses its comment lines: the rewrite of
    an untouched file is not byte-identical when it has comments. *)
Theorem format_parse_drops_comments :
  format_module_prop (parse_module_prop (str_of "# Magisk module" ++ NL :: str_of "id=py2droid" ++ [NL]))
    = str_of "id=py2droid" ++ [NL].
Proof. vm_compute. reflexivity. Qed.

(** A blank line of [module.prop] becomes an item with empty key and value: the
    re-written file gets a line ["="]. *)
Theorem format_parse_blank_line :
  parse_module_prop (str_of "id=a" ++ NL :: NL :: str_of "name=b" ++ [NL])
    = [(str_of "id", str_of "a"); ([], []); (str_of "name", str_of "b")] /\
  format_module_prop (parse_module_prop (str_of "id=a" ++ NL :: NL :: str_of "name=b" ++ [NL]))
    = str_of "id=a" ++ NL :: "="%char :: NL :: str_of "name=b" ++ [NL].
Proof. split; vm_compute; reflexivity. Qed.

(** ** Witnesses *)

Definition sample_props : dict str str :=
  [(str_of "id", str_of "py2droid"); (str_of "name", str_of "Py2Droid");
   (str_of "version", str_of "v0.2.0"); (str_of "versionCode", str_of "20250101")].

Lemma parse_format_module_prop_witness :
  dict_wf sample_props /\ Forall item_ok sample_props /\
  parse_module_prop (format_module_prop sample_props) = sample_props.
Proof.
  assert (Hwf : dict_wf sample_props) by vm_decide.
  assert (Hok : Forall item_ok sample_props) by vm_decide.
  split_and!; [exact Hwf | exact Hok | exact (parse_format_module_prop _ Hwf Hok)].
Defined.

End ModuleProp.
