(* ===== verification/Regex.v ===== *)
(** * The fragment of Python's [re] used by [build.py]

    [ModuleBuilder.python_shebang_re] and [shell_shebang_re] are byte
    patterns built from literals, character classes ([\s], [[0-9]]),
    concatenation, alternation ([(?:a|b)]), [?], [*] and [+].  This file
    gives them an abstract syntax [regex], a language semantics
    [matches], and an executable matcher by Brzozowski derivatives.
    [re_match] decides [re.match(p, s) is not None]: some prefix of [s]
    is in the language of [p] (a backtracking matcher finds one whenever
    one exists, and the code only tests the match for truth). *)

From S2P Require Import Prelude.

Module Regex.

(** A byte class is a list of inclusive ranges [lo-hi]. *)
Inductive regex :=
| RVoid
| REps
| RClass (ranges : list (N * N))
| RCat (r1 r2 : regex)
| RAlt (r1 r2 : regex)
| RStar (r : regex).

Definition in_class (rs : list (N * N)) (b : byte) : bool :=
  existsb (fun '(lo, hi) => (lo <=? Byte.to_N b)%N && (Byte.to_N b <=? hi)%N) rs.

(** Derived forms, named after the Python syntax they stand for. *)
Definition rbyte (c : byte) : regex := RClass [(Byte.to_N c, Byte.to_N c)].
Definition rlit (s : string) : regex := foldr (fun c r => RCat (rbyte c) r) REps (bytes_of_string s).
Definition ropt (r : regex) : regex := RAlt r REps.
(** Juxtaposition of several sub-patterns. *)
Definition rseq (rs : list regex) : regex := foldr RCat REps rs.
Definition rplus (r : regex) : regex := RCat r (RStar r).
(** [\s] in a bytes pattern: [[ \t\n\r\f\v]]. *)
Definition rspace : regex := RClass [(9, 13); (32, 32)]%N.
(** [[0-9]]. *)
Definition rdigit : regex := RClass [(48, 57)]%N.

(** The language of a pattern. *)
Inductive matches : regex -> list byte -> Prop :=
| m_eps : matches REps []
| m_class rs b : in_class rs b = true -> matches (RClass rs) [b]
| m_cat r1 r2 u v : matches r1 u -> matches r2 v -> matches (RCat r1 r2) (u ++ v)
| m_alt_l r1 r2 u : matches r1 u -> matches (RAlt r1 r2) u
| m_alt_r r1 r2 u : matches r2 u -> matches (RAlt r1 r2) u
| m_star_nil r : matches (RStar r) []
| m_star_app r u v : matches r u -> matches (RStar r) v -> matches (RStar r) (u ++ v).

#[export] Hint Constructors matches : py2droid.

Fixpoint nullable (r : regex) : bool :=
  match r with
  | RVoid | RClass _ => false
  | REps | RStar _ => true
  | RCat r1 r2 => nullable r1 && nullable r2
  | RAlt r1 r2 => nullable r1 || nullable r2
  end.

Fixpoint deriv (c : byte) (r : regex) : regex :=
  match r with
  | RVoid | REps => RVoid
  | RClass rs => if in_class rs c then REps else RVoid
  | RCat r1 r2 =>
      if nullable r1 then RAlt (RCat (deriv c r1) r2) (deriv c r2)
      else RCat (deriv c r1) r2
  | RAlt r1 r2 => RAlt (deriv c r1) (deriv c r2)
  | RStar r1 => RCat (deriv c r1) (RStar r1)
  end.

(** [re.match(r, s) is not None]. *)
Fixpoint re_match (r : regex) (s : list byte) : bool :=
  nullable r || match s with [] => false | c :: s' => re_match (deriv c r) s' end.

(** ** Inversion lemmas for the semantics *)

Lemma matches_cat_inv r1 r2 s :
  matches (RCat r1 r2) s <-> exists u v, s = u ++ v /\ matches r1 u /\ matches r2 v.
Proof. split; [inversion 1; subst; eauto | intros (u & v & -> & ? & ?); auto with py2droid]. Qed.

Lemma matches_alt_inv r1 r2 s : matches (RAlt r1 r2) s <-> matches r1 s \/ matches r2 s.
Proof. split; [inversion 1; auto | intros []; auto with py2droid]. Qed.

(** A non-empty word of [r*] starts with a non-empty word of [r]. *)
Lemma matches_star_cons r c s :
  matches (RStar r) (c :: s) ->
  exists u v, s = u ++ v /\ matches r (c :: u) /\ matches (RStar r) v.
Proof.
  intros H. remember (RStar r) as rs eqn:E. remember (c :: s) as w eqn:W.
  revert c s W. induction H; intros c' s' W; try discriminate.
  injection E as ->. destruct u as [|b u]; simpl in W.
  - subst. eauto.
  - injection W as <- <-. eauto.
Qed.

Lemma nullable_correct r : nullable r = true <-> matches r [].
Proof.
  induction r; simpl.
  - split; [discriminate | inversion 1].
  - split; auto with py2droid.
  - split; [discriminate | inversion 1].
  - rewrite andb_true_iff, IHr1, IHr2, matches_cat_inv. split.
    + intros []. exists [], []. auto.
    + intros ([|] & [|] & Huv & ? & ?); try discriminate. auto.
  - rewrite orb_true_iff, IHr1, IHr2, matches_alt_inv. done.
  - split; auto with py2droid.
Qed.

(** The derivative is the residual language. *)
Lemma deriv_correct c r s : matches (deriv c r) s <-> matches r (c :: s).
Proof.
  revert s; induction r; intros s; simpl.
  - split; inversion 1.
  - split; inversion 1.
  - destruct (in_class ranges c) eqn:Hc; split; inversion 1; subst; auto with py2droid.
    congruence.
  - rewrite matches_cat_inv. destruct (nullable r1) eqn:Hn.
    + rewrite matches_alt_inv, matches_cat_inv. setoid_rewrite IHr1. rewrite IHr2.
      split.
      * intros [(u & v & -> & ? & ?)|?]; [exists (c :: u), v; auto|].
        exists [], (c :: s). apply nullable_correct in Hn. auto.
      * intros ([|b u] & v & Huv & ? & ?); simpl in Huv; [subst; auto|].
        injection Huv as -> ->. left. eauto.
    + rewrite matches_cat_inv. setoid_rewrite IHr1. split.
      * intros (u & v & -> & ? & ?). exists (c :: u), v. auto.
      * intros ([|b u] & v & Huv & ? & ?); simpl in Huv.
        -- apply nullable_correct in H. congruence.
        -- injection Huv as -> ->. eauto.
  - rewrite !matches_alt_inv, IHr1, IHr2. done.
  - rewrite matches_cat_inv. setoid_rewrite IHr. split.
    + intros (u & v & -> & ? & ?). change (c :: u ++ v) with ((c :: u) ++ v). auto with py2droid.
    + apply matches_star_cons.
Qed.

(** [re_match] decides prefix matching: the derivative matcher agrees
    with the language semantics. *)
Theorem re_match_correct (r : regex) (s : list byte) :
  re_match r s = true <-> exists u v, s = u ++ v /\ matches r u.
Proof.
  revert r; induction s as [|c s IH]; intros r; simpl.
  - rewrite orb_false_r, nullable_correct. split; [exists [], []; auto|].
    by intros ([|] & [|] & ? & ?).
  - rewrite orb_true_iff, IH, nullable_correct. setoid_rewrite deriv_correct. split.
    + intros [? | (u & v & -> & ?)]; [exists [], (c :: s) | exists (c :: u), v]; auto.
    + intros ([|b u] & v & Huv & ?); [by left|].
      injection Huv as <- ->. right. eauto.
Qed.

End Regex.
