(* ===== verification/Shebang.v ===== *)
(** * Shebang rewriting of [ModuleBuilder._fix_shebangs]

    The two patterns [python_shebang_re] and [shell_shebang_re] of
    [src/scripts/build.py] in the syntax of [Regex], and the body of the
    loop of [_fix_shebangs] on one file's bytes ([fix_content]): read the
    first line ([fin.readline(1024)]), skip binaries, and replace the line
    by [#!/system/bin/sh] or [#!/system/bin/python3] when a pattern
    matches, keeping the rest ([fin.read()]).  The directory walk is in
    [Packaging.v]. *)

From S2P Require Import Prelude Bytes Regex.

Module Shebang.
Import Regex Binary Readline.

(** [rb"^#!\s*/(?:usr/(?:local/)?|)(?:bin|sbin)/(?:env\s+)?python[0-9]*(?:\.[0-9]+)*"] *)
Definition python_shebang_re : regex :=
  rseq [rlit "#!"; RStar rspace; rlit "/";
        RAlt (RCat (rlit "usr/") (ropt (rlit "local/"))) REps;
        RAlt (rlit "bin") (rlit "sbin"); rlit "/";
        ropt (RCat (rlit "env") (rplus rspace));
        rlit "python"; RStar rdigit; RStar (RCat (rlit ".") (rplus rdigit))].

(** [rb"^#!\s*/(?:usr/(?:local/)?|)(?:bin|sbin)/(?:env\s+)?(?:sh|bash|dash)"] *)
Definition shell_shebang_re : regex :=
  rseq [rlit "#!"; RStar rspace; rlit "/";
        RAlt (RCat (rlit "usr/") (ropt (rlit "local/"))) REps;
        RAlt (rlit "bin") (rlit "sbin"); rlit "/";
        ropt (RCat (rlit "env") (rplus rspace));
        RAlt (rlit "sh") (RAlt (rlit "bash") (rlit "dash"))].

(** [python_shebang = b"#!/system/bin/python3\n"] *)
Definition python_shebang : list byte := bytes_of_string "#!/system/bin/python3" ++ [LF].
(** [shell_shebang = b"#!/system/bin/sh\n"] *)
Definition shell_shebang : list byte := bytes_of_string "#!/system/bin/sh" ++ [LF].

(** The body of the [for path in prefix_bin.iterdir()] loop, for a
    regular file holding [data]: [Some c] when [path.write_bytes(c)] runs,
    [None] when the loop [continue]s. *)
Definition fix_content (data : list byte) : option (list byte) :=
  let '(content, rest) := readline 1024 data in
  if is_binary content then None
  else if re_match shell_shebang_re content then Some (shell_shebang ++ rest)
  else if re_match python_shebang_re content then Some (python_shebang ++ rest)
  else None.

(** The file's bytes after the loop body. *)
Definition fix_file (data : list byte) : list byte :=
  default data (fix_content data).

(** ** Lemmas *)

(** On a file whose first line [l ++ b"\n"] is shorter than the limit,
    the loop body only looks at that line. *)
Lemma fix_content_line (l rest : list byte) :
  LF ∉ l -> length l < 1024 ->
  fix_content (l ++ LF :: rest) =
    if is_binary (l ++ [LF]) then None
    else if re_match shell_shebang_re (l ++ [LF]) then Some (shell_shebang ++ rest)
    else if re_match python_shebang_re (l ++ [LF]) then Some (python_shebang ++ rest)
    else None.
Proof. intros Hl Hlen. unfold fix_content. by rewrite readline_line. Qed.

Lemma shebang_app_cons (s : string) rest :
  (bytes_of_string s ++ [LF]) ++ rest = bytes_of_string s ++ LF :: rest.
Proof. by rewrite <- app_assoc. Qed.

(** [fix_line] closes the goal [fix_content ((b"<s>\n") ++ rest) = _]
    for a literal first line [s]. *)
Ltac fix_line :=
  rewrite ?shebang_app_cons, fix_content_line by (vm_compute; (lia || set_solver));
  vm_compute; reflexivity.

(** Files that already carry a target shebang are left alone. *)
Lemma fix_content_target (rest : list byte) :
  fix_content (shell_shebang ++ rest) = None /\ fix_content (python_shebang ++ rest) = None.
Proof. unfold shell_shebang, python_shebang. split; fix_line. Qed.

(** ** Properties *)

(** C6: The rewrite keeps everything after the first line byte for byte:
    the new content is a target shebang followed by the rest of the file. *)
Theorem fix_content_preserves_rest (data out : list byte) :
  fix_content data = Some out ->
  data = (readline 1024 data).1 ++ (readline 1024 data).2 /\
  is_binary (readline 1024 data).1 = false /\
  (out = shell_shebang ++ (readline 1024 data).2 \/ out = python_shebang ++ (readline 1024 data).2).
Proof.
  unfold fix_content. pose proof (readline_app 1024 data) as Happ.
  destruct (readline 1024 data) as [line rest]; simpl in *.
  intros H. split; [done|].
  destruct (is_binary line), (re_match shell_shebang_re line), (re_match python_shebang_re line);
    simplify_eq; auto.
Qed.

(** A file whose first line holds a byte outside [TEXT_CHARS] is never
    rewritten. *)
Theorem fix_content_binary_line (data : list byte) :
  Exists (fun b => ~ text_byte b) (readline 1024 data).1 -> fix_content data = None.
Proof.
  rewrite <- is_binary_true. unfold fix_content.
  destruct (readline 1024 data) as [line rest]; simpl. by intros ->.
Qed.

(** Binary detection looks at the first line only, not at the first
    1024 bytes: a shell script whose second line is binary is rewritten,
    whatever follows its first line. *)
Theorem fix_content_binary_after_first_line (rest : list byte) :
  fix_content (bytes_of_string "#!/bin/sh" ++ LF :: rest) = Some (shell_shebang ++ rest).
Proof. fix_line. Qed.

(** The whole first line is replaced, so interpreter options are
    dropped: [#!/bin/sh -e] becomes [#!/system/bin/sh] and
    [#!/usr/bin/env python3 -I] becomes [#!/system/bin/python3]. *)
Theorem fix_content_drops_options (rest : list byte) :
  fix_content (bytes_of_string "#!/bin/sh -e" ++ LF :: rest) = Some (shell_shebang ++ rest) /\
  fix_content (bytes_of_string "#!/usr/bin/env python3 -I" ++ LF :: rest)
    = Some (python_shebang ++ rest).
Proof. split; fix_line. Qed.

(** ** Witnesses *)

Lemma fix_content_preserves_rest_witness :
  fix_content (bytes_of_string "#!/usr/bin/python3.12" ++ [LF; x41])
    = Some (python_shebang ++ [x41]) /\
  (readline 1024 (bytes_of_string "#!/usr/bin/python3.12" ++ [LF; x41])).2 = [x41] /\
  (python_shebang ++ [x41] = shell_shebang ++ [x41] \/ python_shebang ++ [x41] = python_shebang ++ [x41]).
Proof.
  assert (H : fix_content (bytes_of_string "#!/usr/bin/python3.12" ++ [LF; x41])
                = Some (python_shebang ++ [x41])) by (vm_compute; reflexivity).
  pose proof (fix_content_preserves_rest _ _ H) as (_ & _ & Hout).
  split_and!; [exact H | vm_compute; reflexivity | exact Hout].
Defined.

Lemma fix_content_binary_line_witness :
  Exists (fun b => ~ text_byte b) (readline 1024 (bytes_of_string "#!/bin/sh" ++ [x00; LF])).1 /\
  fix_content (bytes_of_string "#!/bin/sh" ++ [x00; LF]) = None.
Proof.
  assert (H : Exists (fun b => ~ text_byte b)
                (readline 1024 (bytes_of_string "#!/bin/sh" ++ [x00; LF])).1).
  { apply is_binary_true. vm_compute. reflexivity. }
  split; [exact H | exact (fix_content_binary_line _ H)].
Defined.

End Shebang.
