(* ===== verification/FileSystem.v ===== *)
(** * The file system as [build.py] sees it through [pathlib] and [shutil]

    A state is a [gmap] from absolute paths (lists of components) to
    entries: a regular file with its bytes, a directory, or a symbolic
    link with the path it points to.  [is_file] and [is_dir] follow links
    as [os.stat] does, giving up after Linux's 40 links ([ELOOP], which
    [pathlib] reports as [False]); [is_symlink] does not follow.  [unlink]
    and [rmtree] raise the exceptions of [os.unlink] and [shutil.rmtree].
    Permission bits live beside the tree, in the table [modes] that
    [chmod] updates.  Paths that go through a symlinked directory are outside the model. *)

From S2P Require Import Prelude.

Module FS.

Abbreviation path := (list string).

Inductive entry :=
| EFile (data : list byte)
| EDir
| ELink (target : path).

#[export] Instance entry_eq_dec : EqDecision entry.
Proof. solve_decision. Defined.

Abbreviation fs := (gmap path entry).

Implicit Types (m : fs) (p q : path).

(** [Path.is_symlink()]: [lstat], no link followed. *)
Definition is_symlink m p : bool :=
  match m !! p with Some (ELink _) => true | _ => false end.

(** Linux's [MAXSYMLINKS]. *)
Definition MAXSYMLINKS : nat := 40.

(** [os.stat] resolution: follow at most [fuel] links. *)
Fixpoint resolve (fuel : nat) m p : option entry :=
  match m !! p with
  | Some (ELink t) => match fuel with 0 => None | S n => resolve n m t end
  | e => e
  end.

Definition stat m p : option entry := resolve MAXSYMLINKS m p.

(** [Path.is_file()] and [Path.is_dir()] follow links. *)
Definition is_file m p : bool := match stat m p with Some (EFile _) => true | _ => false end.
Definition is_dir m p : bool := match stat m p with Some EDir => true | _ => false end.

(** [os.path.lexists]: the entry itself is there. *)
Definition lexists m p : bool := bool_decide (is_Some (m !! p)).

(** The entries below [p], [p] included: what [shutil.rmtree(p)] removes. *)
Definition del_tree p m : fs := filter (fun '(q, _) => ~ p `prefix_of` q) m.

(** [Path.unlink()] *)
Definition unlink m p : result fs :=
  match m !! p with
  | None => Err (FileNotFoundError p)
  | Some EDir => Err (IsADirectoryError p)
  | Some _ => Ok (delete p m)
  end.

(** [shutil.rmtree(p)]: refuses a symlink, removes a directory tree. *)
Definition rmtree m p : result fs :=
  match m !! p with
  | None => Err (FileNotFoundError p)
  | Some (ELink _) => Err (OSError "Cannot call rmtree on a symbolic link")
  | Some (EFile _) => Err (NotADirectoryError p)
  | Some EDir => Ok (del_tree p m)
  end.

(** [p] is a direct child of [d]. *)
Definition is_child (d q : path) : Prop := exists x, q = d ++ [x].

#[export] Instance is_child_dec d q : Decision (is_child d q).
Proof.
  refine (cast_if (decide (q <> [] /\ removelast q = d))); unfold is_child.
  - destruct a as [Hq <-]. exists (List.last q ""%string). by apply app_removelast_last.
  - intros (x & ->). apply n. split; [by destruct d | by rewrite removelast_last].
Defined.

(** [Path.iterdir()] on a directory: its direct children, in the map's
    order (the order of [os.scandir] is unspecified). *)
Definition iterdir m d : result (list path) :=
  match stat m d with
  | Some EDir => Ok (filter (is_child d) (fst <$> map_to_list m))
  | Some _ => Err (NotADirectoryError d)
  | None => Err (FileNotFoundError d)
  end.

(** [Path.write_bytes(data)] on a path that is not a symlink: replaces a
    file's bytes, or creates the file in an existing directory. *)
Definition write_bytes m p (data : list byte) : result fs :=
  match m !! p with
  | Some EDir => Err (IsADirectoryError p)
  | Some _ => Ok (<[p := EFile data]> m)
  | None =>
      match m !! removelast p with
      | Some EDir => Ok (<[p := EFile data]> m)
      | _ => Err (FileNotFoundError p)
      end
  end.

(** Why [os.stat] fails: no entry, or too many links ([ELOOP]). *)
Inductive stat_fail := Missing | Loop.

Fixpoint resolve_r (fuel : nat) m p : stat_fail + entry :=
  match m !! p with
  | Some (ELink t) => match fuel with 0 => inl Loop | S n => resolve_r n m t end
  | Some e => inr e
  | None => inl Missing
  end.

(** [os.stat(p)] with its exceptions. *)
Definition stat_r m p : result entry :=
  match resolve_r MAXSYMLINKS m p with
  | inr e => Ok e
  | inl Missing => Err (FileNotFoundError p)
  | inl Loop => Err (OSError "Too many levels of symbolic links")
  end.

(** [Path.exists()] follows links. *)
Definition exists_ m p : bool := bool_decide (is_Some (stat m p)).

(** The entry a chain of links ends at, as a path of the tree. *)
Fixpoint resolve_path (fuel : nat) m p : option path :=
  match m !! p with
  | Some (ELink t) => match fuel with 0 => None | S n => resolve_path n m t end
  | Some _ => Some p
  | None => None
  end.

(** [Path.read_bytes()] *)
Definition read_bytes m p : result (list byte) :=
  e ← stat_r m p;
  match e with
  | EFile data => Ok data
  | _ => Err (IsADirectoryError p)
  end.

(** The permission bits [chmod] set, by path; a path without one has the
    mode it was created with. *)
Notation modes := (gmap path N) (only parsing).

(** [Path.chmod(mode)]: follows links. *)
Definition chmod m (md : modes) p (mode : N) : result modes :=
  match resolve_path MAXSYMLINKS m p with
  | Some q => Ok (<[q := mode]> md)
  | None => Err (FileNotFoundError p)
  end.

(** [Path.mkdir()]: an existing entry, even a dangling link, raises
    [FileExistsError]; the parent must be a directory.  [build.py] calls
    [mkdir(parents=True)] on [build] and [dist], whose parent is the
    project root, where [parents] changes nothing. *)
Definition mkdir m p : result fs :=
  if bool_decide (is_Some (m !! p)) then Err (FileExistsError p)
  else match m !! removelast p with
       | Some EDir => Ok (<[p := EDir]> m)
       | Some _ => Err (NotADirectoryError p)
       | None => Err (FileNotFoundError p)
       end.

(** [Path.mkdir(parents=True, exist_ok=True)]: creates the missing
    ancestors and the directory; an existing entry that is not a
    directory (links followed) raises [FileExistsError]. *)
Definition makedirs m p : result fs :=
  foldM (fun m q =>
           match stat m q with
           | Some EDir => Ok m
           | Some _ => Err (FileExistsError q)
           | None => if bool_decide (is_Some (m !! q)) then Err (FileExistsError q)
                     else Ok (<[q := EDir]> m)
           end) m (tail (inits p)).

(** The tree invariant: the parent of every entry is a directory. *)
Definition fs_wf m : Prop := forall p x e, m !! (p ++ [x]) = Some e -> m !! p = Some EDir.

(** An executable check of [fs_wf], for concrete trees. *)
Definition fs_wfb m : bool :=
  forallb (fun '(q, _) => match q with [] => true | _ => bool_decide (m !! removelast q = Some EDir) end)
    (map_to_list m).

(** ** Lemmas *)

Lemma fs_wfb_sound m : fs_wfb m = true -> fs_wf m.
Proof.
  unfold fs_wfb. rewrite forallb_forall. intros Hall p x e He.
  specialize (Hall (p ++ [x], e)). rewrite <- list_elem_of_In, elem_of_map_to_list in Hall.
  specialize (Hall He). destruct (p ++ [x]) as [|y l] eqn:E; [by destruct p|].
  apply bool_decide_eq_true in Hall. rewrite <- E, removelast_last in Hall. done.
Qed.

Lemma lookup_del_tree p q m :
  del_tree p m !! q = if decide (p `prefix_of` q) then None else m !! q.
Proof.
  unfold del_tree. rewrite map_lookup_filter.
  destruct (m !! q); simpl; case_decide; simpl; try case_guard; naive_solver.
Qed.

Lemma del_tree_subseteq p m : del_tree p m ⊆ m.
Proof. apply map_filter_subseteq. Qed.

(** Resolution only uses entries that are present: it survives growing the map. *)
Lemma resolve_weaken n m1 m2 p e :
  m1 ⊆ m2 -> resolve n m1 p = Some e -> resolve n m2 p = Some e.
Proof.
  intros Hsub. revert p; induction n as [|n IH]; intros p; simpl;
    destruct (m1 !! p) as [e1|] eqn:E1; try discriminate;
    rewrite (lookup_weaken m1 m2 p e1) by done; destruct e1; auto.
Qed.

Lemma stat_weaken m1 m2 p e : m1 ⊆ m2 -> stat m1 p = Some e -> stat m2 p = Some e.
Proof. apply resolve_weaken. Qed.

Lemma is_file_weaken m1 m2 p : m1 ⊆ m2 -> is_file m1 p = true -> is_file m2 p = true.
Proof.
  unfold is_file. intros Hsub. destruct (stat m1 p) as [[]|] eqn:E; try discriminate.
  by rewrite (stat_weaken m1 m2 p _ Hsub E).
Qed.

(** In a tree, every strict ancestor of an entry is a directory. *)
Lemma fs_wf_ancestor m p r :
  fs_wf m -> is_Some (m !! (p ++ r)) -> r <> [] -> m !! p = Some EDir.
Proof.
  intros Hwf. induction r as [|x r IH] using rev_ind; [done|]. intros [e He] _.
  rewrite app_assoc in He. apply Hwf in He.
  destruct (decide (r = [])) as [->|Hr]; [by rewrite app_nil_r in He|].
  apply IH; [by eexists | done].
Qed.

(** An entry that is not a directory has nothing below it. *)
Lemma fs_wf_leaf m p e q :
  fs_wf m -> m !! p = Some e -> e <> EDir -> p `prefix_of` q -> q <> p -> m !! q = None.
Proof.
  intros Hwf Hp He [r ->] Hq. destruct (m !! (p ++ r)) eqn:E; [|done].
  exfalso. assert (r <> []) by (intros ->; by rewrite app_nil_r in Hq).
  assert (m !! p = Some EDir) by (eapply fs_wf_ancestor; eauto). congruence.
Qed.

Lemma del_tree_wf p m : fs_wf m -> fs_wf (del_tree p m).
Proof.
  intros Hwf q x e. rewrite !lookup_del_tree.
  case_decide as Hpre; [done|]. intros He. case_decide as Hpq.
  - exfalso. apply Hpre. by apply prefix_app_r.
  - eauto.
Qed.

(** Removing a leaf is removing its (one-entry) tree. *)
Lemma delete_del_tree m p e : fs_wf m -> m !! p = Some e -> e <> EDir -> delete p m = del_tree p m.
Proof.
  intros Hwf Hp He. apply map_eq. intros q. rewrite lookup_del_tree.
  destruct (decide (q = p)) as [->|Hne].
  - rewrite lookup_delete_eq. by rewrite decide_True.
  - rewrite lookup_delete_ne by done. case_decide; [|done]. eauto using fs_wf_leaf.
Qed.

Lemma unlink_leaf m p e : fs_wf m -> m !! p = Some e -> e <> EDir -> unlink m p = Ok (del_tree p m).
Proof.
  intros Hwf Hp He. unfold unlink. rewrite Hp. erewrite <- delete_del_tree by eauto.
  destruct e; congruence.
Qed.

Lemma resolve_r_resolve n m p e : resolve_r n m p = inr e <-> resolve n m p = Some e.
Proof.
  revert p. induction n as [|n IH]; intros p; simpl;
    destruct (m !! p) as [[]|]; try done; split; congruence.
Qed.

Lemma stat_r_Ok m p e : stat_r m p = Ok e <-> stat m p = Some e.
Proof.
  unfold stat_r, stat. rewrite <- resolve_r_resolve.
  destruct (resolve_r _ m p) as [[]|]; split; congruence.
Qed.

Lemma elem_of_keys_fst (m : fs) q e : m !! q = Some e -> q ∈ fst <$> map_to_list m.
Proof. intros Hq. apply list_elem_of_fmap. exists (q, e). by rewrite elem_of_map_to_list. Qed.

Lemma stat_nonlink m q e : m !! q = Some e -> (forall t, e <> ELink t) -> stat m q = Some e.
Proof. intros Hq Hl. unfold stat, MAXSYMLINKS; simpl. rewrite Hq. destruct e; naive_solver. Qed.

Lemma is_file_EFile m q d : m !! q = Some (EFile d) -> is_file m q = true.
Proof. intros Hq. unfold is_file. by rewrite (stat_nonlink m q _ Hq). Qed.

Lemma is_file_EDir m q : m !! q = Some EDir -> is_file m q = false.
Proof. intros Hq. unfold is_file. by rewrite (stat_nonlink m q _ Hq). Qed.

Lemma is_file_None m q : m !! q = None -> is_file m q = false.
Proof. intros Hq. unfold is_file, stat, MAXSYMLINKS; simpl. by rewrite Hq. Qed.

Lemma read_bytes_EFile m q d : m !! q = Some (EFile d) -> read_bytes m q = Ok d.
Proof.
  intros Hq. unfold read_bytes. rewrite (proj2 (stat_r_Ok m q (EFile d))); [done|].
  by apply stat_nonlink.
Qed.

Lemma is_file_entry m q : is_file m q = true -> exists e, m !! q = Some e /\ e <> EDir.
Proof.
  unfold is_file, stat, MAXSYMLINKS. cbn [resolve].
  destruct (m !! q) as [[]|]; try discriminate; eauto.
Qed.

Lemma stat_r_is_file m p : is_file m p = true -> exists d, stat_r m p = Ok (EFile d).
Proof.
  unfold is_file. destruct (stat m p) as [[]|] eqn:E; try done.
  intros _. eexists. by apply stat_r_Ok.
Qed.

Lemma rmtree_dir m p : m !! p = Some EDir -> rmtree m p = Ok (del_tree p m).
Proof. unfold rmtree. by intros ->. Qed.

Lemma write_bytes_Ok m p data m' : write_bytes m p data = Ok m' -> m' = <[p := EFile data]> m.
Proof. unfold write_bytes. destruct (m !! p) as [[]|]; try destruct (m !! removelast p) as [[]|]; congruence. Qed.

(** Creating a directory never makes an existing path vanish: a chain of
    links that reached an entry now reaches it or stops at the new
    directory. *)
Lemma resolve_insert_dir n m p q :
  is_Some (resolve n m p) -> is_Some (resolve n (<[q := EDir]> m) p).
Proof.
  revert p. induction n as [|n IH]; intros p Hp; cbn [resolve] in *;
    (destruct (decide (q = p)) as [->|Hne]; [rewrite lookup_insert_eq; eauto|]);
    rewrite lookup_insert_ne by done; destruct (m !! p) as [[]|]; auto.
Qed.

Lemma exists_insert_dir m p q : exists_ m p = true -> exists_ (<[q := EDir]> m) p = true.
Proof. unfold exists_, stat. rewrite !bool_decide_eq_true. apply resolve_insert_dir. Qed.

Lemma exists_insert_dir_self m q : exists_ (<[q := EDir]> m) q = true.
Proof. unfold exists_, stat, MAXSYMLINKS. cbn [resolve]. rewrite lookup_insert_eq. by apply bool_decide_eq_true. Qed.

End FS.
