(* ===== verification/Glob.v ===== *)
(** * [wcmatch] globbing as [build.py] uses it

    [ModuleBuilder._debloat] and [_strip] call [prefix.glob(patterns,
    flags=...)] of [wcmatch.pathlib].  [wcmatch] is a library, so it is
    modelled from its documented behaviour, behind the class [Matcher]:
    the debloat theorems hold for any matcher that decides a pattern
    against a path relative to the root.  On top of it:
    - [selected]: the NEGATE flag (a pattern starting with ['!'] excludes
      what it matches; without a positive pattern nothing is produced);
    - [glob]: the entries strictly below the root that are selected;
    - [for_glob]: a [for] loop over the lazy, top-down generator, which
      does not produce an entry that an earlier iteration removed.
    [wc_match] is a concrete matcher for the fragment of the syntax
    modelled so far: brace expansion ([BRACE]), [*], [?], literal
    characters, [**] as any number of directories ([GLOBSTARLONG]), and
    wildcards that do not match a leading dot.  Extended globs, character
    classes and escapes are not modelled yet. *)

From S2P Require Import Prelude FileSystem.

Module Glob.
Import FS.

(** One pattern, without a leading ['!'], against a relative path. *)
Class Matcher := pattern_match : str -> list string -> bool.

Section Select.
Context `{Matcher}.

Definition is_negative (pat : str) : bool :=
  match pat with "!"%char :: _ => true | _ => false end.

Definition selected (pats : list str) (rel : list string) : bool :=
  existsb (fun p => negb (is_negative p) && pattern_match p rel) pats &&
  negb (existsb (fun p => is_negative p && pattern_match (tail p) rel) pats).

(** [q] is strictly below [root]. *)
Definition below (root q : path) : Prop := root `prefix_of` q /\ q <> root.

#[export] Instance below_dec root q : Decision (below root q).
Proof. unfold below. apply _. Defined.

(** [root.glob(pats)]: the selected entries below [root]. *)
Definition glob (m : fs) (root : path) (pats : list str) : list path :=
  filter (fun q => below root q /\ selected pats (drop (length root) q) = true)
    (fst <$> map_to_list m).

(** [for q in root.glob(pats): body]. *)
Definition for_glob (m : fs) (cands : list path) (body : fs -> path -> result fs) : result fs :=
  foldM (fun m q => if lexists m q then body m q else Ok m) m cands.

Lemma elem_of_glob m root pats q :
  q ∈ glob m root pats <->
  is_Some (m !! q) /\ below root q /\ selected pats (drop (length root) q) = true.
Proof.
  unfold glob. rewrite list_elem_of_filter, list_elem_of_fmap. split.
  - intros [? ([? e] & -> & Hin%elem_of_map_to_list)]. simpl in *. naive_solver.
  - intros ([e ?] & ? & ?). split; [done|]. exists (q, e). by rewrite elem_of_map_to_list.
Qed.

End Select.

(** ** The concrete matcher for the modelled fragment *)

Inductive tok := TLit (c : ascii) | TAny | TStar.
Inductive seg := SGlobstar | SToks (ts : list tok).

Definition tok_of (c : ascii) : tok :=
  if decide (c = "*"%char) then TStar else if decide (c = "?"%char) then TAny else TLit c.

(** [s.split(sep)] *)
Fixpoint split_on (sep : ascii) (s : str) : list str :=
  match s with
  | [] => [[]]
  | c :: s' =>
      if decide (c = sep) then [] :: split_on sep s'
      else match split_on sep s' with
           | [] => [[c]]
           | w :: ws => (c :: w) :: ws
           end
  end.

Definition parse_seg (s : str) : seg :=
  if decide (s = str_of "**") then SGlobstar else SToks (map tok_of s).

Fixpoint tails (s : str) : list str :=
  s :: match s with [] => [] | _ :: s' => tails s' end.

(** [needle in hay] on strings. *)
Definition contains (needle hay : str) : bool :=
  existsb (fun t => bool_decide (needle `prefix_of` t)) (tails hay).

Fixpoint toks_match (ts : list tok) (s : str) : bool :=
  match ts with
  | [] => bool_decide (s = [])
  | TLit c :: ts' => match s with c' :: s' => bool_decide (c = c') && toks_match ts' s' | [] => false end
  | TAny :: ts' => match s with _ :: s' => toks_match ts' s' | [] => false end
  | TStar :: ts' => existsb (toks_match ts') (tails s)
  end.

Definition hidden (name : str) : bool :=
  match name with "."%char :: _ => true | _ => false end.

(** Without [DOTGLOB] a leading dot is matched only by a literal dot. *)
Definition seg_match (ts : list tok) (name : str) : bool :=
  if hidden name then
    match ts with TLit "."%char :: _ => toks_match ts name | _ => false end
  else toks_match ts name.

Fixpoint segs_match (ss : list seg) (rel : list str) : bool :=
  match ss with
  | [] => bool_decide (rel = [])
  | SGlobstar :: ss' =>
      (fix go (rel : list str) : bool :=
         segs_match ss' rel ||
         match rel with x :: rel' => negb (hidden x) && go rel' | [] => false end) rel
  | SToks ts :: ss' =>
      match rel with x :: rel' => seg_match ts x && segs_match ss' rel' | [] => false end
  end.

(** The inside of a brace group, up to its matching ['}']: the
    alternatives at depth 0 and what follows the group. *)
Fixpoint brace_body (depth : nat) (cur : str) (alts : list str) (s : str) : option (list str * str) :=
  match s with
  | [] => None
  | c :: s' =>
      if decide (c = "{"%char) then brace_body (S depth) (cur ++ [c]) alts s'
      else if decide (c = "}"%char) then
        match depth with
        | 0 => Some (alts ++ [cur], s')
        | S d => brace_body d (cur ++ [c]) alts s'
        end
      else if decide (c = ","%char) then
        match depth with
        | 0 => brace_body 0 [] (alts ++ [cur]) s'
        | S _ => brace_body depth (cur ++ [c]) alts s'
        end
      else brace_body depth (cur ++ [c]) alts s'
  end.

(** [BRACE]: [a{b,c}d] is [abd] and [acd]; a group without a comma, or
    without its ['}'], is literal. *)
Fixpoint expand_braces (fuel : nat) (s : str) : list str :=
  match fuel with
  | 0 => [s]
  | S n =>
      match s with
      | [] => [[]]
      | c :: s' =>
          let literal := map (cons c) (expand_braces n s') in
          if decide (c = "{"%char) then
            match brace_body 0 [] [] s' with
            | Some (alts, rest) =>
                if decide (2 <= length alts) then
                  a ← mjoin (map (expand_braces n) alts);
                  r ← expand_braces n rest; [a ++ r]
                else literal
            | None => literal
            end
          else literal
      end
  end.

Definition wc_match (pat : str) (rel : list string) : bool :=
  existsb (fun e => segs_match (map parse_seg (split_on "/"%char e)) (map str_of rel))
    (expand_braces (S (length pat)) pat).

#[export] Instance wcmatch_matcher : Matcher := wc_match.

End Glob.
