(* ===== verification/Effects.v ===== *)
(** * Effects of the build scripts: the world, [run] and [update_env_path]

    The scripts act on one state: the project tree (the current
    directory is the project root, so [build/], [dist/], [module/] and
    [patches/] are paths of the tree), the process environment
    [os.environ], and the sequence of external commands they start.  A
    computation [M A] maps a world to a result and the world reached;
    an exception keeps the world reached so far, as on disk.

    External programs ([curl], [patch], [android.py], [llvm-strip]) are
    not part of the repository: their behaviour is a parameter [exec]
    (a function from the tree and the command to the completed process
    and the new tree), and the theorems hold for every [exec]. *)

From S2P Require Import Prelude PyDict FileSystem Glob.

Module Effects.
Import FS PyDict Glob.

(** One [subprocess.run(command, cwd=..., env=..., check=..., ...)]. *)
Record command := mk_command {
  argv : list str;
  cmd_cwd : option path;
  cmd_env : option (dict str str);
  cmd_check : bool;
  cmd_capture : bool
}.

#[export] Instance command_eq_dec : EqDecision command.
Proof.
  intros [a1 b1 c1 d1 e1] [a2 b2 c2 d2 e2].
  refine (cast_if (decide ((a1, b1, c1, d1, e1) = (a2, b2, c2, d2, e2)))); congruence.
Defined.

(** [subprocess.CompletedProcess] *)
Record completed := mk_completed { returncode : Z; stdout : str; stderr : str }.

Record world := mk_world {
  w_fs : fs;
  w_environ : dict str str;
  w_log : list command
}.

(** ** The project layout and [pathlib] paths

    Paths are lists of components; a relative path is relative to the
    project root, the working directory of [build.py], and an absolute
    path starts with the component ["/"], which no file name can be. *)

Definition BUILD_DIR : path := ["build"].
Definition DIST_DIR : path := ["dist"].
Definition MODULE_DIR : path := ["module"].
Definition PATCHES_DIR : path := ["patches"].

(** [Path(s)]: empty and ["."] components are dropped. *)
Definition path_of_str (s : str) : path :=
  (if s is "/"%char :: _ then ["/"%string] else []) ++
  filter (fun x => x <> ""%string /\ x <> "."%string)
    (map String.string_of_list_ascii (split_on "/"%char s)).

(** [base / s]: an absolute [s] replaces [base]. *)
Definition path_join (base : path) (s : str) : path :=
  if s is "/"%char :: _ then path_of_str s else base ++ path_of_str s.

(** [str(path)] *)
Definition path_str (p : path) : str :=
  match p with
  | [] => ["."%char]
  | "/"%string :: p' => "/"%char :: join ["/"%char] (map str_of p')
  | _ => join ["/"%char] (map str_of p)
  end.

(** [source_dir / "cross-build" / host / "prefix"] *)
Definition host_prefix (source_dir : path) (host : str) : path :=
  source_dir ++ ["cross-build"; String.string_of_list_ascii host; "prefix"].

#[export] Instance world_eq_dec : EqDecision world.
Proof.
  intros [a1 b1 c1] [a2 b2 c2].
  refine (cast_if (decide ((a1, b1, c1) = (a2, b2, c2)))); congruence.
Defined.

#[export] Instance completed_eq_dec : EqDecision completed.
Proof.
  intros [a1 b1 c1] [a2 b2 c2].
  refine (cast_if (decide ((a1, b1, c1) = (a2, b2, c2)))); congruence.
Defined.

(** ** The state-and-error monad *)

Definition M (A : Type) : Type := world -> result A * world.

Definition ret {A} (a : A) : M A := fun w => (Ok a, w).

Definition bind {A B} (m : M A) (f : A -> M B) : M B :=
  fun w => let '(r, w1) := m w in
           match r with Ok a => f a w1 | Err e => (Err e, w1) end.

Definition raise {A} (e : py_exc) : M A := fun w => (Err e, w).

Definition lift {A} (r : result A) : M A := fun w => (r, w).

Definition get_fs : M fs := fun w => (Ok (w_fs w), w).

Definition get_environ : M (dict str str) := fun w => (Ok (w_environ w), w).

Definition set_fs (m : fs) : M unit :=
  fun w => (Ok tt, mk_world m (w_environ w) (w_log w)).

(** A tree operation that may raise, such as [unlink] or [rmtree]. *)
Definition fs_op (f : fs -> result fs) : M unit :=
  fun w => match f (w_fs w) with
           | Ok m => (Ok tt, mk_world m (w_environ w) (w_log w))
           | Err e => (Err e, w)
           end.

Notation "'let*' x ':=' c 'in' k" := (bind c (fun x => k))
  (at level 10, x name, c at level 100, k at level 200) : py_scope.
Notation "c ;;; k" := (bind c (fun _ => k)) (at level 100, right associativity) : py_scope.
Open Scope py_scope.

(** A [for] loop over a list in [M]. *)
Fixpoint forM_ {A} (l : list A) (body : A -> M unit) : M unit :=
  match l with
  | [] => ret tt
  | x :: l' => body x ;;; forM_ l' body
  end.

(** [[f(x) for x in l]] in [M], left to right. *)
Fixpoint mapM_M {A B} (f : A -> M B) (l : list A) : M (list B) :=
  match l with
  | [] => ret []
  | x :: l' => let* y := f x in let* ys := mapM_M f l' in ret (y :: ys)
  end.

Lemma bind_ret {A B} (a : A) (f : A -> M B) w : bind (ret a) f w = f a w.
Proof. done. Qed.

Lemma bind_raise {A B} e (f : A -> M B) w : bind (raise e) f w = (Err e, w).
Proof. done. Qed.

(** ** [run] *)

Section Run.
Variable exec : fs -> command -> completed * fs.

(** [run] with [log=True] and the keyword arguments of [subprocess.run]: [check] defaults to [True];
    a non-zero exit with [check] raises [CalledProcessError]. *)
Definition run (c : command) : M completed :=
  fun w =>
    let '(res, m') := exec (w_fs w) c in
    let w' := mk_world m' (w_environ w) (w_log w ++ [c]) in
    if cmd_check c && negb (Z.eqb (returncode res) 0)
    then (Err (CalledProcessError (returncode res)), w')
    else (Ok res, w').

End Run.

(** A command with the keyword arguments of [run] left at their default. *)
Definition cmd (args : list str) : command := mk_command args None None true false.

(** ** [update_env_path] *)

(** [os.pathsep.join(values)] on POSIX. *)
Definition join_path (values : list str) : str := join [":"%char] values.

(** [update_env_path(env, key, *values)]: prepend [values] to the
    path-like variable [key]. *)
Definition update_env_path (env : dict str str) (key : str) (values : list str) : dict str str :=
  match get key env with
  | None => set key (join_path values) env
  | Some p => set key (join_path (values ++ [p])) env
  end.

(** ** Lemmas *)

Lemma forM_cons {A} (x : A) l body w :
  forM_ (x :: l) body w = bind (body x) (fun _ => forM_ l body) w.
Proof. done. Qed.

(** A loop runs its body on each element in turn and stops at the first
    exception. *)
Lemma forM_app {A} (l1 l2 : list A) body w :
  forM_ (l1 ++ l2) body w = bind (forM_ l1 body) (fun _ => forM_ l2 body) w.
Proof.
  revert w. induction l1 as [|x l1 IH]; intros w; [done|].
  cbn [app forM_]. unfold bind. destruct (body x w) as [[u|e] w1]; [apply IH | done].
Qed.

(** A loop whose body succeeds and keeps [I] succeeds and keeps [I]. *)
Lemma forM_inv {A} (l : list A) body (I : world -> Prop) w :
  I w -> (forall x w, I w -> (body x w).1 = Ok tt /\ I (body x w).2) ->
  (forM_ l body w).1 = Ok tt /\ I (forM_ l body w).2.
Proof.
  intros Hw Hbody. revert w Hw. induction l as [|x l IH]; intros w Hw; [done|].
  rewrite forM_cons. unfold bind. destruct (Hbody x w Hw) as [Hok HI].
  destruct (body x w) as [r w1]. simpl in *. subst r. by apply IH.
Qed.

(** A computation that returns [a] returns it with the world it reaches. *)
Lemma M_Ok {A} (c : M A) w a : (c w).1 = a -> c w = (a, (c w).2).
Proof. destruct (c w). simpl. by intros ->. Qed.

Lemma run_environ exec c w : w_environ (run exec c w).2 = w_environ w.
Proof. unfold run. destruct (exec _ c). by destruct (_ && _). Qed.

Lemma run_unchecked exec c w :
  cmd_check c = false ->
  run exec c w = (Ok (exec (w_fs w) c).1, mk_world (exec (w_fs w) c).2 (w_environ w) (w_log w ++ [c])).
Proof. intros Hc. unfold run. destruct (exec _ c). by rewrite Hc. Qed.

Lemma join_snoc sep xs x : xs <> [] -> join sep (xs ++ [x]) = join sep xs ++ sep ++ x.
Proof.
  induction xs as [|y xs IH]; intros Hne; [congruence|]. destruct xs as [|z xs]; [done|].
  specialize (IH ltac:(done)). cbn [app] in *.
  change (join sep (y :: z :: (xs ++ [x]))) with (y ++ sep ++ join sep (z :: (xs ++ [x]))).
  rewrite IH. cbn [join]. by rewrite <- !app_assoc.
Qed.

(** The variable [key] after [update_env_path]. *)
Lemma update_env_path_get env key vs k :
  get k (update_env_path env key vs) =
    if decide (key = k) then Some (join [":"%char] (vs ++ from_option (fun p => [p]) [] (get key env)))
    else get k env.
Proof.
  unfold update_env_path. destruct (get key env) eqn:E; simpl;
    rewrite get_set; case_decide; rewrite ?app_nil_r; done.
Qed.

Lemma update_env_path_keys env key vs :
  keys (update_env_path env key vs) = if decide (key ∈ keys env) then keys env else keys env ++ [key].
Proof.
  unfold update_env_path. case_decide as Hin.
  - destruct (get key env) eqn:E; [|by apply get_None_keys in E]. by apply keys_set_in.
  - rewrite (proj2 (get_None_keys key env)) by done. by apply keys_set_notin.
Qed.


(** ** Exceptions and loops of tree operations *)

(** [try: c except ... as e: h(e)]: the handler starts from the world
    [c] reached when it raised. *)
Definition catch {A} (c : M A) (h : py_exc -> M A) : M A :=
  fun w => let '(r, w1) := c w in
           match r with Ok a => (Ok a, w1) | Err e => h e w1 end.

(** The world with its tree replaced. *)
Definition with_fs (w : world) (m : fs) : world := mk_world m (w_environ w) (w_log w).

Lemma with_fs_self w : with_fs w (w_fs w) = w.
Proof. by destruct w. Qed.

Lemma with_fs_twice w m m' : with_fs (with_fs w m) m' = with_fs w m'.
Proof. done. Qed.

Lemma fs_op_Ok f w m : f (w_fs w) = Ok m -> fs_op f w = (Ok tt, with_fs w m).
Proof. intros Hf. unfold fs_op. by rewrite Hf. Qed.

Lemma fs_op_Err f w e : f (w_fs w) = Err e -> fs_op f w = (Err e, w).
Proof. intros Hf. unfold fs_op. by rewrite Hf. Qed.

(** A [for] loop whose body is one operation on the tree is the
    left fold of the operation, and when an iteration raises, the tree
    keeps what the earlier iterations did. *)
Lemma forM_fs_op_Ok {A} (f : fs -> A -> result fs) l w m' :
  foldM f (w_fs w) l = Ok m' -> forM_ l (fun x => fs_op (fun m => f m x)) w = (Ok tt, with_fs w m').
Proof.
  revert w. induction l as [|x l IH]; intros w Hf.
  - injection Hf as <-. by rewrite with_fs_self.
  - cbn [foldM] in Hf. destruct (f (w_fs w) x) as [m1|e] eqn:E; [|done].
    rewrite forM_cons. unfold bind. rewrite (fs_op_Ok _ _ m1) by done.
    rewrite bind_Ok in Hf. by rewrite (IH (with_fs w m1) Hf).
Qed.

Lemma forM_fs_op_app_Err {A} (f : fs -> A -> result fs) l1 x l2 w m1 e :
  foldM f (w_fs w) l1 = Ok m1 -> f m1 x = Err e ->
  forM_ (l1 ++ x :: l2) (fun x => fs_op (fun m => f m x)) w = (Err e, with_fs w m1).
Proof.
  intros H1 Hx. rewrite forM_app. unfold bind at 1. rewrite (forM_fs_op_Ok _ _ _ m1) by done.
  rewrite forM_cons. unfold bind. by rewrite (fs_op_Err _ _ e).
Qed.

Lemma forM_ext {A} (l : list A) (body body' : A -> M unit) w :
  (forall x w, body x w = body' x w) -> forM_ l body w = forM_ l body' w.
Proof.
  intros Hb. revert w. induction l as [|x l IH]; intros w; [done|].
  rewrite !forM_cons. unfold bind. rewrite Hb. destruct (body' x w) as [[]]; [apply IH|done].
Qed.

(** A step that does nothing under a condition is a tree operation. *)
Lemma if_fs_op {P Q : Prop} (b : {P} + {Q}) f w :
  (if b then ret tt else fs_op f) w = fs_op (fun m => if b then Ok m else f m) w.
Proof. destruct b; [|done]. unfold fs_op, ret. by destruct w. Qed.

(** Whatever a loop of tree operations raises, [foldM] raises it too. *)
Lemma forM_fs_op_result {A} (f : fs -> A -> result fs) l w :
  (forM_ l (fun x => fs_op (fun m => f m x)) w).1 = (fun _ => tt) <$> foldM f (w_fs w) l.
Proof.
  revert w. induction l as [|x l IH]; intros w; [done|].
  rewrite forM_cons. cbn [foldM]. unfold bind, fs_op.
  destruct (f (w_fs w) x) as [m1|e]; [apply IH | done].
Qed.

(** ** The commands a computation runs *)

(** When [c] succeeds with [a], it has run exactly the commands [L], in
    order, and [Q a] holds. *)
Definition runs {A} (c : M A) (Q : A -> Prop) (L : list command) : Prop :=
  forall w a w', c w = (Ok a, w') -> w_log w' = w_log w ++ L /\ Q a.

Lemma runs_ret {A} (a : A) : runs (ret a) (fun x => x = a) [].
Proof. intros w ? w' [= <- <-]. by rewrite app_nil_r. Qed.

Lemma runs_ret_post {A} (a : A) (Q : A -> Prop) : Q a -> runs (ret a) Q [].
Proof. intros HQ w ? w' [= <- <-]. by rewrite app_nil_r. Qed.

Lemma runs_raise {A} e Q L : runs (@raise A e) Q L.
Proof. by intros w ? w' [=]. Qed.

Lemma runs_lift {A} (r : result A) : runs (lift r) (fun a => r = Ok a) [].
Proof. intros w ? w' [= -> <-]. by rewrite app_nil_r. Qed.

Lemma runs_get_fs : runs get_fs (fun _ => True) [].
Proof. intros w ? w' [= _ <-]. by rewrite app_nil_r. Qed.

Lemma runs_fs_op f : runs (fs_op f) (fun _ => True) [].
Proof.
  intros w ? w'. unfold fs_op. destruct (f (w_fs w)); intros [=]; subst. by rewrite app_nil_r.
Qed.

Lemma runs_run exec c : runs (run exec c) (fun _ => True) [c].
Proof.
  intros w ? w'. unfold run. destruct (exec _ c). destruct (_ && _); intros [=]; by subst.
Qed.

Lemma runs_bind {A B} (c : M A) (f : A -> M B) Q1 Q L1 L2 L :
  runs c Q1 L1 -> (forall a, Q1 a -> runs (f a) Q L2) -> L = L1 ++ L2 -> runs (bind c f) Q L.
Proof.
  intros Hc Hf -> w b w'. unfold bind. destruct (c w) as [[a|e] w1] eqn:E; [|done].
  destruct (Hc w a w1 E) as [Hl HQ]. intros Hw. destruct (Hf a HQ w1 b w' Hw) as [-> ?].
  rewrite Hl. by rewrite app_assoc.
Qed.

Lemma runs_weaken {A} (c : M A) (Q Q' : A -> Prop) L :
  runs c Q L -> (forall a, Q a -> Q' a) -> runs c Q' L.
Proof. intros Hc HQ w a w' E. destruct (Hc w a w' E). auto. Qed.

Lemma runs_forM {A} (l : list A) body Q :
  (forall x, runs (body x) Q []) -> runs (forM_ l body) (fun _ => True) [].
Proof.
  intros Hb. induction l as [|x l IH]; [by eapply runs_weaken; [apply runs_ret|]|].
  eapply runs_bind; [apply Hb|intros; apply IH|done].
Qed.

#[export] Hint Resolve runs_ret_post | 2 : py2droid.
#[export] Hint Resolve runs_ret runs_raise runs_lift runs_get_fs runs_fs_op runs_run : py2droid.

(** Decomposes a computation into its steps, substituting each value a
    step is known to return. *)
Ltac runs_solve :=
  cbv beta zeta;
  lazymatch goal with
  | |- runs (bind _ _) _ _ =>
      eapply runs_bind;
      [ runs_solve
      | let a := fresh "a" in let Ha := fresh "Ha" in
        intros a Ha; cbv beta in Ha; try injection Ha as Ha; try subst a; runs_solve
      | reflexivity ]
  | |- runs (ret _) _ _ => first [apply runs_ret | apply runs_ret_post; done]
  | |- runs (if ?b then _ else _) _ _ => destruct b; runs_solve
  | |- runs (match ?x with _ => _ end) _ _ => destruct x; runs_solve
  | |- runs (forM_ _ _) _ _ => eapply runs_forM; intros; runs_solve
  | |- _ => eauto with py2droid
  end.

(** A checked command that exits with 0 returns normally. *)
Lemma run_ok exec c w :
  cmd_check c = true -> returncode (exec (w_fs w) c).1 = 0%Z ->
  run exec c w = (Ok (exec (w_fs w) c).1, mk_world (exec (w_fs w) c).2 (w_environ w) (w_log w ++ [c])).
Proof. intros Hc Hr. unfold run. destruct (exec (w_fs w) c) as [r m]. simpl in Hr. by rewrite Hc, Hr. Qed.

(** ** Invariants of the tree

    [keeps P c]: whatever the outcome, [c] maps a world whose tree
    satisfies [P] to one whose tree still does.  A computation keeps [P]
    when each external program it runs does. *)

Definition keeps {T : Type} (P : fs -> Prop) (c : M T) : Prop :=
  forall w, P (w_fs w) -> P (w_fs (c w).2).

Lemma keeps_ret {T : Type} P (a : T) : keeps P (ret a).
Proof. by intros w. Qed.

Lemma keeps_raise {T : Type} P e : keeps P (@raise T e).
Proof. by intros w. Qed.

Lemma keeps_lift {T : Type} P (r : result T) : keeps P (lift r).
Proof. by intros w. Qed.

Lemma keeps_get_fs P : keeps P get_fs.
Proof. by intros w. Qed.

Lemma keeps_get_environ P : keeps P get_environ.
Proof. by intros w. Qed.

Lemma keeps_run P exec c : (forall m, P m -> P (exec m c).2) -> keeps P (run exec c).
Proof. intros He w Hw. unfold run. destruct (exec _ c) as [r m] eqn:E. specialize (He _ Hw). rewrite E in He. by destruct (_ && _). Qed.

Lemma keeps_bind {T U : Type} P (c : M T) (f : T -> M U) :
  keeps P c -> (forall a, keeps P (f a)) -> keeps P (bind c f).
Proof.
  intros Hc Hf w Hw. unfold bind. specialize (Hc w Hw).
  destruct (c w) as [[a|e] w1]; [by apply Hf | done].
Qed.

Lemma keeps_forM {T : Type} P (l : list T) body : (forall x, keeps P (body x)) -> keeps P (forM_ l body).
Proof. intros Hb. induction l as [|x l IH]; [apply keeps_ret|]. by apply keeps_bind. Qed.

#[export] Hint Resolve keeps_ret keeps_raise keeps_lift keeps_get_fs keeps_get_environ : py2droid.

(** Reduces [keeps P c] to the programs [c] runs. *)
Ltac keeps_solve :=
  cbv beta zeta; lazymatch goal with
  | |- keeps _ (bind _ _) => apply keeps_bind; [keeps_solve | intros; keeps_solve]
  | |- keeps _ (if ?b then _ else _) => destruct b; keeps_solve
  | |- keeps _ (match ?x with _ => _ end) => destruct x; keeps_solve
  | |- keeps _ (forM_ _ _) => apply keeps_forM; intros; keeps_solve
  | |- keeps _ (run _ _) => apply keeps_run; intros
  | |- _ => eauto with py2droid
  end.

End Effects.
