(* ===== verification/Debloat.v ===== *)
(** * [ModuleBuilder._debloat]

    [debloat_patterns] is a TOML list whose items are strings (delete
    every match) or inline tables [{pattern = ..., rm_if = [...]}]
    (delete a match only when its kind is listed).  [_debloat] first
    runs ONE glob over all the string patterns together, removing each
    match ([rmtree] for a real directory, [unlink] otherwise), then, for
    each table in order, globs its pattern and removes the matches whose
    kind is in [rm_if].

    The file has three layers: the translation of the code ([rm_path],
    [rm_if_matching], [debloat_conditional], and [debloat_m], the method
    as it runs on the world, one removal per step, so that an exception
    leaves the removals already done on disk; [debloat] is its outcome,
    the tree it returns with or the exception it raises); an abstract loop
    [del_loop] that removes the subtree of every candidate satisfying a
    condition, with its lemmas; and the refinement lemmas that equate the
    two on well-formed trees. *)

From S2P Require Import Prelude PyDict FileSystem Glob Effects.

Module Debloat.
Import FS Glob PyDict Effects.

(** A value of a TOML inline table of [debloat_patterns]. *)
Inductive toml_val := TStr (s : str) | TList (l : list str).

#[export] Instance toml_val_eq_dec : EqDecision toml_val.
Proof. solve_decision. Defined.

(** An item of [debloat_patterns : list[str | dict[str, str | list[str]]]]. *)
Inductive debloat_pattern := DStr (s : str) | DDict (d : dict str toml_val).

(** [d[k]] *)
Definition getitem (d : dict str toml_val) (k : str) : result toml_val :=
  match get k d with Some v => Ok v | None => Err (KeyError (String.string_of_list_ascii k)) end.

(** [str.lower] on code points below 256 (ASCII and Latin-1 capitals). *)
Definition lower_char (c : ascii) : ascii :=
  let n := nat_of_ascii c in
  if decide ((65 <= n <= 90) \/ (192 <= n <= 222 /\ n <> 215)) then ascii_of_nat (n + 32) else c.

Definition lower (s : str) : str := map lower_char s.

(** [set(map(str.lower, rm_if))]: iterating a [str] yields its characters. *)
Definition rm_if_set (v : toml_val) : list str :=
  match v with
  | TList l => map lower l
  | TStr s => map (fun c => [lower_char c]) s
  end.

(** [prefix.glob(raw_pattern)] takes a string or a list of strings. *)
Definition glob_patterns (v : toml_val) : list str :=
  match v with TStr s => [s] | TList l => l end.

Section WithMatcher.
Context `{Matcher}.

(** The body of the first loop: [rmtree] a real directory, [unlink]
    anything else. *)
Definition rm_path (m : fs) (q : path) : result fs :=
  if is_dir m q && negb (is_symlink m q) then rmtree m q else unlink m q.

(** The body of the loop of one conditional pattern. *)
Definition rm_if_matching (rm_file rm_dir rm_symlink : bool) (m : fs) (q : path) : result fs :=
  if (is_dir m q && negb (is_symlink m q)) && rm_dir then rmtree m q
  else if (is_symlink m q && rm_symlink) || (is_file m q && rm_file) then unlink m q
  else Ok m.

(** The flags of one table: [pattern["pattern"]], then [pattern["rm_if"]]. *)
Definition decode_rule (pattern : dict str toml_val) : result (list str * (bool * bool * bool)) :=
  raw_pattern ← getitem pattern (str_of "pattern");
  rm_if ← getitem pattern (str_of "rm_if");
  let rm := rm_if_set rm_if in
  Ok (glob_patterns raw_pattern,
      (bool_decide (str_of "file" ∈ rm), bool_decide (str_of "dir" ∈ rm),
       bool_decide (str_of "symlink" ∈ rm))).

(** One iteration of [for pattern in conditional_patterns]. *)
Definition debloat_conditional (prefix : path) (m : fs) (pattern : dict str toml_val) : result fs :=
  '(pats, (rm_file, rm_dir, rm_symlink)) ← decode_rule pattern;
  for_glob m (glob m prefix pats) (rm_if_matching rm_file rm_dir rm_symlink).

(** The split of [debloat_patterns] into strings and tables, in order. *)
Definition plain_patterns (ps : list debloat_pattern) : list str :=
  omap (fun p => match p with DStr s => Some s | DDict _ => None end) ps.
Definition conditional_patterns (ps : list debloat_pattern) : list (dict str toml_val) :=
  omap (fun p => match p with DDict d => Some d | DStr _ => None end) ps.

(** [_debloat(prefix)] *)
Definition debloat (prefix : path) (debloat_patterns : list debloat_pattern) (m : fs) : result fs :=
  m1 ← for_glob m (glob m prefix (plain_patterns debloat_patterns)) rm_path;
  foldM (debloat_conditional prefix) m1 (conditional_patterns debloat_patterns).

(** [for path in prefix.glob(...)] on the world: each entry the generator
    still produces is handled by one operation on the tree. *)
Definition rm_loop (cands : list path) (body : fs -> path -> result fs) : M unit :=
  forM_ cands (fun q => fs_op (fun m => if lexists m q then body m q else Ok m)).

(** One iteration of [for pattern in conditional_patterns] on the world. *)
Definition debloat_conditional_m (prefix : path) (pattern : dict str toml_val) : M unit :=
  let* rule := lift (decode_rule pattern) in
  let '(pats, (rm_file, rm_dir, rm_symlink)) := rule in
  let* m := get_fs in
  rm_loop (glob m prefix pats) (rm_if_matching rm_file rm_dir rm_symlink).

(** [_debloat(prefix)] on the world. *)
Definition debloat_m (prefix : path) (debloat_patterns : list debloat_pattern) : M unit :=
  let* m := get_fs in
  rm_loop (glob m prefix (plain_patterns debloat_patterns)) rm_path ;;;
  forM_ (conditional_patterns debloat_patterns) (debloat_conditional_m prefix).

End WithMatcher.

(** ** The abstract loop *)

(** Remove the subtree of each candidate still present that satisfies
    [cond] in the current state. *)
Definition del_loop (cond : fs -> path -> bool) (m : fs) (cands : list path) : fs :=
  fold_left (fun m q => if lexists m q && cond m q then del_tree q m else m) cands m.

(** A condition that holds in a state holds in every larger state. *)
Definition cond_mono (cond : fs -> path -> bool) : Prop :=
  forall m1 m2 q, m1 ⊆ m2 -> cond m1 q = true -> cond m2 q = true.

(** The condition of a conditional pattern. *)
Definition kind_cond (rm_file rm_dir rm_symlink : bool) (m : fs) (q : path) : bool :=
  (bool_decide (m !! q = Some EDir) && rm_dir) || (is_symlink m q && rm_symlink)
  || (is_file m q && rm_file).

Lemma del_loop_cons cond m q cs :
  del_loop cond m (q :: cs) = del_loop cond (if lexists m q && cond m q then del_tree q m else m) cs.
Proof. done. Qed.

Lemma del_loop_subseteq cond m cands : del_loop cond m cands ⊆ m.
Proof.
  revert m; induction cands as [|q cs IH]; intros m; rewrite ?del_loop_cons; [done|].
  etrans; [apply IH|]. destruct (_ && _); [apply del_tree_subseteq | done].
Qed.

Lemma del_loop_wf cond m cands : fs_wf m -> fs_wf (del_loop cond m cands).
Proof.
  intros Hwf. unfold del_loop. apply (fold_left_invariant fs_wf); [done|].
  intros m' q _ ?. destruct (_ && _); auto using del_tree_wf.
Qed.

(** Every candidate that survives the loop fails [cond] at the end. *)
Lemma del_loop_survivors cond m cands q :
  cond_mono cond -> q ∈ cands -> is_Some (del_loop cond m cands !! q) ->
  cond (del_loop cond m cands) q = false.
Proof.
  intros Hmono. revert m. induction cands as [|q0 cs IH]; intros m Hin Hq; [set_solver|].
  rewrite del_loop_cons in *.
  set (m1 := if lexists m q0 && cond m q0 then del_tree q0 m else m) in *.
  apply elem_of_cons in Hin as [->|Hin]; [|by apply IH].
  destruct (cond (del_loop cond m1 cs) q0) eqn:Hc; [exfalso|done].
  pose proof (del_loop_subseteq cond m1 cs) as Hsub.
  destruct Hq as [e He]. pose proof (lookup_weaken _ _ _ _ He Hsub) as He1.
  unfold m1, lexists in *. destruct (bool_decide _) eqn:Hl; simpl in *.
  - destruct (cond m q0) eqn:Hcm.
    + rewrite lookup_del_tree, decide_True in He1 by done. discriminate.
    + rewrite (Hmono _ _ _ Hsub Hc) in Hcm. discriminate.
  - apply bool_decide_eq_false in Hl. apply Hl. by eexists.
Qed.

(** A loop none of whose present candidates satisfies [cond] does nothing. *)
Lemma del_loop_stable cond y cands :
  (forall q, q ∈ cands -> is_Some (y !! q) -> cond y q = false) -> del_loop cond y cands = y.
Proof.
  induction cands as [|q cs IH]; intros Hc; rewrite ?del_loop_cons; [done|].
  unfold lexists. case_bool_decide as Hq.
  - rewrite Hc by set_solver. apply IH. set_solver.
  - apply IH. set_solver.
Qed.

Lemma lookup_del_tree_ne a b m : ~ a `prefix_of` b -> del_tree a m !! b = m !! b.
Proof. intros. rewrite lookup_del_tree. by case_decide. Qed.

(** The loop that removes every candidate removes exactly the entries
    that have a present candidate as ancestor-or-self. *)
Lemma lookup_del_loop_all m cands q :
  del_loop (fun _ _ => true) m cands !! q =
  if bool_decide (Exists (fun a => is_Some (m !! a) /\ a `prefix_of` q) cands) then None
  else m !! q.
Proof.
  revert m; induction cands as [|a cs IH]; intros m; rewrite ?del_loop_cons; [done|].
  unfold lexists. rewrite andb_true_r.
  destruct (decide (is_Some (m !! a))) as [Ha|Ha].
  - rewrite (bool_decide_eq_true_2 _ Ha), IH, lookup_del_tree.
    destruct (decide (a `prefix_of` q)) as [Haq|Haq].
    + rewrite (bool_decide_eq_true_2 (Exists _ (a :: cs))) by (constructor; done).
      by case_bool_decide.
    + assert (Exists (fun b => is_Some (del_tree a m !! b) /\ b `prefix_of` q) cs <->
              Exists (fun b => is_Some (m !! b) /\ b `prefix_of` q) cs) as Hiff.
      { split; intros HE; eapply Exists_impl; try apply HE; intros b [Hb Hbq]; split; try done;
          rewrite lookup_del_tree_ne in *; try done; intros Hab; apply Haq; by etrans. }
      repeat case_bool_decide; try done; exfalso; rewrite Exists_cons in *; naive_solver.
  - rewrite (bool_decide_eq_false_2 _ Ha), IH.
    repeat case_bool_decide; try done; exfalso; rewrite Exists_cons in *; naive_solver.
Qed.

(** ** Refinement: the loops of [_debloat] are [del_loop]s *)

Lemma kind_cond_mono f d s : cond_mono (kind_cond f d s).
Proof.
  intros m1 m2 q Hsub. unfold kind_cond, is_symlink.
  rewrite !orb_true_iff, !andb_true_iff, !bool_decide_eq_true. intros [[[Hd ?]|[Hl ?]]|[Hf ?]].
  - left; left. split; [|done]. by eapply lookup_weaken.
  - left; right. split; [|done]. destruct (m1 !! q) as [[]|] eqn:E; try discriminate.
    by rewrite (lookup_weaken _ _ _ _ E Hsub).
  - right. split; [|done]. by eapply is_file_weaken.
Qed.

Lemma rm_path_del_tree m q : fs_wf m -> is_Some (m !! q) -> rm_path m q = Ok (del_tree q m).
Proof.
  intros Hwf [e Hq]. unfold rm_path, is_symlink, is_dir. rewrite Hq.
  destruct e as [data| |t].
  - rewrite (stat_nonlink _ _ _ Hq) by done. simpl. by eapply unlink_leaf.
  - rewrite (stat_nonlink _ _ _ Hq) by done. by apply rmtree_dir.
  - rewrite andb_false_r. by eapply unlink_leaf.
Qed.

Lemma rm_if_matching_del_tree f d s m q :
  fs_wf m -> is_Some (m !! q) ->
  rm_if_matching f d s m q = Ok (if kind_cond f d s m q then del_tree q m else m).
Proof.
  intros Hwf [e Hq]. unfold rm_if_matching, kind_cond, is_file, is_dir, is_symlink. rewrite Hq.
  destruct e as [data| |t].
  - rewrite (stat_nonlink _ _ _ Hq) by done. simpl.
    destruct f; simpl; [by eapply unlink_leaf | done].
  - rewrite (stat_nonlink _ _ _ Hq) by done. simpl.
    destruct d; simpl; [by apply rmtree_dir | done].
  - rewrite andb_false_r. simpl.
    destruct (s || _); [by eapply unlink_leaf | done].
Qed.

(** A glob loop whose body removes the subtree of the entries satisfying
    [cond] is [del_loop cond]. *)
Lemma for_glob_del_loop (body : fs -> path -> result fs) (cond : fs -> path -> bool) m cands :
  (forall m q, fs_wf m -> is_Some (m !! q) -> body m q = Ok (if cond m q then del_tree q m else m)) ->
  fs_wf m -> for_glob m cands body = Ok (del_loop cond m cands).
Proof.
  intros Hb. unfold for_glob. revert m; induction cands as [|q cs IH]; intros m Hwf; [done|].
  rewrite del_loop_cons. cbn [foldM]. unfold lexists. case_bool_decide as Hq; simpl.
  - rewrite Hb by done. simpl. apply IH. destruct (cond m q); auto using del_tree_wf.
  - by apply IH.
Qed.

(** A loop keeps an entry none of whose ancestors-or-self it may remove. *)
Lemma del_loop_keeps cond m cands q e :
  (forall m' a, fs_wf m' -> m' !! q = Some e -> is_Some (m' !! a) -> cond m' a = true ->
     ~ a `prefix_of` q) ->
  fs_wf m -> m !! q = Some e -> del_loop cond m cands !! q = Some e.
Proof.
  intros Hk. revert m; induction cands as [|a cs IH]; intros m Hwf Hq; rewrite ?del_loop_cons; [done|].
  unfold lexists. destruct (bool_decide _ && cond m a) eqn:E.
  - apply andb_true_iff in E as [Ha%bool_decide_eq_true Hc]. apply IH; [by apply del_tree_wf|].
    rewrite lookup_del_tree_ne; [done|]. eapply Hk; eauto.
  - by apply IH.
Qed.

(** A leaf is no ancestor of another entry. *)
Lemma leaf_not_prefix m a q ea e :
  fs_wf m -> m !! a = Some ea -> ea <> EDir -> m !! q = Some e -> e <> ea -> ~ a `prefix_of` q.
Proof.
  intros Hwf Ha Hea Hq He Hpre. destruct (decide (q = a)) as [->|Hne]; [congruence|].
  pose proof (fs_wf_leaf m a ea q Hwf Ha Hea Hpre Hne) as Hn. congruence.
Qed.

(** Without ["dir"] in [rm_if], a conditional pattern removes only leaves. *)
Lemma kind_cond_leaf f s m a :
  is_Some (m !! a) -> kind_cond f false s m a = true -> exists ea, m !! a = Some ea /\ ea <> EDir.
Proof.
  intros [ea Ha] Hc. exists ea. split; [done|]. intros ->. revert Hc.
  unfold kind_cond, is_symlink, is_file. rewrite Ha, (stat_nonlink _ _ _ Ha) by done.
  by rewrite andb_false_r.
Qed.

Section Refinement.
Context `{Matcher}.

(** The declarative reading of [_debloat]: one [del_loop] per rule, each
    over the glob of the state the rule starts from. *)
Definition run_rules (prefix : path) (rules : list (list str * (fs -> path -> bool))) (m : fs) : fs :=
  fold_left (fun m '(pats, cond) => del_loop cond m (glob m prefix pats)) rules m.

Definition rule_of (r : list str * (bool * bool * bool)) : list str * (fs -> path -> bool) :=
  let '(pats, (f, d, s)) := r in (pats, kind_cond f d s).

(** All string patterns form one rule that removes every match. *)
Definition plain_rule (ps : list debloat_pattern) : list str * (fs -> path -> bool) :=
  (plain_patterns ps, fun _ _ => true).

Lemma debloat_refines prefix ps m :
  fs_wf m ->
  debloat prefix ps m =
    match mapM decode_rule (conditional_patterns ps) with
    | Ok rules => Ok (run_rules prefix (plain_rule ps :: map rule_of rules) m)
    | Err e => Err e
    end.
Proof.
  intros Hwf. unfold debloat.
  rewrite (for_glob_del_loop _ (fun _ _ => true)) by (done || intros; by apply rm_path_del_tree).
  rewrite bind_Ok. unfold run_rules. cbn [fold_left plain_rule].
  generalize (del_loop_wf (fun _ _ => true) m (glob m prefix (plain_patterns ps)) Hwf).
  generalize (del_loop (fun _ _ => true) m (glob m prefix (plain_patterns ps))) as m1.
  induction (conditional_patterns ps) as [|r rs IH]; intros m1 Hwf1; [done|].
  cbn [foldM mapM]. unfold debloat_conditional.
  destruct (decode_rule r) as [[pats [[f d] s]]|e]; simpl; [|done].
  rewrite (for_glob_del_loop _ (kind_cond f d s)) by (done || intros; by apply rm_if_matching_del_tree).
  simpl. rewrite IH by by apply del_loop_wf. by destruct (mapM decode_rule rs).
Qed.

Lemma run_rules_subseteq prefix rules m : run_rules prefix rules m ⊆ m.
Proof.
  revert m; induction rules as [|[pats cond] rs IH]; intros m; [done|].
  simpl. etrans; [apply IH | apply del_loop_subseteq].
Qed.

Lemma run_rules_wf prefix rules m : fs_wf m -> fs_wf (run_rules prefix rules m).
Proof.
  revert m; induction rules as [|[pats cond] rs IH]; intros m Hwf; [done|].
  apply IH, del_loop_wf, Hwf.
Qed.

(** Any state below the outcome of the rules is left alone by them. *)
Lemma run_rules_stable prefix rules m y :
  Forall (fun r => cond_mono r.2) rules -> y ⊆ run_rules prefix rules m ->
  run_rules prefix rules y = y.
Proof.
  revert m y; induction rules as [|[pats cond] rs IH]; intros m y Hmono Hy; [done|].
  apply Forall_cons in Hmono as [Hc Hrs]. simpl in *.
  set (x1 := del_loop cond m (glob m prefix pats)) in *.
  assert (y ⊆ x1) as Hyx1 by (etrans; [exact Hy | apply run_rules_subseteq]).
  rewrite del_loop_stable; [by eapply IH|].
  intros q Hq%elem_of_glob Hyq. destruct Hq as (_ & Hb & Hsel).
  destruct (cond y q) eqn:Hcy; [exfalso|done].
  assert (is_Some (x1 !! q)) as Hx1 by (by eapply lookup_weaken_is_Some).
  assert (q ∈ glob m prefix pats) as Hqm.
  { apply elem_of_glob. split_and!; [|done|done].
    eapply lookup_weaken_is_Some; [exact Hx1 | apply del_loop_subseteq]. }
  pose proof (del_loop_survivors cond m _ q Hc Hqm Hx1) as Hf. fold x1 in Hf.
  rewrite (Hc _ _ _ Hyx1 Hcy) in Hf. discriminate.
Qed.

Lemma rules_mono ps rules :
  Forall (fun r => cond_mono r.2) (plain_rule ps :: map rule_of rules).
Proof.
  constructor; [by intros ? ? ? ? ?|]. apply Forall_forall. intros r.
  rewrite list_elem_of_fmap. intros ([pats [[f d] s]] & -> & _). apply kind_cond_mono.
Qed.

End Refinement.

(** ** [_debloat] on the world *)

Section OnDisk.
Context `{Matcher}.

Lemma rm_loop_Ok cands body w m' :
  for_glob (w_fs w) cands body = Ok m' -> rm_loop cands body w = (Ok tt, with_fs w m').
Proof. apply forM_fs_op_Ok. Qed.



Lemma debloat_conditional_m_Ok prefix r w m' :
  debloat_conditional prefix (w_fs w) r = Ok m' -> debloat_conditional_m prefix r w = (Ok tt, with_fs w m').
Proof.
  unfold debloat_conditional_m, debloat_conditional, bind, lift, get_fs.
  destruct (decode_rule r) as [[pats [[f d] s]]|e]; [apply rm_loop_Ok | done].
Qed.

Lemma debloat_conditional_m_Err prefix r w e :
  decode_rule r = Err e -> debloat_conditional_m prefix r w = (Err e, w).
Proof. intros Hr. unfold debloat_conditional_m, bind, lift. by rewrite Hr. Qed.

Lemma forM_conditional_Ok prefix rs w m' :
  foldM (debloat_conditional prefix) (w_fs w) rs = Ok m' ->
  forM_ rs (debloat_conditional_m prefix) w = (Ok tt, with_fs w m').
Proof.
  revert w. induction rs as [|r rs IH]; intros w Hf.
  - injection Hf as <-. by rewrite with_fs_self.
  - cbn [foldM] in Hf. destruct (debloat_conditional prefix (w_fs w) r) as [m1|e] eqn:E; [|done].
    rewrite forM_cons. unfold bind at 1. rewrite (debloat_conditional_m_Ok _ _ _ m1) by done.
    rewrite bind_Ok in Hf. by rewrite (IH (with_fs w m1) Hf).
Qed.



Lemma debloat_conditional_decoded prefix m r pats f d s :
  decode_rule r = Ok (pats, (f, d, s)) ->
  debloat_conditional prefix m r = for_glob m (glob m prefix pats) (rm_if_matching f d s).
Proof. intros Hr. unfold debloat_conditional. by rewrite Hr. Qed.

(** The tables all decode: the loop over them succeeds on a well-formed tree. *)
Lemma foldM_conditional_decoded prefix rs m :
  fs_wf m -> Forall (fun r => exists x, decode_rule r = Ok x) rs ->
  exists m', foldM (debloat_conditional prefix) m rs = Ok m' /\ fs_wf m'.
Proof.
  intros Hwf Hrs. revert m Hwf. induction Hrs as [|r rs [[pats [[f d] s]] Hr] _ IH]; intros m Hwf.
  - by exists m.
  - cbn [foldM]. rewrite (debloat_conditional_decoded prefix m r pats f d s Hr).
    rewrite (for_glob_del_loop _ (kind_cond f d s)) by (done || intros; by apply rm_if_matching_del_tree).
    rewrite bind_Ok. apply IH. by apply del_loop_wf.
Qed.

Lemma plain_patterns_split ps rs :
  plain_patterns (map DStr (plain_patterns ps) ++ map DDict rs) = plain_patterns ps.
Proof.
  generalize (plain_patterns ps). intros l.
  induction l as [|x l IH]; cbn; [by induction rs | by f_equal].
Qed.

Lemma conditional_patterns_split ps rs :
  conditional_patterns (map DStr (plain_patterns ps) ++ map DDict rs) = rs.
Proof.
  generalize (plain_patterns ps). intros l.
  induction l as [|x l IH]; cbn; [|done]. induction rs; cbn; by f_equal.
Qed.

End OnDisk.

(** ** Specification of the string patterns *)

Section Spec.
Context `{Matcher}.

(** An entry is removed by the string patterns when it, or one of its
    ancestors strictly below [prefix], is present and selected. *)
Definition removed_by (prefix : path) (pats : list str) (m : fs) (q : path) : bool :=
  existsb (fun a => lexists m a && bool_decide (below prefix a) && selected pats (drop (length prefix) a))
    (inits q).

Definition debloat_plain_spec (prefix : path) (pats : list str) (m : fs) : fs :=
  filter (fun '(q, _) => removed_by prefix pats m q = false) m.

Lemma removed_by_true prefix pats m q :
  removed_by prefix pats m q = true <->
  Exists (fun a => is_Some (m !! a) /\ a `prefix_of` q) (glob m prefix pats).
Proof.
  unfold removed_by. rewrite existsb_exists, Exists_exists. setoid_rewrite elem_of_glob.
  setoid_rewrite <- list_elem_of_In. setoid_rewrite elem_of_inits. unfold lexists.
  setoid_rewrite andb_true_iff. setoid_rewrite andb_true_iff. setoid_rewrite bool_decide_eq_true.
  naive_solver.
Qed.

End Spec.

(** ** Properties *)

(** C2: Refinement: the first loop of [_debloat] removes exactly the
    entries that are selected by the string patterns or lie under a
    selected entry, and keeps every other entry unchanged. *)
Theorem debloat_plain_refines `{Matcher} prefix pats m :
  fs_wf m -> for_glob m (glob m prefix pats) rm_path = Ok (debloat_plain_spec prefix pats m).
Proof.
  intros Hwf. rewrite (for_glob_del_loop _ (fun _ _ => true)) by (done || intros; by apply rm_path_del_tree).
  f_equal. apply map_eq. intros q. rewrite lookup_del_loop_all.
  unfold debloat_plain_spec. rewrite map_lookup_filter.
  pose proof (removed_by_true prefix pats m q) as Hiff.
  destruct (m !! q) as [e|]; simpl; [|by case_bool_decide].
  case_guard as Hg; case_bool_decide as HE; try done; exfalso.
  - apply Hiff in HE. congruence.
  - apply HE, Hiff. by destruct (removed_by prefix pats m q).
Qed.

(** C1: Debloating is idempotent: running [_debloat] with the same rules on
    the tree it produced removes nothing more. *)
Theorem debloat_idempotent `{Matcher} prefix ps m m' :
  fs_wf m -> debloat prefix ps m = Ok m' -> debloat prefix ps m' = Ok m'.
Proof.
  intros Hwf Hd. rewrite debloat_refines in Hd by done.
  destruct (mapM decode_rule (conditional_patterns ps)) as [rules|e] eqn:Hm; [|discriminate].
  injection Hd as <-.
  pose proof (run_rules_wf prefix (plain_rule ps :: map rule_of rules) m Hwf) as Hwf'.
  rewrite debloat_refines by exact Hwf'. rewrite Hm.
  f_equal. apply (run_rules_stable prefix (plain_rule ps :: map rule_of rules) m); [apply rules_mono | reflexivity].
Qed.

(** C28: [_debloat] fails only with the [KeyError] of a table without a
    ["pattern"] or ["rm_if"] key: removing files and directories never
    raises on a well-formed tree. *)
Theorem debloat_error_keyerror `{Matcher} prefix ps m e :
  fs_wf m -> debloat prefix ps m = Err e -> exists k, e = KeyError k.
Proof.
  intros Hwf. rewrite debloat_refines by done.
  destruct (mapM decode_rule _) as [rules|e'] eqn:Hm; [discriminate|]. intros [= <-].
  apply mapM_Err in Hm as (r & _ & Hr). unfold decode_rule, getitem in Hr.
  destruct (get (str_of "pattern") r); rewrite ?bind_Ok, ?bind_Err in Hr; [|inversion Hr; eauto].
  destruct (get (str_of "rm_if") r); rewrite ?bind_Ok, ?bind_Err in Hr; [discriminate | inversion Hr; eauto].
Qed.


(** C32: An exception of [_debloat] keeps the removals made before it:
    when the [k]-th table lacks its ["pattern"] or ["rm_if"] key and the
    tables before it are complete, [_debloat] raises that [KeyError] in a
    world whose tree is the one the string patterns and those [k] tables
    alone produce, the removals done on disk staying done. *)
Theorem debloat_m_keeps_removals `{Matcher} prefix ps k d e w :
  fs_wf (w_fs w) ->
  Forall (fun r => exists x, decode_rule r = Ok x) (take k (conditional_patterns ps)) ->
  conditional_patterns ps !! k = Some d -> decode_rule d = Err e ->
  exists m', debloat prefix (map DStr (plain_patterns ps) ++ map DDict (take k (conditional_patterns ps))) (w_fs w)
               = Ok m' /\
             debloat_m prefix ps w = (Err e, with_fs w m').
Proof.
  intros Hwf Hdec Hk Hd. unfold debloat. rewrite plain_patterns_split, conditional_patterns_split.
  assert (Hplain : for_glob (w_fs w) (glob (w_fs w) prefix (plain_patterns ps)) rm_path
                   = Ok (del_loop (fun _ _ => true) (w_fs w) (glob (w_fs w) prefix (plain_patterns ps)))).
  { apply (for_glob_del_loop _ (fun _ _ => true)); [intros; by apply rm_path_del_tree | done]. }
  rewrite Hplain, bind_Ok.
  destruct (foldM_conditional_decoded prefix _ _ (del_loop_wf (fun _ _ => true) _ (glob (w_fs w) prefix (plain_patterns ps)) Hwf) Hdec) as (m' & Hm' & _).
  exists m'. split; [done|].
  unfold debloat_m, bind at 1, get_fs. cbv beta. unfold bind at 1.
  rewrite (rm_loop_Ok _ _ _ _ Hplain).
  rewrite <- (take_drop_middle _ _ _ Hk), forM_app. unfold bind at 1.
  rewrite (forM_conditional_Ok prefix _ (with_fs w _) m' Hm').
  rewrite forM_cons. unfold bind. by rewrite (debloat_conditional_m_Err _ _ _ e).
Qed.

(** C3: A conditional pattern whose [rm_if] lacks ["dir"] never removes a
    directory; lacking ["dir"] and ["file"] it never removes a regular
    file; lacking all three kinds it changes nothing. *)
Theorem debloat_conditional_kinds `{Matcher} prefix m m' r pats f d s :
  fs_wf m -> decode_rule r = Ok (pats, (f, d, s)) -> debloat_conditional prefix m r = Ok m' ->
  (d = false -> forall q, m !! q = Some EDir -> m' !! q = Some EDir) /\
  (d = false -> f = false ->
     forall q data, m !! q = Some (EFile data) -> m' !! q = Some (EFile data)) /\
  (d = false -> f = false -> s = false -> m' = m).
Proof.
  intros Hwf Hdec. unfold debloat_conditional. rewrite Hdec, bind_Ok.
  rewrite (for_glob_del_loop _ (kind_cond f d s)) by (done || intros; by apply rm_if_matching_del_tree).
  intros [= <-]. split_and!.
  - intros -> q Hq. apply del_loop_keeps; [|done|done].
    intros m2 a Hwf2 Hq2 Ha Hc. destruct (kind_cond_leaf _ _ _ _ Ha Hc) as (ea & Hea & Hne).
    eapply leaf_not_prefix; eauto.
  - intros -> -> q data Hq. apply del_loop_keeps; [|done|done].
    intros m2 a Hwf2 Hq2 Ha Hc. unfold kind_cond, is_symlink in Hc. simpl in Hc.
    rewrite ?andb_false_r, ?orb_false_r in Hc.
    destruct (m2 !! a) as [[]|] eqn:Ha2; try discriminate.
    eapply leaf_not_prefix; eauto.
  - intros -> -> ->. apply del_loop_stable. intros q _ _.
    unfold kind_cond. by rewrite !andb_false_r.
Qed.

Lemma single_chars_not_word (w : str) (s : str) :
  length w <> 1 -> w ∉ map (fun c => [lower_char c]) s.
Proof. intros Hw. rewrite list_elem_of_In, in_map_iff. intros (c & <- & _). done. Qed.

(** An [rm_if] written as a string (["file"] instead of [["file"]]) is
    iterated character by character, so the pattern removes nothing. *)
Theorem rm_if_string_removes_nothing `{Matcher} prefix m r p s :
  fs_wf m -> get (str_of "pattern") r = Some p -> get (str_of "rm_if") r = Some (TStr s) ->
  debloat_conditional prefix m r = Ok m.
Proof.
  intros Hwf Hp Hs. unfold debloat_conditional, decode_rule, getitem. rewrite Hp, Hs. simpl.
  rewrite !bool_decide_eq_false_2 by (apply single_chars_not_word; done).
  rewrite (for_glob_del_loop _ (kind_cond false false false)) by (done || intros; by apply rm_if_matching_del_tree).
  f_equal. apply del_loop_stable. intros q _ _. unfold kind_cond. by rewrite !andb_false_r.
Qed.

(** ** Concrete trees: the matcher is [wc_match] *)

(** [p/t] is a file and [p/l] a symlink to it. *)
Definition link_tree : fs :=
  list_to_map [([], EDir); (["p"], EDir); (["p"; "t"], EFile []); (["p"; "l"], ELink ["p"; "t"])]%string.

(** [{pattern = "l", rm_if = ["file"]}] *)
Definition link_rule : dict str toml_val :=
  [(str_of "pattern", TStr (str_of "l")); (str_of "rm_if", TList [str_of "file"])].

(** [path.is_file()] follows symlinks, so a conditional pattern with
    [rm_if = ["file"]] removes a symlink to a regular file, although
    ["symlink"] is not in its delete set. *)
Theorem conditional_removes_symlink_to_file :
  link_tree !! ["p"; "l"]%string = Some (ELink ["p"; "t"]%string) /\
  debloat_conditional ["p"]%string link_tree link_rule = Ok (delete ["p"; "l"]%string link_tree).
Proof. split; vm_decide. Qed.

(** The string patterns all run before the first table, whatever the
    declaration order: declared as [[{pattern="l", rm_if=["file"]}, "t"]],
    the link survives (its target is gone when the table runs), while
    applying the two rules in declaration order removes both. *)
Theorem debloat_reorders_rules :
  debloat ["p"]%string [DDict link_rule; DStr (str_of "t")] link_tree
    = Ok (delete ["p"; "t"]%string link_tree) /\
  (debloat ["p"]%string [DDict link_rule] link_tree ≫= debloat ["p"]%string [DStr (str_of "t")])
    = Ok (delete ["p"; "t"]%string (delete ["p"; "l"]%string link_tree)).
Proof. split; vm_decide. Qed.

(** The outcome of a conditional pattern depends on the order in which
    the glob lists the entries: a symlink listed before its target file is
    removed with it, listed after it, it survives as a dangling link. *)
Theorem conditional_depends_on_listing_order :
  for_glob link_tree [["p"; "l"]; ["p"; "t"]]%string (rm_if_matching true false false)
    = Ok (delete ["p"; "t"]%string (delete ["p"; "l"]%string link_tree)) /\
  for_glob link_tree [["p"; "t"]; ["p"; "l"]]%string (rm_if_matching true false false)
    = Ok (delete ["p"; "t"]%string link_tree).
Proof. split; vm_decide. Qed.

(** A prefix with [share/man/python3.1], [lib/libpython3.13.a] and
    [lib/libpython3.13.so]. *)
Definition sample_tree : fs :=
  list_to_map [([], EDir); (["p"], EDir); (["p"; "share"], EDir); (["p"; "share"; "man"], EDir);
    (["p"; "share"; "man"; "python3.1"], EFile []); (["p"; "lib"], EDir);
    (["p"; "lib"; "libpython3.13.a"], EFile []); (["p"; "lib"; "libpython3.13.so"], EFile [])]%string.

(** The rules of the scenario of the specification:
    [["share/**", {pattern = "lib/*.a", rm_if = ["file"]}]]. *)
Definition sample_rules : list debloat_pattern :=
  [DStr (str_of "share/**");
   DDict [(str_of "pattern", TStr (str_of "lib/*.a")); (str_of "rm_if", TList [str_of "file"])]].

(** The scenario of the specification: nothing under [share/] remains,
    the static archive under [lib/] is removed, the shared library stays. *)
Theorem debloat_sample_scenario :
  debloat ["p"]%string sample_rules sample_tree =
    Ok (list_to_map [([], EDir); (["p"], EDir); (["p"; "lib"], EDir);
                     (["p"; "lib"; "libpython3.13.so"], EFile [])]%string).
Proof. vm_decide. Qed.

(** ** Witnesses *)

Lemma sample_tree_wf : fs_wf sample_tree.
Proof. apply fs_wfb_sound. vm_compute. reflexivity. Qed.

Lemma link_tree_wf : fs_wf link_tree.
Proof. apply fs_wfb_sound. vm_compute. reflexivity. Qed.

Lemma debloat_idempotent_witness :
  debloat ["p"]%string sample_rules sample_tree =
    Ok (list_to_map [([], EDir); (["p"], EDir); (["p"; "lib"], EDir);
                     (["p"; "lib"; "libpython3.13.so"], EFile [])]%string) /\
  debloat ["p"]%string sample_rules
    (list_to_map [([], EDir); (["p"], EDir); (["p"; "lib"], EDir);
                  (["p"; "lib"; "libpython3.13.so"], EFile [])]%string) =
    Ok (list_to_map [([], EDir); (["p"], EDir); (["p"; "lib"], EDir);
                     (["p"; "lib"; "libpython3.13.so"], EFile [])]%string).
Proof.
  assert (Hd : debloat ["p"]%string sample_rules sample_tree =
    Ok (list_to_map [([], EDir); (["p"], EDir); (["p"; "lib"], EDir);
                     (["p"; "lib"; "libpython3.13.so"], EFile [])]%string)) by vm_decide.
  split; [exact Hd | exact (debloat_idempotent _ _ _ _ sample_tree_wf Hd)].
Defined.

Lemma debloat_error_keyerror_witness :
  debloat ["p"]%string [DDict [(str_of "pattern", TStr (str_of "*"))]] sample_tree
    = Err (KeyError "rm_if") /\ exists k, KeyError "rm_if" = KeyError k.
Proof.
  assert (He : debloat ["p"]%string [DDict [(str_of "pattern", TStr (str_of "*"))]] sample_tree
                 = Err (KeyError "rm_if")) by vm_decide.
  split; [exact He | exact (debloat_error_keyerror _ _ _ _ sample_tree_wf He)].
Defined.

Lemma debloat_plain_refines_witness :
  fs_wf sample_tree /\
  for_glob sample_tree (glob sample_tree ["p"]%string [str_of "share/**"]) rm_path
    = Ok (debloat_plain_spec ["p"]%string [str_of "share/**"] sample_tree).
Proof. split; [exact sample_tree_wf | exact (debloat_plain_refines _ _ _ sample_tree_wf)]. Defined.

Lemma debloat_conditional_kinds_witness :
  decode_rule link_rule = Ok ([str_of "l"], (true, false, false)) /\
  debloat_conditional ["p"]%string link_tree link_rule = Ok (delete ["p"; "l"]%string link_tree) /\
  link_tree !! ["p"]%string = Some EDir /\
  delete ["p"; "l"]%string link_tree !! ["p"]%string = Some EDir.
Proof.
  assert (Hdec : decode_rule link_rule = Ok ([str_of "l"], (true, false, false))) by vm_decide.
  assert (Hrun : debloat_conditional ["p"]%string link_tree link_rule
                   = Ok (delete ["p"; "l"]%string link_tree)) by vm_decide.
  assert (Hp : link_tree !! ["p"]%string = Some EDir) by vm_decide.
  split_and!; [exact Hdec | exact Hrun | exact Hp |].
  destruct (debloat_conditional_kinds _ _ _ _ _ _ _ _ link_tree_wf Hdec Hrun) as [Hdir _].
  exact (Hdir eq_refl _ Hp).
Defined.


(** [share/**], then a table without [rm_if]: [share/] is gone when the
    [KeyError] is raised. *)
Lemma debloat_m_keeps_removals_witness :
  exists m', debloat ["p"]%string [DStr (str_of "share/**")] sample_tree = Ok m' /\
    debloat_m ["p"]%string [DStr (str_of "share/**"); DDict [(str_of "pattern", TStr (str_of "*"))]]
      (mk_world sample_tree [] [])
    = (Err (KeyError "rm_if"), with_fs (mk_world sample_tree [] []) m').
Proof.
  exact (debloat_m_keeps_removals ["p"]%string
           [DStr (str_of "share/**"); DDict [(str_of "pattern", TStr (str_of "*"))]] 0
           [(str_of "pattern", TStr (str_of "*"))] (KeyError "rm_if") (mk_world sample_tree [] [])
           sample_tree_wf (Forall_nil_2 _) eq_refl ltac:(vm_decide)).
Defined.

Lemma rm_if_string_removes_nothing_witness :
  debloat_conditional ["p"]%string link_tree
    [(str_of "pattern", TStr (str_of "*")); (str_of "rm_if", TStr (str_of "file"))] = Ok link_tree.
Proof.
  exact (rm_if_string_removes_nothing ["p"]%string link_tree
           [(str_of "pattern", TStr (str_of "*")); (str_of "rm_if", TStr (str_of "file"))]
           (TStr (str_of "*")) (str_of "file") link_tree_wf
           ltac:(vm_decide) ltac:(vm_decide)).
Defined.

End Debloat.
