(* ===== verification/Argparse.v ===== *)
(** * [argparse]: [ArgumentParser.parse_args] as the two scripts use it

    Both scripts call [parse_args()] first in [main]: [build.py] declares
    [-v/--version], [-c/--clean] and [-C/--config PATH]; [release.py] the
    positional [tag] and [-c/--cpython-tag STR], [--commit] and
    [-v/--version].  This file models [parse_args] from CPython 3.11's
    [argparse.py] ([parse_known_args], [_parse_known_args],
    [_parse_optional], [_get_option_tuples], [consume_optional],
    [consume_positionals], [_match_argument], [_get_values]) for the
    actions the scripts declare: [store] with one argument and a [type]
    conversion, [store_true], [version] and the automatic [help].

    The command line is first scanned into a pattern ([O] for an option,
    [A] for an argument, [-] for the first ["--"]), with the option each
    [O] stands for; an ambiguous abbreviation stops the parser there.  The
    main loop then consumes positionals and optionals alternately.  It is
    a [while] loop over an index, written with fuel: [parse_args_fuel_enough]
    shows that any fuel above the number of arguments gives the same
    answer, so [parse_args] never runs out.  An exit of the parser is the
    structured reason ([pexit]); the text of usage and help messages is
    not modelled, nor mutually exclusive groups, other [nargs] or
    [fromfile_prefix_chars], which the scripts do not use. *)

From S2P Require Import Prelude PyDict FileSystem Glob Effects.

Module Argparse.
Import PyDict FS Glob Effects.

(** ** Values, actions and parsers *)

#[local] Set Warnings "-register-all".

(** A value stored in the namespace: [None], a [bool], a [str], a [Path],
    or the list [_get_values] builds when it has not exactly one
    argument string left. *)
Inductive avalue :=
| VNone
| VBool (b : bool)
| VStr (s : str)
| VPath (p : path)
| VList (l : list avalue).

(** The action classes: [_StoreAction] with its [type] (identity when
    [type] is not given), [_StoreTrueAction], [_VersionAction] and
    [_HelpAction]. *)
Inductive akind :=
| AStore (conv : str -> avalue)
| AStoreTrue
| AVersion (version : str)
| AHelp.

(** An [Action]: [option_strings] (empty for a positional), [dest] and
    [default] ([None] standing for [SUPPRESS]). *)
Record action := mk_action {
  a_opts : list str;
  a_dest : str;
  a_kind : akind;
  a_default : option avalue
}.

(** [argparse.SUPPRESS] *)
Definition SUPPRESS : str := str_of "==SUPPRESS==".

(** [nargs]: [None] for [store], 0 for the others. *)
Definition takes_arg (a : action) : bool :=
  if a_kind a is AStore _ then true else false.

(** [action.required]: a positional with [nargs=None] is required,
    optionals are not unless [required=True], which no script passes. *)
Definition required (a : action) : bool := bool_decide (a_opts a = []).

(** [_get_action_name]: the option strings joined by ["/"], or the
    [dest] of a positional. *)
Definition action_name (a : action) : str :=
  match a_opts a with [] => a_dest a | os => join ["/"%char] os end.

(** An [ArgumentParser]: its [prog] and its actions in the order they were
    added, the [-h/--help] action of [add_help=True] first. *)
Record parser := mk_parser { p_prog : str; p_actions : list action }.

Definition help_action : action :=
  mk_action [str_of "-h"; str_of "--help"] SUPPRESS AHelp None.

(** [_option_string_actions], in registration order: each option string
    with the index of its action. *)
Definition option_string_actions (p : parser) : list (str * nat) :=
  concat (imap (fun i a => (fun o => (o, i)) <$> a_opts a) (p_actions p)).

Definition lookup_option (p : parser) (s : str) : option nat :=
  snd <$> head (filter (fun oi => oi.1 = s) (option_string_actions p)).

Definition action_at (p : parser) (i : nat) : option action := p_actions p !! i.

(** ** Classifying one argument string ([_parse_optional]) *)

Definition is_digit (c : ascii) : bool := bool_decide (48 <= nat_of_ascii c <= 57)%nat.

(** [s.split(c, 1)] when [s] holds a [c]. *)
Fixpoint split_once (c : ascii) (s : str) : option (str * str) :=
  match s with
  | [] => None
  | x :: s' => if decide (x = c) then Some ([], s') else (fun '(a, b) => (x :: a, b)) <$> split_once c s'
  end.

Definition split_eq : str -> option (str * str) := split_once "="%char.

Definition digits (s : str) : bool := bool_decide (s <> []) && forallb is_digit s.

(** [^-\d+$|^-\d*\.\d+$] without the final-newline case of [$]. *)
Definition neg_number_body (s : str) : bool :=
  match s with
  | "-"%char :: r =>
      digits r || match split_once "."%char r with
                  | Some (d, d') => forallb is_digit d && digits d'
                  | None => false
                  end
  | _ => false
  end.

(** [_negative_number_matcher.match(s)]: [$] also matches before a final
    newline. *)
Definition neg_number (s : str) : bool :=
  neg_number_body s || (bool_decide (last s = Some "010"%char) && neg_number_body (removelast s)).

(** [_has_negative_number_optionals] *)
Definition has_negative_number_optionals (p : parser) : bool :=
  existsb (fun oi => neg_number oi.1) (option_string_actions p).

Definition starts_with_str (pre s : str) : bool := bool_decide (pre `prefix_of` s).

(** An option tuple: the action (none for an unknown option), the option
    string and the explicit argument. *)
Definition otuple : Type := option nat * str * option str.

(** [_get_option_tuples(s)] for an [s] of two characters or more starting
    with ["-"]: long options are abbreviated up to an ["="], short ones
    take the rest of the string as explicit argument. *)
Definition option_tuples (p : parser) (s : str) : list otuple :=
  match s with
  | "-"%char :: "-"%char :: _ =>
      let '(pre, ex) := match split_eq s with Some (a, b) => (a, Some b) | None => (s, None) end in
      omap (fun '(o, i) => if starts_with_str pre o then Some (Some i, o, ex) else None)
        (option_string_actions p)
  | _ =>
      omap (fun '(o, i) =>
              if decide (o = take 2 s) then Some (Some i, o, Some (drop 2 s))
              else if starts_with_str s o then Some (Some i, o, None) else None)
        (option_string_actions p)
  end.

(** The reasons the parser exits: an error (status 2), or the [version]
    and [help] actions (status 0). *)
Inductive arg_error :=
| Ambiguous (option : str) (matches : list str)
| ExpectedOne (name : str)
| IgnoredExplicit (name : str) (arg : str)
| Required (names : list str)
| Unrecognized (args : list str).

Inductive pexit :=
| PError (e : arg_error)
| PVersion (text : str)
| PHelp.

Definition exit_code (e : pexit) : Z := if e is PError _ then 2%Z else 0%Z.

(** [_parse_optional(s)]: [None] when [s] is a positional argument. *)
Definition parse_optional (p : parser) (s : str) : pexit + option otuple :=
  match s with
  | [] => inr None
  | c :: _ =>
      if decide (c <> "-"%char) then inr None else
      match lookup_option p s with
      | Some i => inr (Some (Some i, s, None))
      | None =>
          if decide (length s = 1) then inr None else
          match split_eq s ≫= fun '(o, ex) => (fun i => (Some i, o, Some ex)) <$> lookup_option p o with
          | Some t => inr (Some t)
          | None =>
              match option_tuples p s with
              | [t] => inr (Some t)
              | (_ :: _ :: _) as ts => inl (PError (Ambiguous s ((fun t => t.1.2) <$> ts)))
              | [] =>
                  if neg_number s && negb (has_negative_number_optionals p) then inr None
                  else if decide (" "%char ∈ s) then inr None
                  else inr (Some (None, s, None))
              end
          end
      end
  end.

(** ** The pattern of the command line *)

Inductive pchar := PO | PA | PD.

Definition DOUBLE_DASH : str := str_of "--".

(** The scan of [_parse_known_args]: the pattern and [option_string_indices]
    in increasing index order; everything after the first ["--"] is an
    argument. *)
Fixpoint prescan (p : parser) (i : nat) (args : list str) : pexit + (list pchar * list (nat * otuple)) :=
  match args with
  | [] => inr ([], [])
  | a :: rest =>
      if decide (a = DOUBLE_DASH) then inr (PD :: ((fun _ => PA) <$> rest), [])
      else
        match parse_optional p a with
        | inl e => inl e
        | inr o =>
            match prescan p (S i) rest with
            | inl e => inl e
            | inr (pats, idx) =>
                match o with
                | None => inr (PA :: pats, idx)
                | Some t => inr (PO :: pats, (i, t) :: idx)
                end
            end
        end
  end.

(** ** Taking actions *)

(** The parse state: the namespace (attributes in the order they were
    first set), [seen_actions], the positionals left and [extras]. *)
Record pstate := mk_pstate {
  s_ns : dict str avalue;
  s_seen : list nat;
  s_positionals : list nat;
  s_extras : list str
}.

(** [list.remove("--")], ignoring a missing one. *)
Fixpoint remove_first (x : str) (l : list str) : list str :=
  match l with
  | [] => []
  | y :: l' => if decide (y = x) then l' else y :: remove_first x l'
  end.

(** [_get_value]: the [type] conversion. *)
Definition convert (a : action) (s : str) : avalue :=
  if a_kind a is AStore conv then conv s else VStr s.

(** [_get_values] for [nargs] None or 0. *)
Definition get_values (a : action) (args : list str) : avalue :=
  match remove_first DOUBLE_DASH args with
  | [s] => if takes_arg a then convert a s else VList [convert a s]
  | l => VList (convert a <$> l)
  end.

(** ["%(prog)s"] in a version string, formatted by [_format_text]. *)
Fixpoint subst_prog (prog : str) (v : str) : str :=
  match v with
  | "%"%char :: "("%char :: "p"%char :: "r"%char :: "o"%char :: "g"%char :: ")"%char :: "s"%char :: v' =>
      prog ++ subst_prog prog v'
  | c :: v' => c :: subst_prog prog v'
  | [] => []
  end.

(** [take_action(action, argument_strings)] *)
Definition take_action (p : parser) (st : pstate) (ai : nat) (args : list str) : pexit + pstate :=
  match action_at p ai with
  | None => inr st
  | Some a =>
      let st := mk_pstate (s_ns st) (ai :: s_seen st) (s_positionals st) (s_extras st) in
      let v := get_values a args in
      match a_kind a with
      | AStore _ => inr (mk_pstate (set (a_dest a) v (s_ns st)) (s_seen st) (s_positionals st) (s_extras st))
      | AStoreTrue => inr (mk_pstate (set (a_dest a) (VBool true) (s_ns st)) (s_seen st) (s_positionals st) (s_extras st))
      | AVersion ver => inl (PVersion (subst_prog (p_prog p) ver))
      | AHelp => inl PHelp
      end
  end.

Fixpoint take_actions (p : parser) (st : pstate) (ts : list (nat * list str)) : pexit + pstate :=
  match ts with
  | [] => inr st
  | (ai, args) :: ts' =>
      match take_action p st ai args with
      | inl e => inl e
      | inr st' => take_actions p st' ts'
      end
  end.

Definition add_extras (st : pstate) (xs : list str) : pstate :=
  mk_pstate (s_ns st) (s_seen st) (s_positionals st) (s_extras st ++ xs).

Definition slice {A} (l : list A) (i j : nat) : list A := take (j - i) (drop i l).

(** ** [consume_optional] *)

(** [_match_argument(action, pattern)] for an optional: ["(A)"] for
    [nargs=None], ["()"] for [nargs=0]. *)
Definition match_following (a : action) (pats : list pchar) : option nat :=
  if takes_arg a then (if pats is PA :: _ then Some 1 else None) else Some 0.

(** The branch without explicit argument: the action takes its arguments
    from the following strings. *)
Definition following (a : action) (ai : nat) (acc : list (nat * list str))
    (args : list str) (pats : list pchar) (start : nat) : pexit + (list (nat * list str) * nat) :=
  match match_following a (drop (S start) pats) with
  | None => inl (PError (ExpectedOne (action_name a)))
  | Some k => inr (acc ++ [(ai, slice args (S start) (S start + k))], S start + k)
  end.

(** The branch with an explicit argument: a single-dash option without
    argument passes the rest of the string on as the next short option
    ([-xyz] is [-x -y -z]). *)
Fixpoint explicit_loop (p : parser) (a : action) (ai : nat) (ostr ex : str)
    (acc : list (nat * list str)) (args : list str) (pats : list pchar) (start : nat)
    {struct ex} : pexit + (list (nat * list str) * nat) :=
  if takes_arg a then inr (acc ++ [(ai, [ex])], S start) else
  match ex, ostr with
  | c :: rest, o0 :: o1 :: _ =>
      if decide (o1 = "-"%char) then inl (PError (IgnoredExplicit (action_name a) ex)) else
      let ostr' := [o0; c] in
      match lookup_option p ostr' with
      | Some aj =>
          match action_at p aj with
          | Some a' =>
              match rest with
              | [] => following a' aj (acc ++ [(ai, [])]) args pats start
              | _ :: _ => explicit_loop p a' aj ostr' rest (acc ++ [(ai, [])]) args pats start
              end
          | None => inl (PError (IgnoredExplicit (action_name a) ex))
          end
      | None => inl (PError (IgnoredExplicit (action_name a) ex))
      end
  | _, _ => inl (PError (IgnoredExplicit (action_name a) ex))
  end.

(** [consume_optional(start_index)]: the actions found are taken in order
    once the whole string is parsed. *)
Definition consume_optional (p : parser) (args : list str) (pats : list pchar)
    (st : pstate) (start : nat) (t : otuple) : pexit + (pstate * nat) :=
  match t with
  | (None, _, _) => inr (add_extras st (slice args start (S start)), S start)
  | (Some ai, ostr, ex) =>
      match action_at p ai with
      | None => inr (st, S start)
      | Some a =>
          match (match ex with
                 | Some ex => explicit_loop p a ai ostr ex [] args pats start
                 | None => following a ai [] args pats start
                 end) with
          | inl e => inl e
          | inr (ts, stop) =>
              match take_actions p st ts with
              | inl e => inl e
              | inr st' => inr (st', stop)
              end
          end
      end
  end.

(** ** [consume_positionals] *)

Fixpoint count_dashes (pats : list pchar) : nat :=
  match pats with PD :: r => S (count_dashes r) | _ => 0 end.

(** The length of the match of a positional's pattern (dashes, one [A],
    dashes) at the start of the pattern, or [None]. *)
Definition match_one (pats : list pchar) : option nat :=
  let d := count_dashes pats in
  match drop d pats with
  | PA :: r => Some (d + 1 + count_dashes r)
  | _ => None
  end.

(** [_match_arguments_partial]: the longest prefix of the positionals
    whose concatenated patterns match; the greedy match of each one in
    turn is that of the concatenation. *)
Fixpoint match_partial (ps : list nat) (pats : list pchar) : list nat :=
  match ps with
  | [] => []
  | _ :: ps' =>
      match match_one pats with
      | Some k => k :: match_partial ps' (drop k pats)
      | None => []
      end
  end.

Fixpoint take_positionals (p : parser) (args : list str) (ps counts : list nat)
    (st : pstate) (start : nat) : pexit + (pstate * nat) :=
  match ps, counts with
  | ai :: ps', k :: counts' =>
      match take_action p st ai (slice args start (start + k)) with
      | inl e => inl e
      | inr st' => take_positionals p args ps' counts' st' (start + k)
      end
  | _, _ => inr (st, start)
  end.

Definition consume_positionals (p : parser) (args : list str) (pats : list pchar)
    (st : pstate) (start : nat) : pexit + (pstate * nat) :=
  let counts := match_partial (s_positionals st) (drop start pats) in
  match take_positionals p args (s_positionals st) counts st start with
  | inl e => inl e
  | inr (st', stop) =>
      inr (mk_pstate (s_ns st') (s_seen st') (drop (length counts) (s_positionals st)) (s_extras st'), stop)
  end.

(** ** The main loop and [parse_args] *)

(** [while start_index <= max_option_string_index: ...], on fuel. *)
Fixpoint parse_loop (p : parser) (args : list str) (pats : list pchar)
    (idx : list (nat * otuple)) (fuel : nat) (st : pstate) (start : nat)
    : option (pexit + (pstate * nat)) :=
  match fuel with
  | 0 => None
  | S fuel =>
      match filter (fun it => start <= it.1) idx with
      | [] => Some (inr (st, start))
      | (next, t) :: _ =>
          let optional st :=
            match consume_optional p args pats st next t with
            | inl e => Some (inl e)
            | inr (st', stop) => parse_loop p args pats idx fuel st' stop
            end in
          if decide (start = next) then optional st else
          match consume_positionals p args pats st start with
          | inl e => Some (inl e)
          | inr (st', pend) =>
              if decide (start < pend) then parse_loop p args pats idx fuel st' pend
              else optional (add_extras st' (slice args pend next))
          end
      end
  end.

(** The namespace of [parse_known_args] before parsing: each action's
    default, unless its [dest] or its default is [SUPPRESS] or an earlier
    action set the attribute. *)
Definition initial_ns (p : parser) : dict str avalue :=
  foldl (fun ns a =>
    if decide (a_dest a = SUPPRESS) then ns else
    match a_default a with
    | Some v => if get (a_dest a) ns is Some _ then ns else set (a_dest a) v ns
    | None => ns
    end) [] (p_actions p).

Definition positionals (p : parser) : list nat :=
  omap (fun '(i, a) => if required a then Some i else None) (imap pair (p_actions p)).

(** A string default still in the namespace is converted with [type]
    (Python tests identity, the model equality). *)
Definition convert_default (ns : dict str avalue) (a : action) : dict str avalue :=
  match a_default a with
  | Some (VStr s) =>
      match get (a_dest a) ns with
      | Some (VStr s') => if decide (s' = s) then set (a_dest a) (convert a s) ns else ns
      | _ => ns
      end
  | _ => ns
  end.

(** After the loop: the last positionals, the extras, the required
    actions never seen, the defaults and, in [parse_args], the
    unrecognized arguments. *)
Definition finish (p : parser) (args : list str) (pats : list pchar) (st : pstate)
    (start : nat) : pexit + dict str avalue :=
  match consume_positionals p args pats st start with
  | inl e => inl e
  | inr (st, stop) =>
      let extras := s_extras st ++ drop stop args in
      let unseen := omap (fun '(i, a) => if decide (i ∈ s_seen st) then None else Some a)
                      (imap pair (p_actions p)) in
      match filter (fun a => required a = true) unseen with
      | (_ :: _) as missing => inl (PError (Required (action_name <$> missing)))
      | [] =>
          let ns := foldl convert_default (s_ns st) unseen in
          match extras with
          | [] => inr ns
          | _ :: _ => inl (PError (Unrecognized extras))
          end
      end
  end.

Inductive outcome :=
| Parsed (ns : dict str avalue)
| Exit (e : pexit).

Definition parse_args_fuel (p : parser) (fuel : nat) (args : list str) : option outcome :=
  match prescan p 0 args with
  | inl e => Some (Exit e)
  | inr (pats, idx) =>
      match parse_loop p args pats idx fuel (mk_pstate (initial_ns p) [] (positionals p) []) 0 with
      | None => None
      | Some (inl e) => Some (Exit e)
      | Some (inr (st, start)) =>
          Some (match finish p args pats st start with inl e => Exit e | inr ns => Parsed ns end)
      end
  end.

(** [parser.parse_args(args)], with one round of fuel per argument and
    one more; [parse_args_total] shows it always answers. *)
Definition parse_args (p : parser) (args : list str) : option outcome :=
  parse_args_fuel p (S (length args)) args.

(** [args.<dest>] *)
Definition attr (ns : dict str avalue) (d : str) : result avalue :=
  match get d ns with
  | Some v => Ok v
  | None => Err (AttributeError "'Namespace' object has no attribute")
  end.

(** Python truthiness of a namespace value ([Path] objects are true). *)
Definition truthy (v : avalue) : bool :=
  match v with
  | VNone => false
  | VBool b => b
  | VStr s => bool_decide (s <> [])
  | VPath _ => true
  | VList l => bool_decide (l <> [])
  end.

(** ** Termination of the main loop *)

(** Every option index of the scan points into the command line. *)
Lemma prescan_bound p i args pats idx :
  prescan p i args = inr (pats, idx) -> forall j t, (j, t) ∈ idx -> i <= j < i + length args.
Proof.
  revert i pats idx; induction args as [|a rest IH]; intros i pats idx H j t Hj; cbn [prescan] in H.
  - injection H as <- <-. set_solver.
  - case_decide; [injection H as <- <-; set_solver|].
    destruct (parse_optional p a) as [e|o]; [done|].
    destruct (prescan p (S i) rest) as [e|[pats' idx']] eqn:E; [done|].
    pose proof (IH _ _ _ E) as IH'. cbn [length].
    destruct o as [t'|]; injection H as <- <-.
    + apply elem_of_cons in Hj as [[= -> ->]|Hj]; [lia|]. specialize (IH' _ _ Hj). lia.
    + specialize (IH' _ _ Hj). lia.
Qed.

Lemma following_stop a ai acc args pats start ts stop :
  following a ai acc args pats start = inr (ts, stop) -> start < stop.
Proof. unfold following. destruct (match_following _ _); [intros [= _ <-]; lia | done]. Qed.

Lemma explicit_loop_stop p a ai ostr ex acc args pats start ts stop :
  explicit_loop p a ai ostr ex acc args pats start = inr (ts, stop) -> start < stop.
Proof.
  revert a ai ostr acc. induction ex as [|c rest IH]; intros a ai ostr acc; cbn [explicit_loop].
  - destruct (takes_arg a); [intros [= _ <-]; lia|]. by destruct ostr as [|? [|? ?]].
  - destruct (takes_arg a); [intros [= _ <-]; lia|].
    destruct ostr as [|o0 [|o1 ?]]; try done. case_decide; [done|].
    destruct (lookup_option p [o0; c]) as [aj|]; [|done]. destruct (action_at p aj); [|done].
    destruct rest; [apply following_stop | apply IH].
Qed.

(** [consume_optional] always moves past the option string. *)
Lemma consume_optional_stop p args pats st start t st' stop :
  consume_optional p args pats st start t = inr (st', stop) -> start < stop.
Proof.
  unfold consume_optional. destruct t as [[[ai|] ostr] ex]; [|intros [= _ <-]; lia].
  destruct (action_at p ai); [|intros [= _ <-]; lia].
  destruct ex as [ex|];
    [destruct (explicit_loop _ _ _ _ _ _ _ _ _) as [e|[ts stop']] eqn:E
    |destruct (following _ _ _ _ _ _) as [e|[ts stop']] eqn:E]; try done;
    destruct (take_actions p st ts); try done; intros [= _ <-];
    [eapply explicit_loop_stop | eapply following_stop]; eauto.
Qed.

(** Each round of the loop consumes an argument, so fuel above the number
    of arguments left is enough, and any two such fuels agree. *)
Lemma parse_loop_fuel p args pats idx :
  (forall j t, (j, t) ∈ idx -> j < length args) ->
  forall f1 f2 st start, length args - start < f1 -> length args - start < f2 ->
  exists r, parse_loop p args pats idx f1 st start = Some r /\
            parse_loop p args pats idx f2 st start = Some r.
Proof.
  intros Hidx f1. induction f1 as [|f1 IH]; intros [|f2] st start H1 H2; try lia.
  cbn [parse_loop].
  destruct (filter (fun it => start <= it.1) idx) as [|[next t] rest] eqn:Hf; [eauto|].
  assert ((next, t) ∈ filter (fun it => start <= it.1) idx) as Hin by (rewrite Hf; left).
  apply list_elem_of_filter in Hin as [Hle Hin]. specialize (Hidx _ _ Hin). simpl in Hle.
  case_decide.
  - destruct (consume_optional p args pats st next t) as [e|[st' stop]] eqn:E; [eauto|].
    apply consume_optional_stop in E. apply IH; lia.
  - destruct (consume_positionals p args pats st start) as [e|[st' pend]]; [eauto|].
    case_decide; [apply IH; lia|].
    destruct (consume_optional p args pats (add_extras st' (slice args pend next)) next t)
      as [e|[st'' stop]] eqn:E; [eauto|].
    apply consume_optional_stop in E. apply IH; lia.
Qed.

(** [parse_args] never runs out of fuel, and more fuel changes nothing. *)
Lemma parse_args_fuel_enough p args f :
  length args < f -> parse_args_fuel p f args = parse_args p args /\ is_Some (parse_args p args).
Proof.
  intros Hf. unfold parse_args, parse_args_fuel.
  destruct (prescan p 0 args) as [e|[pats idx]] eqn:E; [eauto|].
  edestruct (parse_loop_fuel p args pats idx) with (f1 := f) (f2 := S (length args)) (start := 0)
    as (r & -> & ->); [|lia|lia|].
  - intros j t Hj. pose proof (prescan_bound _ _ _ _ _ E _ _ Hj). lia.
  - destruct r as [e|[st s]]; eauto.
Qed.

(** [_get_values] strips a single argument only when it is ["--"]. *)
Lemma remove_first_single (d c : str) : c <> d -> remove_first d [c] = [c].
Proof. intros H. cbn. by rewrite decide_False. Qed.

End Argparse.
