(* ===== verification/Packaging.v ===== *)
(** * [ModuleBuilder]: from the installed prefixes to the Magisk zip

    [ModuleBuilder.build(source_code)] downloads [cacert.pem] into
    [build/] (unless it is there) and appends it to [config.include];
    then for each host it debloats, fixes the shebangs of [bin/] and
    strips the prefix [source_code/cross-build/<host>/prefix] as the
    configuration asks, and compresses it to
    [build/cpython-<arch>.tar.xz]; finally [_package_module] writes
    [dist/<name>] with [module.prop] (its description replaced), the
    tarballs and the included files.

    The builder's state is the record [builder]: the configuration (whose
    [include] list the cacert step extends), the toolchain, the hosts and
    the formatted description.  The operations are computations of
    [Effects.M] over the tree and the command log; the external programs
    are the parameter [exec] and the archive encoders ([tarfile],
    [zipfile]) the class [Archivers]: the member lists are modelled, the
    bytes of the encodings are not. *)

From stdpp Require Import sorting.
From S2P Require Import Prelude PyDict Template Bytes ModuleProp Regex Shebang FileSystem Glob Debloat Effects.

Module Packaging.
Import FS PyDict Glob Debloat Effects Shebang Utf8.

(** ** Configuration and state *)

(** [ModuleConfig]; [name] is the text of the [Template]. *)
Record module_config := mk_module_config {
  debloat_ : bool;
  debloat_patterns : list debloat_pattern;
  fix_shebangs_ : bool;
  include : list path;
  name : str;
  strip_ : bool;
  strip_args : list str
}.

(** The attributes of a [ModuleBuilder]; [toolchain] is outside the
    project, so it is kept as the text of its path. *)
Record builder := mk_builder {
  config : module_config;
  toolchain : str;
  hosts : list str;
  description : str
}.

(** [ModuleBuilder.arch_mapping] *)
Definition arch_mapping : dict str str :=
  [(str_of "aarch64-linux-android", str_of "arm64");
   (str_of "arm-linux-androideabi", str_of "arm");
   (str_of "armv7a-linux-androideabi", str_of "arm");
   (str_of "i686-linux-android", str_of "x86");
   (str_of "x86_64-linux-android", str_of "x64")].

(** [ModuleBuilder.__init__]: [description.format(cpython_version)]. *)
Definition init_builder (cfg : module_config) (tc : str) (cpython_version : str) (hs : list str) : builder :=
  mk_builder cfg tc hs (str_of "CPython " ++ cpython_version ++ str_of " for Android").

(** [compressed_name.format(magisk_arch)] *)
Definition compressed_name (arch : str) : string :=
  String.string_of_list_ascii (str_of "cpython-" ++ arch ++ str_of ".tar.xz").

(** ** Archives *)

Inductive zip_member :=
| ZFile (arcname : list string) (data : list byte)
| ZDir (arcname : list string).

#[export] Instance zip_member_eq_dec : EqDecision zip_member.
Proof. solve_decision. Defined.

(** The encoders of the archive libraries. *)
Class Archivers := {
  tar_xz : list (list string * entry) -> list byte;
  tar_xz_aborted : list byte;
  zip_encode : list zip_member -> list byte
}.

(** Python's order on [str] (code points), extended to paths. *)
Fixpoint path_leb (p q : path) : bool :=
  match p, q with
  | [], _ => true
  | _ :: _, [] => false
  | x :: p', y :: q' =>
      match String.compare x y with Lt => true | Gt => false | Eq => path_leb p' q' end
  end.

Definition path_le (p q : path) : Prop := path_leb p q = true.
#[export] Instance path_le_dec : RelDecision path_le.
Proof. intros p q. unfold path_le. apply _. Defined.

Definition member_le (a b : path * entry) : Prop := path_le a.1 b.1.
#[export] Instance member_le_dec : RelDecision member_le.
Proof. intros a b. unfold member_le. apply _. Defined.

(** [tar.add(prefix, prefix.name)]: the prefix and everything below it,
    links not followed, each directory's names in sorted order (so the
    paths in lexicographic order), named from [prefix.name]. *)
Definition tar_members (m : fs) (prefix : path) : list (list string * entry) :=
  (fun '(q, e) => (drop (length prefix - 1) q, e)) <$>
    merge_sort member_le
      (filter (fun '(q, _) => prefix `prefix_of` q) (map_to_list m)).

Section Builder.
Context `{Matcher} `{Archivers}.
Variable exec : fs -> command -> completed * fs.
(** [sys.platform] *)
Variable platform : str.

(** ** [_download_and_include_cacert] *)

Definition cacert_path : path := BUILD_DIR </> "cacert.pem".

Definition curl_cacert : command :=
  cmd (map str_of ["curl"; "-Lf"; "--retry"; "5"; "--retry-all-errors"; "-o";
                   "build/cacert.pem"; "https://curl.se/ca/cacert.pem"]).

(** [self.config.include.append(p)]: the list is shared with the config. *)
Definition include_append (b : builder) (p : path) : builder :=
  let c := config b in
  mk_builder (mk_module_config (debloat_ c) (debloat_patterns c) (fix_shebangs_ c)
                (include c ++ [p]) (name c) (strip_ c) (strip_args c))
             (toolchain b) (hosts b) (description b).

Definition download_and_include_cacert (b : builder) : M builder :=
  let* m := get_fs in
  if exists_ m cacert_path then ret (include_append b cacert_path)
  else run exec curl_cacert ;;; ret (include_append b cacert_path).

(** ** [_fix_shebangs] *)

(** One iteration: skip what is not a regular file or is a link, read the
    file, and write it back when its first line is replaced. *)
Definition fix_one (m : fs) (q : path) : result fs :=
  if negb (is_file m q) || is_symlink m q then Ok m
  else data ← read_bytes m q;
       match fix_content data with
       | Some content => write_bytes m q content
       | None => Ok m
       end.

Definition fix_shebangs (prefix : path) (m : fs) : result fs :=
  paths ← iterdir m (prefix </> "bin");
  foldM fix_one m paths.

(** ** [_strip] *)

Definition llvm_strip : str :=
  str_of "llvm-strip" ++ (if decide (platform = str_of "nt") then str_of ".exe" else []).

Definition strip_patterns : list str := [str_of "bin/*"; str_of "lib/**/*.{so,a}"].

Definition strip_command (b : builder) (prefix : path) (env : dict str str) (q : path) : command :=
  mk_command (llvm_strip :: strip_args (config b) ++ [path_str (drop (length prefix) q)])
    (Some prefix) (Some env) false false.

(** The loop body: skip what is not a regular file or is a link. *)
Definition strip_one (b : builder) (prefix : path) (env : dict str str) (q : path) : M unit :=
  let* m := get_fs in
  if negb (is_file m q) || is_symlink m q then ret tt
  else run exec (strip_command b prefix env q) ;;; ret tt.

(** [env] is a copy of [os.environ] with the toolchain's [bin] first in
    [PATH]; each command runs with [check=False]. *)
Definition strip (b : builder) (prefix : path) : M unit :=
  fun w =>
    let env := update_env_path (w_environ w) (str_of "PATH") [toolchain b ++ str_of "/bin"] in
    (let* m := get_fs in forM_ (glob m prefix strip_patterns) (strip_one b prefix env)) w.

(** ** [_compress] *)

(** [arch_mapping[host]] *)
Definition magisk_arch (host : str) : result str :=
  match get host arch_mapping with
  | Some a => Ok a
  | None => Err (KeyError (String.string_of_list_ascii host))
  end.

Definition tarball_path (arch : str) : path := BUILD_DIR </> compressed_name arch.

(** [tarfile.open(tarball_path, "w:xz")] creates the file; [tar.add]
    raises on a missing prefix, leaving an aborted archive. *)
Definition compress (prefix : path) (host : str) : M path :=
  let* arch := lift (magisk_arch host) in
  let* m := get_fs in
  if bool_decide (is_Some (m !! prefix)) then
    fs_op (fun m => write_bytes m (tarball_path arch) (tar_xz (tar_members m prefix))) ;;;
    ret (tarball_path arch)
  else
    fs_op (fun m => write_bytes m (tarball_path arch) tar_xz_aborted) ;;;
    raise (FileNotFoundError prefix).

(** ** [_package_module] *)

Definition module_prop_path : path := MODULE_DIR </> "module.prop".

(** [parse_module_prop()]: read and decode [module/module.prop]. *)
Definition read_module_prop (m : fs) : result (dict str str) :=
  data ← read_bytes m module_prop_path;
  match utf8_decode data with
  | Some text => Ok (ModuleProp.parse_module_prop text)
  | None => Err (ValueError "'utf-8' codec can't decode")
  end.

(** [DIST_DIR / name] *)
Definition dist_path (zip_name : str) : path := path_join DIST_DIR zip_name.

(** [entry.walk(follow_symlinks=False)] yields, for each directory it
    reaches from [entry], the names that are not directories ([lstat]:
    links included); a missing or non-directory [entry] yields nothing.
    Each file as the path read and its path relative to [entry]. *)
Definition walk_files (m : fs) (entry : path) : list (path * list string) :=
  match resolve_path MAXSYMLINKS m entry with
  | Some d =>
      if bool_decide (m !! d = Some EDir) then
        (fun q => (q, drop (length d) q)) <$>
          filter (fun q => below d q /\ m !! q <> Some EDir) (fst <$> map_to_list m)
      else []
  | None => []
  end.

(** What the loop over [(MODULE_DIR, *tarballs, *include)] writes for
    one entry: a file under its name, or the walked files but those named
    [module.prop]. *)
Definition entry_tasks (m : fs) (entry : path) : list (path * list string) :=
  if is_file m entry then [(entry, from_option (fun x => [x]) [] (last entry))]
  else filter (fun '(q, _) => last q <> Some "module.prop"%string) (walk_files m entry).

(** [zout.write(path, arcname)]: [os.stat] follows links; a directory
    is written as a directory member. *)
Definition zip_write (m : fs) (q : path) (arcname : list string) : result zip_member :=
  e ← stat_r m q;
  match e with
  | EFile data => Ok (ZFile arcname data)
  | _ => Ok (ZDir arcname)
  end.

(** The members written, up to the first exception. *)
Fixpoint write_members (m : fs) (tasks : list (path * list string)) : list zip_member * option py_exc :=
  match tasks with
  | [] => ([], None)
  | (q, arc) :: tasks' =>
      match zip_write m q arc with
      | Ok z => let '(zs, err) := write_members m tasks' in (z :: zs, err)
      | Err e => ([], Some e)
      end
  end.

Definition package_tasks (b : builder) (m : fs) (tarballs : list path) : list (path * list string) :=
  mjoin (entry_tasks m <$> (MODULE_DIR :: tarballs ++ include (config b))).

(** The [with ZipFile(...)] block closes the archive on an exception
    too: the members written so far are in the file. *)
Definition package_module (b : builder) (tarballs : list path) : M unit :=
  let* m := get_fs in
  let* props0 := lift (read_module_prop m) in
  let props := set (str_of "description") (description b) props0 in
  let* zip_name := lift (Template.substitute props (name (config b))) in
  let '(members, err) := write_members m (package_tasks b m tarballs) in
  fs_op (fun m => write_bytes m (dist_path zip_name)
           (zip_encode (ZFile ["module.prop"%string] (utf8_encode (ModuleProp.format_module_prop props)) :: members))) ;;;
  match err with Some e => raise e | None => ret tt end.

(** ** [build] *)

(** The steps for one host. *)
Definition process_host (b : builder) (source_code : path) (host : str) : M path :=
  let prefix := host_prefix source_code host in
  (if debloat_ (config b) then debloat_m prefix (debloat_patterns (config b)) else ret tt) ;;;
  (if fix_shebangs_ (config b) then fs_op (fix_shebangs prefix) else ret tt) ;;;
  (if strip_ (config b) then strip b prefix else ret tt) ;;;
  compress prefix host.

Definition build (b : builder) (source_code : path) : M unit :=
  let* b' := download_and_include_cacert b in
  let* tarballs := mapM_M (process_host b' source_code) (hosts b') in
  package_module b' tarballs.

End Builder.

(** ** [_fix_shebangs] *)

(** What the loop does to one entry of [bin/]. *)
Definition fix_entry (e : entry) : entry :=
  match e with EFile d => EFile (fix_file d) | _ => e end.

(** The tree after the loop over [bin]: every regular file directly in
    [bin] has its shebang fixed. *)
Definition fix_bin (bin : path) (m : fs) : fs :=
  map_imap (fun q e => Some (if decide (is_child bin q) then fix_entry e else e)) m.

Definition fix_at (m : fs) (q : path) : fs :=
  match m !! q with Some (EFile d) => <[q := EFile (fix_file d)]> m | _ => m end.

Lemma fix_one_fix_at m q : fix_one m q = Ok (fix_at m q).
Proof.
  unfold fix_one, fix_at. destruct (m !! q) as [[d| |t]|] eqn:E.
  - rewrite (is_file_EFile _ _ d), (read_bytes_EFile _ _ d) by done.
    unfold is_symlink, fix_file, write_bytes. rewrite E. simpl.
    destruct (fix_content d); simpl; [done|]. by rewrite insert_id.
  - by rewrite is_file_EDir.
  - unfold is_symlink. rewrite E. by destruct (negb _).
  - by rewrite is_file_None.
Qed.

Lemma lookup_fix_at m q q' :
  fix_at m q !! q' = if decide (q = q') then fix_entry <$> m !! q' else m !! q'.
Proof.
  unfold fix_at. case_decide as Hq; [subst q'|];
    destruct (m !! q) as [[]|] eqn:E; rewrite ?E; simpl; try done;
    by rewrite ?lookup_insert_eq, ?lookup_insert_ne.
Qed.

Lemma lookup_fold_fix_at l m q :
  NoDup l -> fold_left fix_at l m !! q = if decide (q ∈ l) then fix_entry <$> m !! q else m !! q.
Proof.
  revert m. induction l as [|q0 l IH]; intros m Hnd; [done|]. apply NoDup_cons in Hnd as [Hq0 Hnd].
  simpl. rewrite IH, lookup_fix_at by done.
  destruct (decide (q0 = q)) as [->|Hne].
  - rewrite decide_False, decide_True by (set_solver || done). done.
  - repeat case_decide; set_solver.
Qed.

Lemma fix_shebangs_fold prefix m :
  m !! (prefix </> "bin") = Some EDir ->
  fix_shebangs prefix m = Ok (fold_left fix_at (filter (is_child (prefix </> "bin")) (fst <$> map_to_list m)) m).
Proof.
  intros Hbin. unfold fix_shebangs, iterdir. rewrite (stat_nonlink _ _ EDir) by done. simpl.
  apply foldM_total, fix_one_fix_at.
Qed.

(** C5: With [bin/] a directory of the prefix, [_fix_shebangs] succeeds
    and its result is [fix_bin]: each regular file directly in [bin/]
    is rewritten as [fix_file] says, and every other entry (links,
    subdirectories and their files, files outside [bin/]) is unchanged. *)
Theorem fix_shebangs_spec prefix m :
  m !! (prefix </> "bin") = Some EDir ->
  fix_shebangs prefix m = Ok (fix_bin (prefix </> "bin") m).
Proof.
  intros Hbin. rewrite fix_shebangs_fold by done. f_equal. apply map_eq. intros q.
  rewrite lookup_fold_fix_at by apply NoDup_filter, NoDup_fst_map_to_list.
  unfold fix_bin. rewrite map_lookup_imap.
  destruct (m !! q) as [e|] eqn:E; simpl; [|by case_decide].
  pose proof (elem_of_keys_fst m q e E).
  repeat case_decide; rewrite ?list_elem_of_filter in *; naive_solver.
Qed.

(** ** [_strip] *)

(** Two trees with the same regular files and the same links. *)
Definition same_kinds (m1 m2 : fs) : Prop :=
  forall q, is_file m1 q = is_file m2 q /\ is_symlink m1 q = is_symlink m2 q.

Lemma same_kinds_trans m1 m2 m3 : same_kinds m1 m2 -> same_kinds m2 m3 -> same_kinds m1 m3.
Proof. intros H12 H23 q. destruct (H12 q), (H23 q). split; congruence. Qed.

Definition strippable (m : fs) (q : path) : Prop := is_file m q = true /\ is_symlink m q = false.

#[export] Instance strippable_dec m q : Decision (strippable m q).
Proof. unfold strippable. apply _. Defined.

Section Strip.
Context `{Matcher}.
Variable exec : fs -> command -> completed * fs.
Variable platform : str.
(** The external tool keeps each entry's kind ([llvm-strip] rewrites
    files in place). *)
Hypothesis exec_kinds : forall m c, same_kinds m (exec m c).2.

Lemma strip_one_step b prefix env m q w :
  same_kinds m (w_fs w) ->
  strip_one exec platform b prefix env q w =
    if decide (strippable m q) then
      (Ok tt, mk_world (exec (w_fs w) (strip_command platform b prefix env q)).2 (w_environ w)
                (w_log w ++ [strip_command platform b prefix env q]))
    else (Ok tt, w).
Proof.
  intros Hk. destruct (Hk q) as [Hf Hs]. unfold strip_one, bind at 1. cbn [get_fs].
  rewrite <- Hf, <- Hs. case_decide as Hst.
  - destruct Hst as [Hf1 Hs1]. rewrite Hf1, Hs1. simpl. unfold bind. by rewrite run_unchecked.
  - unfold strippable in Hst. destruct (is_file m q), (is_symlink m q); simpl; naive_solver.
Qed.

Lemma strip_loop b prefix env m cands w :
  same_kinds m (w_fs w) ->
  let r := forM_ cands (strip_one exec platform b prefix env) w in
  r.1 = Ok tt /\ w_environ r.2 = w_environ w /\ same_kinds m (w_fs r.2) /\
  w_log r.2 = w_log w ++ (strip_command platform b prefix env <$> filter (strippable m) cands).
Proof.
  revert w. induction cands as [|q cands IH]; intros w Hk; simpl; [by rewrite app_nil_r|].
  unfold bind. rewrite (strip_one_step _ _ _ m) by done. rewrite filter_cons.
  case_decide.
  - destruct (IH (mk_world (exec (w_fs w) (strip_command platform b prefix env q)).2
                   (w_environ w) (w_log w ++ [strip_command platform b prefix env q])))
      as (? & ? & ? & ->); [eapply same_kinds_trans; eauto|].
    simpl. rewrite <- app_assoc. done.
  - destruct (IH w Hk) as (? & ? & ? & ->). done.
Qed.

(** C10: [_strip] never raises, whatever the tool returns ([check=False]);
    it leaves [os.environ] as it was, since it edits a copy; it runs
    [llvm-strip] once for each path that the glob of [bin/*] and
    [lib/**/*.{so,a}] yields and that is a regular file and not a link,
    in the glob's order, with the path relative to the prefix; and the
    commands see the toolchain's [bin] at the front of [PATH]. *)
Theorem strip_spec b prefix w :
  let m := w_fs w in
  let env := update_env_path (w_environ w) (str_of "PATH") [toolchain b ++ str_of "/bin"] in
  (strip exec platform b prefix w).1 = Ok tt /\
  w_environ (strip exec platform b prefix w).2 = w_environ w /\
  w_log (strip exec platform b prefix w).2 =
    w_log w ++ (strip_command platform b prefix env <$> filter (strippable m) (glob m prefix strip_patterns)) /\
  (exists path, get (str_of "PATH") env = Some path /\ (toolchain b ++ str_of "/bin") `prefix_of` path).
Proof.
  intros m env. unfold strip. fold env. unfold bind at 1. cbn [get_fs].
  assert (same_kinds m (w_fs w)) by done.
  destruct (strip_loop b prefix env m (glob m prefix strip_patterns) w) as (? & ? & _ & ?); [done|].
  split_and!; try done.
  unfold env. rewrite update_env_path_get, decide_True by done. eexists; split; [done|].
  destruct (get _ (w_environ w)) as [old|]; simpl; [|done]. by exists (str_of ":" ++ old).
Qed.

End Strip.

(** ** [_compress] *)

Section Compress.
Context `{Archivers}.

(** C8: [_compress] on a host missing from [arch_mapping] raises
    [KeyError(host)] before touching anything. *)
Theorem compress_unknown_host prefix host w :
  get host arch_mapping = None ->
  compress prefix host w = (Err (KeyError (String.string_of_list_ascii host)), w).
Proof. intros Hh. unfold compress, magisk_arch. by rewrite Hh. Qed.

(** On a mapped host whose prefix exists, with [build/] a directory
    and no directory at the tarball's path, [_compress] writes the
    archive of the prefix to [build/cpython-<arch>.tar.xz] and returns
    that path; nothing else changes. *)
Theorem compress_ok prefix host arch w :
  magisk_arch host = Ok arch ->
  is_Some (w_fs w !! prefix) ->
  w_fs w !! BUILD_DIR = Some EDir ->
  w_fs w !! tarball_path arch <> Some EDir ->
  compress prefix host w =
    (Ok (tarball_path arch),
     mk_world (<[tarball_path arch := EFile (tar_xz (tar_members (w_fs w) prefix))]> (w_fs w))
       (w_environ w) (w_log w)).
Proof.
  intros Ha Hp Hb Ht. unfold compress, bind, lift, get_fs, fs_op, ret. rewrite Ha.
  rewrite bool_decide_true by done. unfold write_bytes.
  destruct (w_fs w !! tarball_path arch) as [[]|] eqn:E; try done.
  unfold tarball_path. rewrite removelast_last. by rewrite Hb.
Qed.

(** C35: [arm-linux-androideabi] and [armv7a-linux-androideabi] both map
    to the Magisk architecture [arm]: compressing their two prefixes one
    after the other, as [build] does when both hosts are configured,
    returns the same path twice, and the tree afterwards holds at that
    path the archive of the second prefix only, the first host's archive
    being overwritten. *)
Theorem compress_arm_hosts_collide prefix1 prefix2 w :
  is_Some (w_fs w !! prefix1) -> is_Some (w_fs w !! prefix2) ->
  w_fs w !! BUILD_DIR = Some EDir -> w_fs w !! tarball_path (str_of "arm") <> Some EDir ->
  (let* p1 := compress prefix1 (str_of "arm-linux-androideabi") in
   let* p2 := compress prefix2 (str_of "armv7a-linux-androideabi") in
   ret (p1, p2)) w =
  (Ok (tarball_path (str_of "arm"), tarball_path (str_of "arm")),
   with_fs w (<[tarball_path (str_of "arm") :=
                 EFile (tar_xz (tar_members (<[tarball_path (str_of "arm") :=
                                                EFile (tar_xz (tar_members (w_fs w) prefix1))]> (w_fs w))
                                  prefix2))]> (w_fs w))).
Proof.
  intros H1 H2 Hb Ht. unfold bind at 1. rewrite (compress_ok _ _ (str_of "arm")) by done.
  unfold bind. rewrite (compress_ok _ _ (str_of "arm")); cbn [w_fs w_environ w_log]; try done.
  - unfold ret, with_fs. by rewrite insert_insert_eq.
  - by apply lookup_insert_is_Some'; right.
  - rewrite lookup_insert_ne; [done|]. unfold tarball_path. intros Hc.
    apply (f_equal length) in Hc. rewrite length_app in Hc. cbn in Hc. lia.
  - by rewrite lookup_insert_eq.
Qed.

End Compress.

(** ** [_download_and_include_cacert] *)

(** [_download_and_include_cacert]: when [build/cacert.pem] exists
    (links followed) nothing runs; otherwise [curl] is run once; in both
    cases the path is appended to [include], unless [curl] fails, which
    raises [CalledProcessError] with its exit status. *)
Theorem cacert_spec exec b w :
  download_and_include_cacert exec b w =
    if exists_ (w_fs w) cacert_path then (Ok (include_append b cacert_path), w)
    else
      let '(res, m') := exec (w_fs w) curl_cacert in
      (if Z.eqb (returncode res) 0 then Ok (include_append b cacert_path)
       else Err (CalledProcessError (returncode res)),
       mk_world m' (w_environ w) (w_log w ++ [curl_cacert])).
Proof.
  unfold download_and_include_cacert, bind at 1, get_fs.
  destruct (exists_ _ _); [done|]. unfold bind, run. destruct (exec _ _) as [res m'].
  by destruct (Z.eqb _ 0).
Qed.

(** ** [_package_module] *)

Section Package.
Context `{Archivers}.

(** The zip's bytes for a member list. *)
Definition zip_bytes (props : dict str str) (members : list zip_member) : list byte :=
  zip_encode (ZFile ["module.prop"%string] (utf8_encode (ModuleProp.format_module_prop props)) :: members).

Lemma package_module_eq b tarballs w props0 zip_name :
  read_module_prop (w_fs w) = Ok props0 ->
  Template.substitute (set (str_of "description") (description b) props0) (name (config b)) = Ok zip_name ->
  package_module b tarballs w =
    let props := set (str_of "description") (description b) props0 in
    let '(members, err) := write_members (w_fs w) (package_tasks b (w_fs w) tarballs) in
    match write_bytes (w_fs w) (dist_path zip_name) (zip_bytes props members) with
    | Ok m' => (match err with Some e => Err e | None => Ok tt end, mk_world m' (w_environ w) (w_log w))
    | Err e => (Err e, w)
    end.
Proof.
  intros Hr Hs. unfold package_module, bind at 1 2 3, get_fs, lift. rewrite Hr. cbv beta iota zeta.
  rewrite Hs. destruct (write_members _ _) as [members err]. unfold bind, fs_op, zip_bytes.
  destruct (write_bytes _ _ _); [|done]. by destruct err.
Qed.

(** When the zip name is a template of fields and literal text and a
    field has no value in [module.prop] (with its description replaced),
    [_package_module] raises the [KeyError] of the first such field and
    writes nothing. *)
Theorem package_module_unknown_field b tarballs w props0 ps e :
  read_module_prop (w_fs w) = Ok props0 ->
  name (config b) = Template.render ps -> Template.fields_ok ps ->
  Template.expand (set (str_of "description") (description b) props0) ps = Err e ->
  package_module b tarballs w = (Err e, w).
Proof.
  intros Hr Hn Hok He. unfold package_module, bind at 1 2 3, get_fs, lift. rewrite Hr. cbv beta iota zeta.
  rewrite Hn, Template.substitute_render by done. by rewrite He.
Qed.

(** What a successful [_package_module] did. *)
Lemma package_module_Ok b tarballs w w' :
  package_module b tarballs w = (Ok tt, w') ->
  exists props0 zip_name members,
    read_module_prop (w_fs w) = Ok props0 /\
    Template.substitute (set (str_of "description") (description b) props0) (name (config b)) = Ok zip_name /\
    write_members (w_fs w) (package_tasks b (w_fs w) tarballs) = (members, None) /\
    w_fs w' = <[dist_path zip_name := EFile (zip_bytes (set (str_of "description") (description b) props0) members)]> (w_fs w).
Proof.
  destruct (read_module_prop (w_fs w)) as [props0|e] eqn:Hr;
    [|unfold package_module, bind, get_fs, lift; rewrite Hr; congruence].
  destruct (Template.substitute (set (str_of "description") (description b) props0) (name (config b)))
    as [zip_name|e] eqn:Hs;
    [|unfold package_module, bind, get_fs, lift; rewrite Hr; cbv beta iota zeta; rewrite Hs; congruence].
  rewrite (package_module_eq b tarballs w props0 zip_name) by done.
  destruct (write_members _ _) as [members err] eqn:Hm. cbv zeta.
  destruct (write_bytes (w_fs w) (dist_path zip_name)
    (zip_bytes (set (str_of "description") (description b) props0) members)) as [m'|] eqn:Hw; [|congruence].
  destruct err; intros [= <-]. apply write_bytes_Ok in Hw.
  exists props0, zip_name, members. done.
Qed.

Lemma write_members_elem m tasks zs q arc z :
  write_members m tasks = (zs, None) -> (q, arc) ∈ tasks -> zip_write m q arc = Ok z -> z ∈ zs.
Proof.
  revert zs. induction tasks as [|[q' arc'] tasks IH]; intros zs; simpl; [set_solver|].
  destruct (zip_write m q' arc') eqn:E; [|congruence].
  destruct (write_members m tasks) as [zs' err] eqn:Ew. intros [= <- ->] Hin Hz.
  apply elem_of_cons in Hin as [[= -> ->]|Hin]; [rewrite E in Hz; set_solver|].
  apply elem_of_cons. eauto.
Qed.

Lemma zip_write_file m q arc d : m !! q = Some (EFile d) -> zip_write m q arc = Ok (ZFile arc d).
Proof.
  intros Hq. unfold zip_write. rewrite (proj2 (stat_r_Ok m q (EFile d))); [done|].
  by apply stat_nonlink.
Qed.

Lemma walk_files_dir m d q :
  m !! d = Some EDir -> below d q -> is_Some (m !! q) -> m !! q <> Some EDir ->
  (q, drop (length d) q) ∈ walk_files m d.
Proof.
  intros Hd Hb [e Hq] Hnd. unfold walk_files, MAXSYMLINKS. simpl. rewrite Hd.
  rewrite bool_decide_true by done. apply list_elem_of_fmap. exists q. split; [done|].
  apply list_elem_of_filter. split; [done|]. by eapply elem_of_keys_fst.
Qed.

Lemma entry_tasks_package b m tarballs e t :
  e ∈ MODULE_DIR :: tarballs ++ include (config b) -> t ∈ entry_tasks m e -> t ∈ package_tasks b m tarballs.
Proof. intros He Ht. apply list_elem_of_join. exists (entry_tasks m e). split; [done|]. by apply list_elem_of_fmap_2. Qed.

(** C27: When [_package_module] succeeds, the zip it writes to
    [dist/<name>] starts with [module.prop], whose description is the
    builder's, and holds every regular file below [module/] that is not
    named [module.prop], under its path relative to [module/]. *)
Theorem package_module_includes_module b tarballs w w' q d :
  package_module b tarballs w = (Ok tt, w') ->
  w_fs w !! MODULE_DIR = Some EDir -> w_fs w !! q = Some (EFile d) ->
  below MODULE_DIR q -> last q <> Some "module.prop"%string ->
  exists props zip_name members,
    get (str_of "description") props = Some (description b) /\
    w_fs w' !! dist_path zip_name = Some (EFile (zip_bytes props members)) /\
    ZFile (drop 1 q) d ∈ members.
Proof.
  intros Hp Hm Hq Hb Hl. destruct (package_module_Ok _ _ _ _ Hp) as (props0 & zip_name & members & _ & _ & Hw & ->).
  exists (set (str_of "description") (description b) props0), zip_name, members.
  split; [apply get_set_eq|]. split; [apply lookup_insert_eq|].
  eapply write_members_elem; [done| |by apply zip_write_file].
  apply (entry_tasks_package _ _ _ MODULE_DIR); [set_solver|].
  unfold entry_tasks. rewrite is_file_EDir by done. apply list_elem_of_filter. split; [done|].
  apply (walk_files_dir _ MODULE_DIR); [done|done|by eexists|congruence].
Qed.

(** An included path that is a regular file named [module.prop] is
    written under that name next to the generated [module.prop]: a
    successful [_package_module] then leaves a zip with two members
    named [module.prop] (the name check only applies to the files of
    walked directories). *)
Theorem package_module_duplicate_module_prop b tarballs w w' e d :
  package_module b tarballs w = (Ok tt, w') ->
  e ∈ include (config b) -> w_fs w !! e = Some (EFile d) -> last e = Some "module.prop"%string ->
  exists props zip_name members,
    w_fs w' !! dist_path zip_name = Some (EFile (zip_bytes props members)) /\
    ZFile ["module.prop"%string] d ∈ members.
Proof.
  intros Hp Hi He Hl. destruct (package_module_Ok _ _ _ _ Hp) as (props0 & zip_name & members & _ & _ & Hw & ->).
  do 3 eexists. split; [apply lookup_insert_eq|].
  eapply write_members_elem; [done| |by apply zip_write_file].
  apply (entry_tasks_package _ _ _ e); [set_solver|].
  unfold entry_tasks. rewrite (is_file_EFile _ _ d) by done. rewrite Hl. set_solver.
Qed.

Lemma resolve_path_Some n m p d : resolve_path n m p = Some d -> exists e, m !! d = Some e.
Proof.
  revert p. induction n as [|n IH]; intros p; simpl;
    destruct (m !! p) as [[]|] eqn:E; try congruence; intros; simplify_eq; eauto.
Qed.

Lemma resolve_path_resolve n m p : resolve n m p = resolve_path n m p ≫= (m !!.).
Proof.
  revert p. induction n as [|n IH]; intros p; simpl;
    destruct (m !! p) as [[]|] eqn:E; simpl; rewrite ?E; auto.
Qed.

(** An included path that does not exist, or is a dangling link,
    adds nothing to the zip and raises nothing: [_package_module] skips
    it silently. *)
Theorem entry_tasks_missing m e : stat m e = None -> entry_tasks m e = [].
Proof.
  intros Hs. unfold entry_tasks, is_file. rewrite Hs. unfold walk_files.
  unfold stat in Hs. rewrite resolve_path_resolve in Hs.
  destruct (resolve_path _ m e) as [d|] eqn:Ed; [|done].
  destruct (resolve_path_Some _ _ _ _ Ed) as [x Hx]. simpl in Hs. congruence.
Qed.

End Package.

(** ** A packaging scenario *)

(** [pth "a/b"] is the path [a/b]. *)
Definition pth (s : string) : path := map String.string_of_list_ascii (split_on "/"%char (str_of s)).

Definition text_lines (ls : list string) : list byte := ls ≫= fun l => bytes_of_string l ++ [LF].

(** Encoders that only list the member names, to observe the archives. *)
Definition bytes_of_names (ns : list (list string)) : list byte :=
  ns ≫= fun n => bytes_of_string (String.concat "/" n) ++ [LF].

Definition arcname_of (z : zip_member) : list string := match z with ZFile n _ => n | ZDir n => n end.

#[local] Instance names_archivers : Archivers := {|
  tar_xz l := bytes_of_names (fst <$> l);
  tar_xz_aborted := [];
  zip_encode zs := bytes_of_names (arcname_of <$> zs)
|}.

(** External programs that succeed and change nothing. *)
Definition noop_exec : fs -> command -> completed * fs := fun m _ => (mk_completed 0 [] [], m).

Definition sample_prop : list byte :=
  text_lines ["id=py2droid"; "name=Py2Droid"; "version=v0.2.0"; "description=placeholder"].

Definition x64_prefix : path := pth "src/cross-build/x86_64-linux-android/prefix".

Definition project_tree : fs :=
  list_to_map ([([], EDir); (pth "module", EDir); (pth "module/module.prop", EFile sample_prop);
    (pth "module/customize.sh", EFile (text_lines ["ui_print hello"]));
    (pth "module/system", EDir); (pth "module/system/module.prop", EFile []);
    (pth "build", EDir); (pth "build/cacert.pem", EFile (text_lines ["PEM"])); (pth "dist", EDir);
    (pth "src", EDir); (pth "src/cross-build", EDir); (pth "src/cross-build/x86_64-linux-android", EDir);
    (x64_prefix, EDir)] ++
    ((fun '(q, e) => (x64_prefix ++ pth q, e)) <$>
    [("bin", EDir);
     ("bin/pip3", EFile (text_lines ["#!/usr/bin/env python3"; "import pip"]));
     ("bin/python3", EFile [x7f; x45; x4c; x46; x00]);
     ("bin/python", ELink (x64_prefix ++ pth "bin/python3"));
     ("lib", EDir); ("lib/libpython3.13.so", EFile []); ("lib/libpython3.13.a", EFile []);
     ("share", EDir); ("share/doc.txt", EFile [])]%string)).

Definition sample_config : module_config :=
  mk_module_config true sample_rules true [] (str_of "py2droid-${version}.zip") true
    [str_of "--strip-unneeded"].

Definition sample_builder : builder :=
  init_builder sample_config (str_of "/ndk/toolchains/llvm/prebuilt/linux-x86_64")
    (str_of "3.13.0") [str_of "x86_64-linux-android"].

Definition sample_world : world := mk_world project_tree [(str_of "PATH", str_of "/usr/bin")] [].

(** The scenario of the specification, end to end: one host, the
    debloat rules [["share/**", {pattern = "lib/*.a", rm_if = ["file"]}]],
    shebang fixing and stripping on.  [build] succeeds; nothing under
    [share/] remains, the static library is removed and the shared one
    kept; [dist/] holds exactly one archive, named from the template, with
    [module.prop], the module's files (the nested [module.prop] skipped),
    the one host tarball and [cacert.pem]. *)
Theorem build_sample_scenario :
  let r := build noop_exec (str_of "linux") sample_builder (pth "src") sample_world in
  r.1 = Ok tt /\
  w_fs r.2 !! (x64_prefix ++ pth "share") = None /\
  w_fs r.2 !! (x64_prefix ++ pth "lib/libpython3.13.a") = None /\
  w_fs r.2 !! (x64_prefix ++ pth "lib/libpython3.13.so") = Some (EFile []) /\
  iterdir (w_fs r.2) DIST_DIR = Ok [pth "dist/py2droid-v0.2.0.zip"] /\
  w_fs r.2 !! pth "dist/py2droid-v0.2.0.zip" =
    Some (EFile (bytes_of_names [pth "module.prop"; pth "customize.sh";
                                 pth "cpython-x64.tar.xz"; pth "cacert.pem"])).
Proof. intros r. vm_decide. Qed.

(** ** Witnesses *)

Lemma fix_shebangs_spec_witness :
  project_tree !! (x64_prefix </> "bin") = Some EDir /\
  fix_shebangs x64_prefix project_tree = Ok (fix_bin (x64_prefix </> "bin") project_tree).
Proof.
  assert (H : project_tree !! (x64_prefix </> "bin") = Some EDir) by vm_decide.
  split; [exact H | exact (fix_shebangs_spec _ _ H)].
Defined.

Lemma noop_exec_kinds : forall m c, same_kinds m (noop_exec m c).2.
Proof. done. Qed.

Lemma strip_spec_witness :
  (forall m c, same_kinds m (noop_exec m c).2) /\
  let w := sample_world in
  let m := w_fs w in
  let env := update_env_path (w_environ w) (str_of "PATH") [toolchain sample_builder ++ str_of "/bin"] in
  (strip noop_exec (str_of "linux") sample_builder x64_prefix w).1 = Ok tt /\
  w_environ (strip noop_exec (str_of "linux") sample_builder x64_prefix w).2 = w_environ w /\
  w_log (strip noop_exec (str_of "linux") sample_builder x64_prefix w).2 =
    w_log w ++ (strip_command (str_of "linux") sample_builder x64_prefix env <$>
                filter (strippable m) (glob m x64_prefix strip_patterns)) /\
  (exists path, get (str_of "PATH") env = Some path /\
                (toolchain sample_builder ++ str_of "/bin") `prefix_of` path).
Proof. split; [exact noop_exec_kinds | exact (strip_spec noop_exec _ noop_exec_kinds _ _ _)]. Defined.

Lemma compress_unknown_host_witness :
  get (str_of "riscv64-linux-android") arch_mapping = None /\
  compress x64_prefix (str_of "riscv64-linux-android") sample_world =
    (Err (KeyError "riscv64-linux-android"), sample_world).
Proof.
  assert (H : get (str_of "riscv64-linux-android") arch_mapping = None) by reflexivity.
  split; [exact H | exact (compress_unknown_host _ _ _ H)].
Defined.

(** Two prefixes, for [arm-linux-androideabi] and
    [armv7a-linux-androideabi]. *)
Definition arm_prefix : path := pth "src/cross-build/arm-linux-androideabi/prefix".
Definition armv7a_prefix : path := pth "src/cross-build/armv7a-linux-androideabi/prefix".

Definition arm_tree : fs :=
  list_to_map [([], EDir); (pth "build"%string, EDir); (pth "src"%string, EDir); (pth "src/cross-build"%string, EDir);
    (pth "src/cross-build/arm-linux-androideabi"%string, EDir); (arm_prefix, EDir);
    (arm_prefix ++ ["python3"%string], EFile [x7f]);
    (pth "src/cross-build/armv7a-linux-androideabi"%string, EDir); (armv7a_prefix, EDir);
    (armv7a_prefix ++ ["python3"%string], EFile [x45])].

Lemma compress_arm_hosts_collide_witness :
  (let* p1 := compress arm_prefix (str_of "arm-linux-androideabi") in
   let* p2 := compress armv7a_prefix (str_of "armv7a-linux-androideabi") in
   ret (p1, p2)) (mk_world arm_tree [] []) =
  (Ok (tarball_path (str_of "arm"), tarball_path (str_of "arm")),
   with_fs (mk_world arm_tree [] [])
     (<[tarball_path (str_of "arm") :=
        EFile (tar_xz (tar_members (<[tarball_path (str_of "arm") :=
                                       EFile (tar_xz (tar_members arm_tree arm_prefix))]> arm_tree)
                         armv7a_prefix))]> arm_tree)).
Proof.
  apply (compress_arm_hosts_collide arm_prefix armv7a_prefix (mk_world arm_tree [] []));
    [vm_compute; by eexists | vm_compute; by eexists | vm_decide | vm_decide].
Defined.

Lemma compress_ok_witness :
  compress x64_prefix (str_of "x86_64-linux-android") sample_world =
    (Ok (tarball_path (str_of "x64")),
     mk_world (<[tarball_path (str_of "x64") := EFile (tar_xz (tar_members project_tree x64_prefix))]> project_tree)
       (w_environ sample_world) (w_log sample_world)).
Proof.
  apply (compress_ok _ _ _ sample_world); [reflexivity | vm_compute; by eexists | vm_decide | vm_decide].
Defined.

Definition sample_module_prop : dict str str :=
  [(str_of "id", str_of "py2droid"); (str_of "name", str_of "Py2Droid");
   (str_of "version", str_of "v0.2.0"); (str_of "description", str_of "placeholder")].

Lemma package_module_unknown_field_witness :
  let b := mk_builder (mk_module_config false [] false []
             (Template.render [Template.Lit (str_of "py2droid-"); Template.Field (str_of "revision");
                               Template.Lit (str_of ".zip")]) false [])
             [] [] (str_of "CPython 3.13.0 for Android") in
  package_module b [] sample_world = (Err (KeyError "revision"), sample_world).
Proof.
  apply (package_module_unknown_field _ _ _ sample_module_prop
           [Template.Lit (str_of "py2droid-"); Template.Field (str_of "revision"); Template.Lit (str_of ".zip")]);
    [vm_decide | reflexivity | repeat constructor | reflexivity].
Defined.

Lemma package_module_includes_module_witness :
  exists props zip_name members,
    get (str_of "description") props = Some (description sample_builder) /\
    w_fs (package_module sample_builder [] sample_world).2 !! dist_path zip_name =
      Some (EFile (zip_bytes props members)) /\
    ZFile (drop 1 (pth "module/customize.sh")) (text_lines ["ui_print hello"]) ∈ members.
Proof.
  apply (package_module_includes_module sample_builder [] sample_world); [|vm_decide..].
  apply M_Ok. vm_compute. reflexivity.
Defined.

Definition extra_builder : builder :=
  include_append sample_builder (pth "extra/module.prop").

Definition extra_world : world :=
  mk_world (<[pth "extra" := EDir]> (<[pth "extra/module.prop" := EFile (text_lines ["id=extra"])]> project_tree))
    [] [].

Lemma package_module_duplicate_module_prop_witness :
  exists props zip_name members,
    w_fs (package_module extra_builder [] extra_world).2 !! dist_path zip_name =
      Some (EFile (zip_bytes props members)) /\
    ZFile ["module.prop"%string] (text_lines ["id=extra"]) ∈ members.
Proof.
  apply (package_module_duplicate_module_prop extra_builder [] extra_world _ (pth "extra/module.prop"));
    [|vm_decide..].
  apply M_Ok. vm_compute. reflexivity.
Defined.

Lemma entry_tasks_missing_witness :
  stat project_tree (pth "module/missing.sh") = None /\
  entry_tasks project_tree (pth "module/missing.sh") = [].
Proof.
  assert (H : stat project_tree (pth "module/missing.sh") = None) by vm_decide.
  split; [exact H | exact (entry_tasks_missing _ _ H)].
Defined.

End Packaging.
