(* ===== verification/SourceBuild.v ===== *)
(** * [CPythonBuilder]: download, extract, patch, toolchain, environment, hosts

    [CPythonBuilder.build()] runs six steps in order, each a computation
    of [Effects.M]: [_download] (skipped when [build/v<version>.tar.gz]
    exists), [_extract] (skipped when the directory named by the first
    member exists), [_apply_patches] when configured, [_find_ndk_toolchain]
    (the [ndk_version=] line of [Android/android-env.sh] and the first
    entry of the NDK's [toolchains/llvm/prebuilt]), [_create_env], and
    [_build_hosts] ([android.py] for the build Python unless
    [cross-build/build] exists, then for each host whose prefix does not
    exist).  The external programs are [exec]; reading the source archive
    is the class [TarReader]. *)

From S2P Require Import Prelude PyDict Bytes ModuleProp FileSystem Glob Effects.

Module Source.
Import FS PyDict Glob Effects Utf8.

(** [CPythonConfig] *)
Record cpython_config := mk_cpython_config {
  apply_patches_ : bool;
  build_hosts_ : list str;
  configure_args : list str;
  configure_env : dict str str;
  version : str
}.

(** [tarfile.open(...)] and [getmembers()]: the members of an archive
    (their paths and what extraction creates), or [None] when the file is
    not a readable archive ([tarfile.ReadError]). *)
Class TarReader := tar_read : list byte -> option (list (path * entry)).

Definition source_archive_url : str := str_of "https://github.com/python/cpython/archive/refs/tags/".

(** The ancestors of [p] below [base] that are missing, created as
    directories ([os.makedirs] of [tarfile]'s extraction). *)
Definition ensure_dirs (base p : path) (m : fs) : fs :=
  foldl (fun m q => if bool_decide (is_Some (m !! q)) then m else <[q := EDir]> m)
    m (drop (S (length base)) (inits (removelast p))).

(** [tar.extractall(base, filter="fully_trusted")]: every member as it is. *)
Definition extract_members (base : path) (members : list (path * entry)) (m : fs) : fs :=
  foldl (fun m '(n, e) => <[base ++ n := e]> (ensure_dirs base (base ++ n) m)) m members.

(** The value of the first line [ndk_version=...] with a non-empty value:
    [re.search("(?m)^ndk_version=(.+)$", content).group(1)]. *)
Definition ndk_version_search (content : str) : option str :=
  let key := str_of "ndk_version=" in
  (fun '(_, l) => drop (length key) l) <$>
    list_find (fun l => key `prefix_of` l /\ length key < length l) (split_on "010"%char content).

Section Builder.
Context `{Matcher} `{TarReader}.
Variable exec : fs -> command -> completed * fs.
Variable cfg : cpython_config.

(** ** [_download] *)

Definition tarball_name : str := str_of "v" ++ version cfg ++ str_of ".tar.gz".

Definition source_tarball : path := BUILD_DIR </> String.string_of_list_ascii tarball_name.

Definition curl_source : command :=
  cmd ([str_of "curl"; str_of "-Lf"; str_of "--retry"; str_of "5"; str_of "--retry-all-errors";
        str_of "-o"; path_str source_tarball; source_archive_url ++ tarball_name]).

Definition download : M path :=
  let* m := get_fs in
  if exists_ m source_tarball then ret source_tarball
  else run exec curl_source ;;; ret source_tarball.

(** ** [_extract] *)

Definition extract (tarball : path) : M path :=
  let* m := get_fs in
  let* data := lift (read_bytes m tarball) in
  match tar_read data with
  | None => raise (ReadError "file could not be opened successfully")
  | Some [] => raise IndexError
  | Some ((first, _) :: _ as members) =>
      let source_dir := BUILD_DIR ++ first in
      if exists_ m source_dir then ret source_dir
      else set_fs (extract_members BUILD_DIR members m) ;;; ret source_dir
  end.

(** ** [_apply_patches] *)

Definition reversed_msg : str := str_of "Reversed (or previously applied) patch detected!".

Definition patch_command (source_dir p : path) : command :=
  mk_command [str_of "patch"; str_of "-Np1"; str_of "-sr"; str_of "-"; str_of "-i";
              path_str (["..";".."]%string ++ p)]
    (Some source_dir) None false true.

(** One patch: a non-zero status is fatal unless [patch] reports the
    patch as already applied. *)
Definition apply_patch (source_dir p : path) : M unit :=
  let* m := get_fs in
  if is_file m p then
    let* res := run exec (patch_command source_dir p) in
    if Z.eqb (returncode res) 0 then ret tt
    else if contains reversed_msg (stdout res) then ret tt
    else raise (CalledProcessError (returncode res))
  else ret tt.

Definition apply_patches (source_dir : path) : M unit :=
  let* m := get_fs in
  forM_ (glob m PATCHES_DIR [str_of "*.patch"]) (apply_patch source_dir).

(** ** [_find_ndk_toolchain] *)

Definition android_env_path (source_dir : path) : path := source_dir ++ ["Android"; "android-env.sh"].

Definition find_ndk_toolchain (source_dir : path) : M path :=
  let* m := get_fs in
  let* data := lift (read_bytes m (android_env_path source_dir)) in
  match utf8_decode data with
  | None => raise (ValueError "'utf-8' codec can't decode")
  | Some text =>
      match ndk_version_search (ModuleProp.universal_newlines text) with
      | None => raise (BuilderError "Failed to parse NDK version from file")
      | Some ndk_version =>
          let* environ := get_environ in
          match get (str_of "ANDROID_HOME") environ with
          | None => raise (KeyError "ANDROID_HOME")
          | Some android_home =>
              let prebuilt := path_join (path_join (path_of_str android_home ++ ["ndk"]) ndk_version)
                                (str_of "toolchains/llvm/prebuilt") in
              let* entries := lift (iterdir m prebuilt) in
              match entries with
              | [] => raise (BuilderError "NDK toolchain not found")
              | toolchain :: _ => ret toolchain
              end
          end
      end
  end.

(** ** [_create_env] *)

Definition build_env (environ : dict str str) (toolchain : path) : dict str str :=
  let env := update environ (configure_env cfg) in
  let env := update_env_path env (str_of "PATH") [path_str (toolchain </> "bin")] in
  update_env_path env (str_of "LIBRARY_PATH") [path_str (toolchain </> "lib")].

Definition create_env (toolchain : path) : M (dict str str) :=
  let* environ := get_environ in ret (build_env environ toolchain).

(** ** [_build_hosts] *)

Definition android_command (source_dir : path) (args : list str) (env : option (dict str str)) : command :=
  mk_command (str_of "./android.py" :: args) (Some (source_dir </> "Android")) env true false.

(** One host: skipped when its prefix exists; [configure-host] gets the
    build environment, [make-host] the inherited one. *)
Definition build_host (source_dir : path) (env : dict str str) (host : str) : M unit :=
  let* m := get_fs in
  if exists_ m (host_prefix source_dir host) then ret tt
  else run exec (android_command source_dir
                   ([str_of "configure-host"; host; str_of "--"] ++ configure_args cfg) (Some env)) ;;;
       run exec (android_command source_dir [str_of "make-host"; host] None) ;;;
       ret tt.

(** The build Python, skipped when [cross-build/build] exists. *)
Definition build_setup (source_dir : path) : M unit :=
  let* m := get_fs in
  if exists_ m (source_dir ++ ["cross-build"; "build"]) then ret tt
  else run exec (android_command source_dir [str_of "configure-build"] None) ;;;
       run exec (android_command source_dir [str_of "make-build"] None) ;;;
       ret tt.

Definition build_hosts (source_dir : path) (env : dict str str) : M unit :=
  build_setup source_dir ;;;
  forM_ (build_hosts_ cfg) (build_host source_dir env).

(** ** [build] *)

(** [CPythonBuildResult(source_dir, toolchain)] *)
Definition cpython_build : M (path * path) :=
  let* tarball := download in
  let* source_dir := extract tarball in
  (if apply_patches_ cfg then apply_patches source_dir else ret tt) ;;;
  let* toolchain := find_ndk_toolchain source_dir in
  let* env := create_env toolchain in
  build_hosts source_dir env ;;;
  ret (source_dir, toolchain).

End Builder.

(** ** Properties *)

Section Props.
Context `{Matcher} `{TarReader}.
Variable exec : fs -> command -> completed * fs.
Variable cfg : cpython_config.

Lemma run_spec c w :
  run exec c w =
    let '(res, m') := exec (w_fs w) c in
    (if cmd_check c && negb (Z.eqb (returncode res) 0) then Err (CalledProcessError (returncode res))
     else Ok res, mk_world m' (w_environ w) (w_log w ++ [c])).
Proof. unfold run. destruct (exec _ c). by destruct (_ && _). Qed.

(** One host of [_build_hosts]: nothing runs when its prefix exists;
    otherwise [configure-host] runs with the build environment and, if it
    succeeds, [make-host] runs with the inherited environment ([env] is
    not passed), the first failure raising [CalledProcessError]. *)
Theorem build_host_spec src env host w :
  build_host exec cfg src env host w =
    if exists_ (w_fs w) (host_prefix src host) then (Ok tt, w)
    else
      let c1 := android_command src ([str_of "configure-host"; host; str_of "--"] ++ configure_args cfg) (Some env) in
      let c2 := android_command src [str_of "make-host"; host] None in
      let '(r1, m1) := exec (w_fs w) c1 in
      if negb (Z.eqb (returncode r1) 0)
      then (Err (CalledProcessError (returncode r1)), mk_world m1 (w_environ w) (w_log w ++ [c1]))
      else let '(r2, m2) := exec m1 c2 in
           (if Z.eqb (returncode r2) 0 then Ok tt else Err (CalledProcessError (returncode r2)),
            mk_world m2 (w_environ w) (w_log w ++ [c1; c2])).
Proof.
  unfold build_host, bind at 1, get_fs. destruct (exists_ _ _); [done|].
  unfold bind. rewrite !run_spec. simpl. destruct (exec (w_fs w) _) as [r1 m1].
  destruct (Z.eqb (returncode r1) 0); simpl; [|done].
  rewrite run_spec. simpl. destruct (exec m1 _) as [r2 m2].
  destruct (Z.eqb (returncode r2) 0); simpl; by rewrite <- ?app_assoc.
Qed.

(** C26: A failing host stops [_build_hosts]: the world after the failure
    is the final one, so no command of a later host runs. *)
Theorem build_hosts_abort src env l1 h l2 w w0 w1 w2 e :
  build_hosts_ cfg = l1 ++ h :: l2 ->
  build_setup exec src w = (Ok tt, w0) ->
  forM_ l1 (build_host exec cfg src env) w0 = (Ok tt, w1) ->
  build_host exec cfg src env h w1 = (Err e, w2) ->
  build_hosts exec cfg src env w = (Err e, w2).
Proof.
  intros Hh Hs H1 H2. unfold build_hosts, bind at 1. rewrite Hs, Hh, forM_app.
  unfold bind at 1. rewrite H1. simpl. unfold bind. by rewrite H2.
Qed.

(** [_create_env] leaves [os.environ] as it is and returns a copy in
    which the configured variables override the inherited ones, and the
    toolchain's [bin] and [lib] come first in [PATH] and [LIBRARY_PATH],
    ahead of the values they had. *)
Theorem create_env_spec tc w k :
  dict_wf (configure_env cfg) ->
  let base := match get k (configure_env cfg) with Some v => Some v | None => get k (w_environ w) end in
  create_env cfg tc w = (Ok (build_env cfg (w_environ w) tc), w) /\
  get k (build_env cfg (w_environ w) tc) =
    if decide (k = str_of "LIBRARY_PATH") then
      Some (join [":"%char] (path_str (tc </> "lib") :: from_option (fun p => [p]) [] base))
    else if decide (k = str_of "PATH") then
      Some (join [":"%char] (path_str (tc </> "bin") :: from_option (fun p => [p]) [] base))
    else base.
Proof.
  intros Hwf base. split; [done|]. unfold build_env.
  rewrite !update_env_path_get. unfold base. rewrite <- get_update by done.
  repeat case_decide; subst; try done.
Qed.

(** C29: A patch file passes when [patch] exits with 0 or prints that the
    patch is reversed or already applied, whatever the reason (a patch
    that no longer applies because of drift and whose hunks happen to
    look reversed passes as well); any other exit status is fatal. *)
Theorem apply_patch_spec src p w :
  is_file (w_fs w) p = true ->
  let res := (exec (w_fs w) (patch_command src p)).1 in
  (apply_patch exec src p w).1 =
    if Z.eqb (returncode res) 0 || contains reversed_msg (stdout res) then Ok tt
    else Err (CalledProcessError (returncode res)).
Proof.
  intros Hf res. unfold apply_patch, bind at 1, get_fs. rewrite Hf.
  unfold bind. rewrite run_spec. unfold res. destruct (exec (w_fs w) _) as [r m']. simpl.
  by destruct (Z.eqb _ 0), (contains _ _).
Qed.

Lemma download_exists w :
  exists_ (w_fs w) (source_tarball cfg) = true -> download exec cfg w = (Ok (source_tarball cfg), w).
Proof. intros He. unfold download, bind, get_fs. by rewrite He. Qed.

(** C7: Resumption: when the source tarball exists and the directory
    named by its first member exists, and patches are off, [build()]
    runs no command and changes nothing before looking for the
    toolchain: no download, no extraction. *)
Theorem cpython_build_resume w data first e members :
  exists_ (w_fs w) (source_tarball cfg) = true ->
  read_bytes (w_fs w) (source_tarball cfg) = Ok data ->
  tar_read data = Some ((first, e) :: members) ->
  exists_ (w_fs w) (BUILD_DIR ++ first) = true ->
  apply_patches_ cfg = false ->
  cpython_build exec cfg w =
    (let* toolchain := find_ndk_toolchain (BUILD_DIR ++ first) in
     let* env := create_env cfg toolchain in
     build_hosts exec cfg (BUILD_DIR ++ first) env ;;;
     ret (BUILD_DIR ++ first, toolchain)) w.
Proof.
  intros Ht Hr Hd Hx Hp. unfold cpython_build, bind at 1. rewrite download_exists by done.
  unfold extract, bind at 1 2 3, get_fs, lift. rewrite Hr, Hd, Hx. cbn. by rewrite Hp.
Qed.

(** C31: A source tarball that exists but cannot be read (a download cut
    short) is never fetched again: [build()] raises [ReadError] without
    running anything and leaves the world as it was, so every later run
    fails in the same way. *)
Theorem cpython_build_corrupt_tarball w data :
  exists_ (w_fs w) (source_tarball cfg) = true ->
  read_bytes (w_fs w) (source_tarball cfg) = Ok data ->
  tar_read data = None ->
  cpython_build exec cfg w = (Err (ReadError "file could not be opened successfully"), w).
Proof.
  intros Ht Hr Hd. unfold cpython_build, bind at 1. rewrite download_exists by done.
  unfold extract, bind at 1 2 3, get_fs, lift. by rewrite Hr, Hd.
Qed.

(** C30: The build Python is only checked by the existence of
    [cross-build/build], which [configure-build] creates: when
    [make-build] then fails, the next run skips it and reports success,
    so the build Python is never made. *)
Theorem build_setup_interrupted src w r1 m1 r2 m2 :
  exists_ (w_fs w) (src ++ ["cross-build"; "build"]) = false ->
  exec (w_fs w) (android_command src [str_of "configure-build"] None) = (r1, m1) ->
  returncode r1 = 0%Z ->
  exec m1 (android_command src [str_of "make-build"] None) = (r2, m2) ->
  returncode r2 <> 0%Z ->
  exists_ m2 (src ++ ["cross-build"; "build"]) = true ->
  let w1 := mk_world m2 (w_environ w)
              (w_log w ++ [android_command src [str_of "configure-build"] None;
                           android_command src [str_of "make-build"] None]) in
  build_setup exec src w = (Err (CalledProcessError (returncode r2)), w1) /\
  build_setup exec src w1 = (Ok tt, w1).
Proof.
  intros Hx H1 Hr1 H2 Hr2 Hx2 w1. split.
  - unfold build_setup, bind, get_fs. rewrite Hx. cbv beta iota.
    rewrite run_spec, H1. cbn [cmd_check android_command]. rewrite Hr1. cbv beta iota.
    rewrite run_spec. cbn [w_fs w_environ w_log]. rewrite H2. cbn [cmd_check android_command].
    rewrite (proj2 (Z.eqb_neq _ _) Hr2). unfold w1. by rewrite <- app_assoc.
  - unfold build_setup, bind, get_fs. unfold w1. cbn [w_fs]. by rewrite Hx2.
Qed.

End Props.

(** ** Repeated runs of [_build_hosts]

    The skip checks make the host loop resumable: a run that fails leaves
    the prefixes built so far, and the next run skips them.  Under an
    [android.py] that never removes a prefix, leaves one after each
    successful [make-host], and succeeds on each host's commands in
    infinitely many runs (fairness), running the script again and again
    eventually builds every host, for good. *)

Section Liveness.
Variable cfg : cpython_config.
Variables (src : path) (env : dict str str).
(** The external programs at the [k]-th run of the script. *)
Variable execs : nat -> fs -> command -> completed * fs.

(** The world after [k] runs of [_build_hosts], each one started on the
    world the previous one left, whatever it raised. *)
Fixpoint rerun (k : nat) (w : world) : world :=
  match k with
  | 0 => w
  | S k => (build_hosts (execs k) cfg src env (rerun k w)).2
  end.

(** The skip check of [_build_hosts] holds for [h]: its prefix exists. *)
Definition built (h : str) (m : fs) : Prop := exists_ m (host_prefix src h) = true.

Definition setup_commands : list command :=
  [android_command src [str_of "configure-build"] None; android_command src [str_of "make-build"] None].

Definition host_commands (h : str) : list command :=
  [android_command src ([str_of "configure-host"; h; str_of "--"] ++ configure_args cfg) (Some env);
   android_command src [str_of "make-host"; h] None].

(** [exec] exits with 0 on each command of [cs], whatever the tree. *)
Definition succeeds_on (exec : fs -> command -> completed * fs) (cs : list command) : Prop :=
  forall m c, c ∈ cs -> returncode (exec m c).1 = 0%Z.

Hypothesis execs_keep : forall k m c h, built h m -> built h (execs k m c).2.
Hypothesis execs_make : forall k m h,
  returncode (execs k m (android_command src [str_of "make-host"; h] None)).1 = 0%Z ->
  built h (execs k m (android_command src [str_of "make-host"; h] None)).2.
Hypothesis execs_fair : forall h k, h ∈ build_hosts_ cfg ->
  exists k', k <= k' /\ succeeds_on (execs k') (setup_commands ++ host_commands h).

Lemma build_setup_keeps k h : keeps (built h) (build_setup (execs k) src).
Proof. unfold build_setup. keeps_solve; eauto. Qed.

Lemma build_hosts_keeps k h : keeps (built h) (build_hosts (execs k) cfg src env).
Proof.
  apply keeps_bind; [apply build_setup_keeps|intros _].
  apply keeps_forM. intros x. unfold build_host. keeps_solve; eauto.
Qed.

(** A built host stays built in every later run. *)
Lemma rerun_built_mono w h k k' :
  k <= k' -> built h (w_fs (rerun k w)) -> built h (w_fs (rerun k' w)).
Proof. induction 1; [done|]. intros Hb. cbn [rerun]. apply build_hosts_keeps. auto. Qed.

(** Built hosts are skipped without running anything. *)
Lemma forM_built_skip exec l w :
  Forall (fun h => built h (w_fs w)) l -> forM_ l (build_host exec cfg src env) w = (Ok tt, w).
Proof.
  induction 1 as [|h l Hh _ IH]; [done|]. rewrite forM_cons. unfold bind at 1.
  rewrite build_host_spec. unfold built in Hh. rewrite Hh. exact IH.
Qed.

Lemma build_setup_ok exec w : succeeds_on exec setup_commands -> (build_setup exec src w).1 = Ok tt.
Proof.
  intros Hs. unfold build_setup, bind at 1, get_fs. destruct (exists_ _ _); [done|].
  unfold bind. rewrite run_ok; [|done|apply Hs; set_solver]. cbn.
  rewrite run_ok; [done|done|apply Hs; set_solver].
Qed.

Lemma build_host_built exec h w :
  succeeds_on exec (host_commands h) ->
  (forall m, returncode (exec m (android_command src [str_of "make-host"; h] None)).1 = 0%Z ->
             built h (exec m (android_command src [str_of "make-host"; h] None)).2) ->
  (build_host exec cfg src env h w).1 = Ok tt /\ built h (w_fs (build_host exec cfg src env h w).2).
Proof.
  intros Hs Hmk. rewrite build_host_spec. unfold built. destruct (exists_ _ _) eqn:E; [done|].
  cbv zeta. destruct (exec (w_fs w) _) as [r1 m1] eqn:E1.
  assert (returncode r1 = 0%Z) as ->.
  { replace r1 with (exec (w_fs w) (android_command src ([str_of "configure-host"; h; str_of "--"] ++ configure_args cfg) (Some env))).1 by (rewrite E1; done).
    apply Hs. set_solver. }
  rewrite Z.eqb_refl. cbn [negb]. destruct (exec m1 _) as [r2 m2] eqn:E2.
  assert (returncode r2 = 0%Z) as Hr2.
  { replace r2 with (exec m1 (android_command src [str_of "make-host"; h] None)).1 by (rewrite E2; done).
    apply Hs. set_solver. }
  rewrite Hr2. split; [done|]. cbn [fst snd w_fs]. pose proof (Hmk m1) as Hb. rewrite E2 in Hb. exact (Hb Hr2).
Qed.

(** One run with the setup's and [h]'s commands succeeding, started with
    the hosts before [h] built, builds [h]. *)
Lemma run_builds k l h rest w :
  build_hosts_ cfg = l ++ h :: rest ->
  Forall (fun x => built x (w_fs w)) l ->
  succeeds_on (execs k) (setup_commands ++ host_commands h) ->
  built h (w_fs (build_hosts (execs k) cfg src env w).2).
Proof.
  intros Hl Hdone Hs. unfold build_hosts, bind at 1.
  assert (Hsetup : (build_setup (execs k) src w).1 = Ok tt)
    by (apply build_setup_ok; intros m c Hc; apply Hs; set_solver).
  rewrite (M_Ok _ _ _ Hsetup).
  assert (Hdone0 : Forall (fun x => built x (w_fs (build_setup (execs k) src w).2)) l).
  { eapply Forall_impl; [exact Hdone|]. intros x Hx. by apply build_setup_keeps. }
  rewrite Hl, forM_app. unfold bind at 1. rewrite forM_built_skip by exact Hdone0.
  rewrite forM_cons. unfold bind at 1.
  destruct (build_host_built (execs k) h (build_setup (execs k) src w).2) as [Hok Hb].
  { intros m c Hc. apply Hs. set_solver. }
  { intros m. apply execs_make. }
  rewrite (M_Ok _ _ _ Hok). apply keeps_forM; [|exact Hb].
  intros x. unfold build_host. keeps_solve; eauto.
Qed.

Lemma prefix_built w l :
  l `prefix_of` build_hosts_ cfg ->
  exists K, forall k, K <= k -> Forall (fun h => built h (w_fs (rerun k w))) l.
Proof.
  induction l as [|h l IH] using rev_ind; intros Hp.
  - exists 0. intros. constructor.
  - destruct IH as [K HK]; [eapply prefix_app_l; eauto|].
    destruct Hp as [rest Hrest].
    destruct (execs_fair h K) as (k' & Hk' & Hs); [rewrite Hrest; set_solver|].
    exists (S k'). intros k Hk. apply Forall_app; split; [apply HK; lia|].
    constructor; [|constructor].
    apply (rerun_built_mono w h (S k')); [lia|]. cbn [rerun].
    eapply run_builds; [rewrite Hrest, <- app_assoc; done | apply HK; lia | exact Hs].
Qed.

(** C22: Liveness of resumption: when [android.py] never removes a
    prefix, leaves the host's prefix after each successful [make-host],
    and succeeds on the setup's and each host's commands in infinitely
    many runs, then from any world there is a run after which every host
    of [build_hosts] is built in every later run: running the script
    again eventually finishes the hosts, and nothing built is lost. *)
Theorem build_hosts_eventually_built w :
  exists K, forall k, K <= k -> forall h, h ∈ build_hosts_ cfg -> built h (w_fs (rerun k w)).
Proof.
  destruct (prefix_built w (build_hosts_ cfg)) as [K HK]; [done|].
  exists K. intros k Hk h Hh. specialize (HK k Hk). rewrite Forall_forall in HK. auto.
Qed.

End Liveness.

(** ** Scenarios *)

Definition pth (s : string) : path := path_of_str (str_of s).

Definition text_lines (ls : list string) : list byte := ls ≫= fun l => bytes_of_string l ++ [LF].

Definition src_dir : path := pth "build/cpython-3.13.0".

Definition android_env_sh : list byte :=
  text_lines ["#!/bin/bash"; "ndk_version=27.1.12297006"; "ndk=$ANDROID_HOME/ndk/$ndk_version"].

Definition source_archive : list byte := bytes_of_string "cpython-3.13.0 archive".

(** The source archive: its top directory, [Android/] and its script. *)
#[local] Instance sample_tar : TarReader := fun data =>
  if decide (data = source_archive) then
    Some [(pth "cpython-3.13.0", EDir); (pth "cpython-3.13.0/Android", EDir);
          (pth "cpython-3.13.0/Android/android-env.sh", EFile android_env_sh)]
  else None.

Definition ok_process : completed := mk_completed 0%Z [] [].

Definition mk_dirs (ps : list path) (m : fs) : fs := foldl (fun m p => <[p := EDir]> m) m ps.

(** [android.py] as far as the skip checks see it: [configure-build]
    creates [cross-build/build], [make-host] creates the host's prefix;
    [failing] lists the subcommands that exit with status 2. *)
Definition android_sim (failing : list (list str)) (m : fs) (c : command) : completed * fs :=
  let args := tail (argv c) in
  let code : Z := if decide (args ∈ failing) then 2%Z else 0%Z in
  let m' :=
    match args, cmd_cwd c with
    | [a], Some android =>
        if decide (a = str_of "configure-build")
        then mk_dirs [removelast android </> "cross-build"; removelast android ++ ["cross-build"; "build"]] m
        else m
    | a :: h :: _, Some android =>
        if bool_decide (a = str_of "make-host") && bool_decide (code = 0%Z)
        then mk_dirs [removelast android ++ ["cross-build"; String.string_of_list_ascii h];
                      host_prefix (removelast android) h] m
        else m
    | _, _ => m
    end in
  (mk_completed code [] [], m').

Definition sample_cfg (hosts : list str) : cpython_config :=
  mk_cpython_config false hosts [str_of "--with-pydebug"] [(str_of "CFLAGS", str_of "-O2")] (str_of "3.13.0").

Definition x64 : str := str_of "x86_64-linux-android".
Definition arm64 : str := str_of "aarch64-linux-android".

Definition toolchain_dir : path := pth "/sdk/ndk/27.1.12297006/toolchains/llvm/prebuilt/linux-x86_64".

(** A project whose first run stopped after the [x86_64] host: the
    tarball, the source tree, the build Python and one prefix exist. *)
Definition resumed_tree : fs :=
  list_to_map ([([], EDir); (pth "build", EDir); (pth "build/v3.13.0.tar.gz", EFile source_archive);
    (src_dir, EDir); (src_dir </> "Android", EDir);
    (src_dir ++ pth "Android/android-env.sh", EFile android_env_sh);
    (src_dir </> "cross-build", EDir); (src_dir ++ pth "cross-build/build", EDir);
    (src_dir ++ pth "cross-build/x86_64-linux-android", EDir); (host_prefix src_dir x64, EDir);
    (pth "patches", EDir)] ++
    ((fun p => (p, EDir)) <$> tail (inits toolchain_dir))).

Definition resumed_world : world :=
  mk_world resumed_tree [(str_of "ANDROID_HOME", str_of "/sdk"); (str_of "PATH", str_of "/usr/bin")] [].

(** The resumption scenario of the specification: re-run with the
    source archive, the extracted tree and the [x86_64] prefix present,
    [build()] fetches nothing, extracts nothing and builds nothing again:
    the only commands are [configure-host] and [make-host] for the next
    host, and it returns the source directory and the NDK toolchain. *)
Theorem cpython_build_resume_scenario :
  let r := cpython_build (android_sim []) (sample_cfg [x64; arm64]) resumed_world in
  r.1 = Ok (src_dir, toolchain_dir) /\
  w_log r.2 =
    [android_command src_dir ([str_of "configure-host"; arm64; str_of "--"; str_of "--with-pydebug"])
       (Some (build_env (sample_cfg [x64; arm64]) (w_environ resumed_world) toolchain_dir));
     android_command src_dir [str_of "make-host"; arm64] None].
Proof. intros r. vm_decide. Qed.

(** ** Witnesses *)

Lemma build_hosts_abort_witness :
  build_hosts (android_sim [[str_of "configure-host"; arm64; str_of "--"; str_of "--with-pydebug"]])
    (sample_cfg [arm64; x64]) src_dir [] resumed_world =
  build_host (android_sim [[str_of "configure-host"; arm64; str_of "--"; str_of "--with-pydebug"]])
    (sample_cfg [arm64; x64]) src_dir [] arm64 resumed_world.
Proof.
  apply (build_hosts_abort _ (sample_cfg [arm64; x64]) src_dir [] [] arm64 [x64]
           resumed_world resumed_world resumed_world); [reflexivity | vm_decide | reflexivity |].
  apply M_Ok. vm_compute. reflexivity.
Defined.

Lemma create_env_spec_witness :
  let cfg := sample_cfg [x64] in
  let w := resumed_world in
  let k := str_of "PATH" in
  let base := match get k (configure_env cfg) with Some v => Some v | None => get k (w_environ w) end in
  create_env cfg toolchain_dir w = (Ok (build_env cfg (w_environ w) toolchain_dir), w) /\
  get k (build_env cfg (w_environ w) toolchain_dir) =
    if decide (k = str_of "LIBRARY_PATH") then
      Some (join [":"%char] (path_str (toolchain_dir </> "lib") :: from_option (fun p => [p]) [] base))
    else if decide (k = str_of "PATH") then
      Some (join [":"%char] (path_str (toolchain_dir </> "bin") :: from_option (fun p => [p]) [] base))
    else base.
Proof. apply create_env_spec. vm_decide. Defined.

Definition patch_tree : fs := <[pth "patches/0001-fix.patch" := EFile (text_lines ["--- a/x"])]> resumed_tree.

(** [patch] exiting with 1 and reporting an already applied patch. *)
Definition reversed_patch : fs -> command -> completed * fs :=
  fun m _ => (mk_completed 1%Z (reversed_msg ++ str_of "  Skipping patch.") [], m).

Lemma apply_patch_spec_witness :
  (apply_patch reversed_patch src_dir (pth "patches/0001-fix.patch") (mk_world patch_tree [] [])).1 = Ok tt.
Proof.
  rewrite (apply_patch_spec reversed_patch src_dir (pth "patches/0001-fix.patch") (mk_world patch_tree [] []));
    [|vm_decide]. vm_compute. reflexivity.
Defined.

Lemma cpython_build_resume_witness :
  cpython_build (android_sim []) (sample_cfg [x64]) resumed_world =
    (let* toolchain := find_ndk_toolchain (BUILD_DIR ++ pth "cpython-3.13.0") in
     let* env := create_env (sample_cfg [x64]) toolchain in
     build_hosts (android_sim []) (sample_cfg [x64]) (BUILD_DIR ++ pth "cpython-3.13.0") env ;;;
     ret (BUILD_DIR ++ pth "cpython-3.13.0", toolchain)) resumed_world.
Proof.
  apply (cpython_build_resume _ _ _ source_archive _ EDir
    [(pth "cpython-3.13.0/Android", EDir); (pth "cpython-3.13.0/Android/android-env.sh", EFile android_env_sh)]);
    [vm_decide | vm_decide | vm_decide | vm_decide | reflexivity].
Defined.

Lemma cpython_build_corrupt_tarball_witness :
  let w := mk_world (<[pth "build/v3.13.0.tar.gz" := EFile (bytes_of_string "cpyth")]> resumed_tree) [] [] in
  cpython_build (android_sim []) (sample_cfg [x64]) w = (Err (ReadError "file could not be opened successfully"), w).
Proof. intros w. apply (cpython_build_corrupt_tarball _ _ _ (bytes_of_string "cpyth")); vm_decide. Defined.

Definition fresh_tree : fs := delete (src_dir ++ pth "cross-build/build") (delete (src_dir </> "cross-build") resumed_tree).

Definition setup_tree : fs :=
  mk_dirs [src_dir </> "cross-build"; src_dir ++ pth "cross-build/build"] fresh_tree.

Lemma build_setup_interrupted_witness :
  let exec := android_sim [[str_of "make-build"]] in
  let w1 := mk_world setup_tree []
              [android_command src_dir [str_of "configure-build"] None;
               android_command src_dir [str_of "make-build"] None] in
  build_setup exec src_dir (mk_world fresh_tree [] []) = (Err (CalledProcessError 2), w1) /\
  build_setup exec src_dir w1 = (Ok tt, w1).
Proof.
  apply (build_setup_interrupted _ src_dir (mk_world fresh_tree [] [])
           (mk_completed 0 [] []) setup_tree (mk_completed 2 [] []) setup_tree);
    [vm_decide | vm_decide | reflexivity | vm_decide | discriminate | vm_decide].
Defined.

(** ** Resumption under a flaky [android.py] *)

(** [android.py] at run [k]: the first run fails [make-host] of the
    [x86_64] host, every later run succeeds. *)
Definition flaky_android (k : nat) : fs -> command -> completed * fs :=
  if k is 0 then android_sim [[str_of "make-host"; x64]] else android_sim [].

Lemma mk_dirs_exists ps m p : exists_ m p = true -> exists_ (mk_dirs ps m) p = true.
Proof. revert m; induction ps as [|q ps IH]; intros m Hp; [done|]. apply IH. by apply exists_insert_dir. Qed.

Lemma android_sim_keeps failing m c p : exists_ m p = true -> exists_ (android_sim failing m c).2 p = true.
Proof. intros Hp. unfold android_sim. cbn [snd]. repeat case_match; auto using mk_dirs_exists. Qed.

Lemma android_sim_make failing m h :
  returncode (android_sim failing m (android_command src_dir [str_of "make-host"; h] None)).1 = 0%Z ->
  exists_ (android_sim failing m (android_command src_dir [str_of "make-host"; h] None)).2
    (host_prefix src_dir h) = true.
Proof.
  unfold android_sim. cbn [argv tail cmd_cwd android_command fst snd returncode].
  case_decide; [discriminate|]. intros _.
  rewrite bool_decide_eq_true_2 by done. rewrite bool_decide_eq_true_2 by done. cbn [andb].
  unfold src_dir. rewrite removelast_last. unfold mk_dirs. cbn [foldl].
  apply exists_insert_dir_self.
Qed.

Lemma build_hosts_eventually_built_witness :
  exists K, forall k, K <= k -> forall h, h ∈ build_hosts_ (sample_cfg [x64; arm64]) ->
    built src_dir h (w_fs (rerun (sample_cfg [x64; arm64]) src_dir [] flaky_android k (mk_world ∅ [] []))).
Proof.
  apply build_hosts_eventually_built.
  - intros [|k] m c h; apply android_sim_keeps.
  - intros [|k] m h; apply android_sim_make.
  - intros h k _. exists (S k). split; [lia|]. intros m c _.
    unfold flaky_android, android_sim. cbn zeta. case_decide as Hin; [by apply not_elem_of_nil in Hin | done].
Defined.

End Source.
