(* ===== verification/UpdateBin.v ===== *)
(** * [src/module/update-bin.py]: the wrappers of [system/bin]

    On the device, [sync_wrappers] makes [system/bin] (relative to the
    module directory) hold one shell wrapper per regular file found in
    the directories of [$PATH] that contain [$HOME]: it lists the
    existing wrappers, collects the available executables, creates a
    wrapper for each available name without one, and removes each
    wrapper whose name is no longer available.  [main] creates
    [system/bin] first and turns an [OSError] into [SystemExit(1)].
    The state is the tree of [FileSystem.v] and the environment.
    [sync_wrappers_io] runs on the world, one write or unlink per step,
    so that the [SystemExit(1)] of an [OSError] keeps the wrappers already
    written; [sync_wrappers] is its outcome on the tree, and
    [sync_wrappers_m] adds the permission bits [chmod(0o755)] sets, its
    projection on the tree being [sync_wrappers]. *)

From S2P Require Import Prelude PyDict Bytes FileSystem Glob Effects.

Module UpdateBin.
Import FS PyDict Glob Effects Utf8.

Definition MODULE_BIN : path := ["system"; "bin"].
#[local] Arguments MODULE_BIN : simpl never.

(** [Path.name] *)
Definition name_of (p : path) : string :=
  match last p with Some x => x | None => EmptyString end.

Definition dquote : ascii := "034"%char.

(** [WRAPPER_TEMPLATE.format(home=HOME, prog=name)], the template being
    stripped of its surrounding newlines. *)
Definition wrapper_text (home : str) (prog : string) : str :=
  str_of "#!/system/bin/sh" ++ ["010"%char] ++
  str_of ". " ++ [dquote] ++ home ++ str_of "/env.sh" ++ [dquote] ++
  str_of " && exec " ++ str_of prog ++ str_of " " ++ [dquote] ++ str_of "$@" ++ [dquote].

Section Sync.
Variable environ : dict str str.
(** [HOME = environ["HOME"]], read when the module is loaded. *)
Variable home : str.

(** [iter_env_path()]: the entries of [PATH] in which [HOME] occurs, as
    paths, that are directories. *)
Definition iter_env_path (m : fs) : result (list path) :=
  match get (str_of "PATH") environ with
  | None => Err (KeyError "PATH")
  | Some env_path =>
      Ok (filter (fun p => is_dir m p = true)
            (path_of_str <$> filter (fun e => contains home e = true) (split_on ":"%char env_path)))
  end.

(** [{file.name: file for file in MODULE_BIN.iterdir() if file.is_file()}] *)
Definition existing_wrappers (m : fs) : result (dict string path) :=
  (fun ps : list path => (fun p => (name_of p, p)) <$> filter (fun p => is_file m p = true) ps)
    <$> iterdir m MODULE_BIN.

(** The names of the regular files of the directories. *)
Definition available_executables (m : fs) (dirs : list path) : result (gset string) :=
  foldM (fun acc d =>
           iterdir m d ≫= fun ps : list path =>
           Ok (acc ∪ list_to_set (name_of <$> filter (fun p => is_file m p = true) ps)))
    ∅ dirs.

(** [create_wrapper(path)]: [write_text] of the wrapper, UTF-8. *)
Definition create_wrapper (m : fs) (p : path) : result fs :=
  write_bytes m p (utf8_encode (wrapper_text home (name_of p))).

(** [remove_wrapper(path)] *)
Definition remove_wrapper (m : fs) (p : path) : result fs := unlink m p.

Definition sync_wrappers (m : fs) : result fs :=
  existing ← existing_wrappers m;
  dirs ← iter_env_path m;
  available ← available_executables m dirs;
  m1 ← foldM (fun m name =>
                if decide (name ∈ keys existing) then Ok m
                else create_wrapper m (MODULE_BIN </> name)) m (elements available);
  foldM (fun m '(name, p) => if decide (name ∈ available) then Ok m else remove_wrapper m p)
    m1 existing.

(** ** File modes *)

(** [PERMISSIONS_MODE = 0o755] *)
Definition PERMISSIONS_MODE : N := 493.

(** [create_wrapper(path)]: [write_text], which keeps the mode of an
    existing file and gives a new one the default mode (not recorded),
    then [chmod(PERMISSIONS_MODE)]. *)
Definition create_wrapper_m (s : fs * modes) (p : path) : result (fs * modes) :=
  m' ← create_wrapper s.1 p;
  let md := if s.1 !! p is Some _ then s.2 else delete p s.2 in
  md' ← chmod m' md p PERMISSIONS_MODE;
  Ok (m', md').

(** [remove_wrapper(path)]: the entry goes, and its mode with it. *)
Definition remove_wrapper_m (s : fs * modes) (p : path) : result (fs * modes) :=
  m' ← remove_wrapper s.1 p; Ok (m', delete p s.2).

(** [sync_wrappers()] on the tree and the modes. *)
Definition sync_wrappers_m (s : fs * modes) : result (fs * modes) :=
  existing ← existing_wrappers s.1;
  dirs ← iter_env_path s.1;
  available ← available_executables s.1 dirs;
  s1 ← foldM (fun s name =>
                if decide (name ∈ keys existing) then Ok s
                else create_wrapper_m s (MODULE_BIN </> name)) s (elements available);
  foldM (fun s '(name, p) => if decide (name ∈ available) then Ok s else remove_wrapper_m s p)
    s1 existing.

End Sync.

(** ** The loops of [sync_wrappers] *)

Section Loops.
Variable home : str.

Definition wrapper_entry (n : string) : entry :=
  EFile (utf8_encode (wrapper_text home n)).

Definition create_step (K : list string) (m : fs) (n : string) : fs :=
  if decide (n ∈ K) then m else <[MODULE_BIN </> n := wrapper_entry n]> m.

Definition remove_step {V : Type} (A : gset string) (m : gmap path V) (np : string * path) : gmap path V :=
  if decide (np.1 ∈ A) then m else delete np.2 m.

Lemma name_of_snoc d x : name_of (d </> x) = x.
Proof. unfold name_of. by rewrite last_snoc. Qed.

(** The name of a direct child of [MODULE_BIN]. *)
Definition bin_name (q : path) : option string :=
  if decide (q <> [] /\ removelast q = MODULE_BIN) then last q else None.

Lemma bin_name_snoc n : bin_name (MODULE_BIN </> n) = Some n.
Proof.
  unfold bin_name. rewrite decide_True; [by rewrite last_snoc|].
  split; [by destruct MODULE_BIN | apply removelast_last].
Qed.

Lemma bin_name_Some q n : bin_name q = Some n -> q = MODULE_BIN </> n.
Proof.
  unfold bin_name. case_decide as Hq; [|done]. destruct Hq as [Hq <-]. intros Hl.
  rewrite (app_removelast_last ""%string Hq) at 1. f_equal. f_equal.
  rewrite (app_removelast_last ""%string Hq) in Hl. rewrite last_snoc in Hl. congruence.
Qed.

Lemma lookup_create_step K m n q :
  create_step K m n !! q =
    if decide (bin_name q = Some n /\ n ∉ K) then Some (wrapper_entry n) else m !! q.
Proof.
  unfold create_step. case_decide as Hn; case_decide as Hq.
  - naive_solver.
  - done.
  - destruct Hq as [Hq _]. apply bin_name_Some in Hq as ->. by rewrite lookup_insert_eq.
  - rewrite lookup_insert_ne; [done|]. intros <-. rewrite bin_name_snoc in Hq. naive_solver.
Qed.

Lemma create_loop K l m :
  NoDup l -> m !! MODULE_BIN = Some EDir ->
  (forall n, n ∈ l -> n ∉ K -> m !! (MODULE_BIN </> n) = None) ->
  foldM (fun m name => if decide (name ∈ K) then Ok m else create_wrapper home m (MODULE_BIN </> name)) m l
    = Ok (fold_left (create_step K) l m).
Proof.
  revert m. induction l as [|n l IH]; intros m Hnd Hbin Hfree; [done|].
  apply NoDup_cons in Hnd as [Hn Hnd]. cbn [foldM fold_left]. unfold create_step at 2.
  case_decide as HK.
  - rewrite bind_Ok. apply IH; [done|done|]. intros n' ?. apply Hfree. set_solver.
  - unfold create_wrapper, write_bytes. rewrite (Hfree n) by set_solver.
    rewrite removelast_last, Hbin, bind_Ok, name_of_snoc. apply IH; [done| |].
    + rewrite lookup_insert_ne; [done|]. intros Hc. apply (f_equal length) in Hc.
      rewrite length_app in Hc. simpl in Hc. lia.
    + intros n' Hn' HK'. rewrite lookup_insert_ne; [set_solver|].
      intros Hc. apply app_inj_tail in Hc as [_ ->]. done.
Qed.

Lemma lookup_fold_create K l m q :
  fold_left (create_step K) l m !! q =
    match bin_name q with
    | Some n => if decide (n ∈ l /\ n ∉ K) then Some (wrapper_entry n) else m !! q
    | None => m !! q
    end.
Proof.
  revert m. induction l as [|n l IH]; intros m; simpl.
  - by destruct (bin_name q).
  - rewrite IH, lookup_create_step. destruct (bin_name q) as [n'|];
      repeat case_decide; try set_solver; naive_solver.
Qed.

Lemma lookup_remove_step {V : Type} (A : gset string) (m : gmap path V) (np : string * path) (q : path) :
  remove_step A m np !! q = if decide (np.1 ∉ A /\ np.2 = q) then None else m !! q.
Proof.
  unfold remove_step. case_decide as Hn; case_decide as Hq; try naive_solver.
  - destruct Hq as [_ <-]. by rewrite lookup_delete_eq.
  - rewrite lookup_delete_ne; naive_solver.
Qed.

Lemma remove_loop A E m :
  NoDup E.*2 ->
  (forall np, np ∈ E -> np.1 ∉ A -> exists e, m !! np.2 = Some e /\ e <> EDir) ->
  foldM (fun m '(name, p) => if decide (name ∈ A) then Ok m else remove_wrapper m p) m E
    = Ok (fold_left (remove_step A) E m).
Proof.
  revert m. induction E as [|[n p] E IH]; intros m Hnd Hent; [done|].
  simpl in Hnd. apply NoDup_cons in Hnd as [Hp Hnd]. cbn [foldM fold_left]. unfold remove_step at 2.
  simpl. case_decide as HA.
  - rewrite bind_Ok. apply IH; [done|]. intros np ?. apply Hent. set_solver.
  - destruct (Hent (n, p)) as (e & He & Hne); [set_solver|done|].
    unfold remove_wrapper, unlink. simpl in He. rewrite He.
    assert (Hrest : forall np, np ∈ E -> np.1 ∉ A -> exists e, delete p m !! np.2 = Some e /\ e <> EDir).
    { intros [n' p'] Hin HA'. rewrite lookup_delete_ne.
      - apply (Hent (n', p')); set_solver.
      - intros Heq. apply Hp. rewrite Heq. by apply (list_elem_of_fmap_2 snd E (n', p')). }
    destruct e; try done; rewrite bind_Ok; by apply IH.
Qed.

Lemma lookup_fold_remove {V : Type} (A : gset string) (E : list (string * path)) (m : gmap path V) (q : path) :
  fold_left (remove_step A) E m !! q =
    if decide (q ∈ snd <$> filter (fun np => np.1 ∉ A) E) then None else m !! q.
Proof.
  revert m. induction E as [|np E IH]; intros m; simpl; [done|].
  rewrite IH, lookup_remove_step, filter_cons. repeat case_decide; set_solver.
Qed.

End Loops.

(** ** The specification of [sync_wrappers] *)

(** The existing wrappers: the regular files directly in [MODULE_BIN]. *)
Definition wrapper_list (m : fs) : dict string path :=
  (fun p => (name_of p, p)) <$>
    filter (fun p => is_file m p = true) (filter (is_child MODULE_BIN) (fst <$> map_to_list m)).

Lemma existing_wrappers_Ok m :
  m !! MODULE_BIN = Some EDir -> existing_wrappers m = Ok (wrapper_list m).
Proof. intros Hb. unfold existing_wrappers, iterdir. by rewrite (stat_nonlink _ _ EDir Hb). Qed.

Lemma elem_of_wrapper_list m n p :
  (n, p) ∈ wrapper_list m <-> p = MODULE_BIN </> n /\ is_file m p = true.
Proof.
  unfold wrapper_list. rewrite list_elem_of_fmap. split.
  - intros (p' & [= -> ->] & Hp). rewrite !list_elem_of_filter in Hp.
    destruct Hp as (Hf & [x ->] & _). by rewrite name_of_snoc.
  - intros [-> Hf]. exists (MODULE_BIN </> n). rewrite name_of_snoc. split; [done|].
    rewrite !list_elem_of_filter. destruct (is_file_entry _ _ Hf) as (e & He & _).
    split; [done|]. split; [by eexists|]. by eapply elem_of_keys_fst.
Qed.

Lemma keys_wrapper_list m n : n ∈ keys (wrapper_list m) <-> is_file m (MODULE_BIN </> n) = true.
Proof.
  unfold keys. rewrite list_elem_of_fmap. split.
  - intros ([n' p] & -> & Hin). apply elem_of_wrapper_list in Hin as [-> Hf]. done.
  - intros Hf. exists (n, MODULE_BIN </> n). split; [done|]. by apply elem_of_wrapper_list.
Qed.

Lemma wrapper_list_NoDup m : NoDup (wrapper_list m).*2.
Proof.
  unfold wrapper_list. rewrite <- list_fmap_compose. simpl. rewrite list_fmap_id.
  apply NoDup_filter, NoDup_filter, NoDup_fst_map_to_list.
Qed.

Lemma removed_iff m (A : gset string) q :
  q ∈ (filter (fun np => np.1 ∉ A) (wrapper_list m)).*2 <->
  exists n, q = MODULE_BIN </> n /\ is_file m q = true /\ n ∉ A.
Proof.
  rewrite list_elem_of_fmap. split.
  - intros ([n p] & -> & Hin). rewrite list_elem_of_filter, elem_of_wrapper_list in Hin.
    cbn [fst snd] in *. destruct Hin as [HnA [-> Hf]]. eauto.
  - intros (n & -> & Hf & HnA). exists (n, MODULE_BIN </> n). split; [done|].
    rewrite list_elem_of_filter, elem_of_wrapper_list. done.
Qed.

Lemma removed_bin m (A : gset string) n :
  MODULE_BIN </> n ∈ (filter (fun np => np.1 ∉ A) (wrapper_list m)).*2 <->
  is_file m (MODULE_BIN </> n) = true /\ n ∉ A.
Proof.
  rewrite removed_iff. split; [|naive_solver].
  intros (n' & Hp & Hf & HnA). apply app_inj_tail in Hp as [_ <-]. done.
Qed.

(** What a lookup sees after both loops: removed wrappers are gone,
    created ones hold [v n], everything else is as before; stated for any
    map on paths, the tree and the modes alike. *)
Lemma sync_lookup {V : Type} (m : fs) (A : gset string) (old : gmap path V) (v : string -> V) q :
  (if decide (q ∈ (filter (fun np => np.1 ∉ A) (wrapper_list m)).*2) then None else
     match bin_name q with
     | Some n => if decide (n ∈ elements A /\ n ∉ keys (wrapper_list m)) then Some (v n) else old !! q
     | None => old !! q
     end) =
  match bin_name q with
  | Some n => if is_file m q then (if decide (n ∈ A) then old !! q else None)
              else if decide (n ∈ A) then Some (v n) else old !! q
  | None => old !! q
  end.
Proof.
  destruct (bin_name q) as [n|] eqn:Hq.
  - apply bin_name_Some in Hq as ->.
    case_decide as Hr; [apply removed_bin in Hr as [Hf HnA]; by rewrite Hf, decide_False|].
    rewrite removed_bin in Hr. case_decide as Hc.
    + destruct Hc as [HnA%elem_of_elements HnK]. rewrite keys_wrapper_list in HnK.
      destruct (is_file m (MODULE_BIN </> n)); [done|]. by rewrite decide_True.
    + destruct (is_file m (MODULE_BIN </> n)) eqn:Hf.
      * rewrite decide_True; [done|]. destruct (decide (n ∈ A)) as [|HnA]; [done|].
        exfalso. by apply Hr.
      * rewrite decide_False; [done|]. intros HnA. apply Hc.
        split; [by apply elem_of_elements|]. by rewrite keys_wrapper_list, Hf.
  - rewrite decide_False; [done|]. intros Hr. apply removed_iff in Hr as (n & -> & _).
    by rewrite bin_name_snoc in Hq.
Qed.

(** C11: [sync_wrappers] on a [system/bin] directory where no available
    name is taken by anything but a regular file: it succeeds, keeps each
    wrapper (regular file of [system/bin]) whose name is available as it
    is, even if its text is out of date, removes each other wrapper,
    creates the template wrapper for each available name that has none,
    and changes nothing else. *)
Theorem sync_wrappers_spec environ home m dirs A :
  m !! MODULE_BIN = Some EDir ->
  iter_env_path environ home m = Ok dirs -> available_executables m dirs = Ok A ->
  (forall n, n ∈ A -> is_file m (MODULE_BIN </> n) = false -> m !! (MODULE_BIN </> n) = None) ->
  exists m', sync_wrappers environ home m = Ok m' /\
    forall q, m' !! q =
      match bin_name q with
      | Some n =>
          if is_file m q then (if decide (n ∈ A) then m !! q else None)
          else if decide (n ∈ A) then Some (wrapper_entry home n) else m !! q
      | None => m !! q
      end.
Proof.
  intros Hb Hd HA Hfree. unfold sync_wrappers. rewrite existing_wrappers_Ok, bind_Ok, Hd, bind_Ok, HA, bind_Ok by done.
  rewrite create_loop; [|apply NoDup_elements|done|].
  2:{ intros n Hn HK. apply Hfree; [set_solver|].
      destruct (is_file m (MODULE_BIN </> n)) eqn:E; [|done]. by apply keys_wrapper_list in E. }
  rewrite bind_Ok, remove_loop; [|apply wrapper_list_NoDup|].
  2:{ intros [n p] Hin HnA. apply elem_of_wrapper_list in Hin as [-> Hf]. cbn [fst snd] in *.
      rewrite lookup_fold_create, bin_name_snoc, decide_False by set_solver. by apply is_file_entry. }
  eexists; split; [done|]. intros q. rewrite lookup_fold_remove, lookup_fold_create.
  apply sync_lookup.
Qed.

(** ** The modes [sync_wrappers] leaves *)

Lemma chmod_written m md p data m' mode :
  write_bytes m p data = Ok m' -> chmod m' md p mode = Ok (<[p := mode]> md).
Proof. intros ->%write_bytes_Ok. unfold chmod, MAXSYMLINKS. cbn [resolve_path]. by rewrite lookup_insert_eq. Qed.

Lemma create_wrapper_m_spec home m md p :
  create_wrapper_m home (m, md) p = (fun m' => (m', <[p := PERMISSIONS_MODE]> md)) <$> create_wrapper home m p.
Proof.
  unfold create_wrapper_m. cbn [fst snd]. destruct (create_wrapper home m p) as [m'|e] eqn:E; [|done].
  rewrite bind_Ok. erewrite chmod_written by exact E. rewrite bind_Ok.
  destruct (m !! p); [done|]. by rewrite insert_delete_eq.
Qed.

Lemma remove_wrapper_m_spec m md p :
  remove_wrapper_m (m, md) p = (fun m' => (m', delete p md)) <$> remove_wrapper m p.
Proof. unfold remove_wrapper_m. cbn [fst snd]. by destruct (remove_wrapper m p). Qed.

Definition create_mode (K : list string) (md : modes) (n : string) : modes :=
  if decide (n ∈ K) then md else <[MODULE_BIN </> n := PERMISSIONS_MODE]> md.

Lemma lookup_fold_create_mode K l md q :
  fold_left (create_mode K) l md !! q =
    match bin_name q with
    | Some n => if decide (n ∈ l /\ n ∉ K) then Some PERMISSIONS_MODE else md !! q
    | None => md !! q
    end.
Proof.
  revert md. induction l as [|n l IH]; intros md; simpl; [by destruct (bin_name q)|].
  rewrite IH. unfold create_mode. destruct (decide (n ∈ K)) as [HK|HK].
  - destruct (bin_name q); [|done]. repeat case_decide; set_solver.
  - destruct (bin_name q) as [n'|] eqn:Hq.
    + apply bin_name_Some in Hq as ->. destruct (decide (n' = n)) as [->|Hne].
      * rewrite lookup_insert_eq. repeat case_decide; set_solver.
      * rewrite lookup_insert_ne by (intros Hc%app_inj_tail; naive_solver). repeat case_decide; set_solver.
    + rewrite lookup_insert_ne; [done|]. intros <-. by rewrite bin_name_snoc in Hq.
Qed.

(** C23: File modes of [sync_wrappers]: with the modes tracked next to the
    tree, the tree it produces (and whether it raises) is exactly that of
    [sync_wrappers] on the tree alone, and the modes afterwards are
    determined: each wrapper it creates has [PERMISSIONS_MODE] (0o755), a
    wrapper it removes loses its mode, and every other path, kept
    wrappers included, keeps its mode even when it is not executable. *)
Theorem sync_wrappers_modes environ home m md dirs A :
  m !! MODULE_BIN = Some EDir ->
  iter_env_path environ home m = Ok dirs -> available_executables m dirs = Ok A ->
  exists md', sync_wrappers_m environ home (m, md) = (fun m' => (m', md')) <$> sync_wrappers environ home m /\
    forall q, md' !! q =
      match bin_name q with
      | Some n =>
          if is_file m q then (if decide (n ∈ A) then md !! q else None)
          else if decide (n ∈ A) then Some PERMISSIONS_MODE else md !! q
      | None => md !! q
      end.
Proof.
  intros Hb Hd HA. unfold sync_wrappers_m, sync_wrappers. cbn [fst].
  rewrite existing_wrappers_Ok, !bind_Ok, Hd, !bind_Ok, HA, !bind_Ok by done.
  set (K := keys (wrapper_list m)). set (E := wrapper_list m).
  rewrite (foldM_pair (fun m name => if decide (name ∈ K) then Ok m else create_wrapper home m (MODULE_BIN </> name)) (create_mode K)).
  2:{ intros a b x. unfold create_mode. case_decide; [done|]. apply create_wrapper_m_spec. }
  exists (fold_left (remove_step A) E (fold_left (create_mode K) (elements A) md)). split.
  - destruct (foldM _ m (elements A)) as [m1|e]; [|done]. simpl.
    rewrite (foldM_pair (fun m '(name, p) => if decide (name ∈ A) then Ok m else remove_wrapper m p) (remove_step A)); [done|].
    intros a b [n p]. unfold remove_step. cbn [fst snd]. case_decide; [done|]. apply remove_wrapper_m_spec.
  - intros q. rewrite lookup_fold_remove, lookup_fold_create_mode. apply sync_lookup.
Qed.

(** The exceptions that are [OSError]s. *)
Definition is_oserror (e : py_exc) : bool :=
  match e with
  | FileNotFoundError _ | IsADirectoryError _ | NotADirectoryError _
  | FileExistsError _ | OSError _ => true
  | _ => false
  end.

(** [sync_wrappers()] on the world: the reads first, then one step per
    wrapper created or removed, so that an exception keeps the wrappers
    already written or removed. *)
Definition sync_wrappers_io (environ : dict str str) (home : str) : M unit :=
  let* m := get_fs in
  let* existing := lift (existing_wrappers m) in
  let* dirs := lift (iter_env_path environ home m) in
  let* available := lift (available_executables m dirs) in
  forM_ (elements available) (fun name =>
    if decide (name ∈ keys existing) then ret tt
    else fs_op (fun m => create_wrapper home m (MODULE_BIN </> name))) ;;;
  forM_ existing (fun '(name, p) =>
    if decide (name ∈ available) then ret tt else fs_op (fun m => remove_wrapper m p)).

(** [main()], with the module-level [HOME = environ["HOME"]] before it:
    [try: ... except OSError as e: raise SystemExit(1) from e]. *)
Definition main : M unit :=
  let* environ := get_environ in
  match get (str_of "HOME") environ with
  | None => raise (KeyError "HOME")
  | Some home =>
      catch (fs_op (fun m => makedirs m MODULE_BIN) ;;; sync_wrappers_io environ home)
        (fun e => if is_oserror e then raise (SystemExit 1) else raise e)
  end.

Lemma create_loop_fs_op (home : str) (K : list string) (l : list string) w :
  forM_ l (fun name => if decide (name ∈ K) then ret tt
                       else fs_op (fun m => create_wrapper home m (MODULE_BIN </> name))) w =
  forM_ l (fun name => fs_op (fun m => if decide (name ∈ K) then Ok m
                                       else create_wrapper home m (MODULE_BIN </> name))) w.
Proof. apply forM_ext. intros. apply if_fs_op. Qed.

Lemma remove_loop_fs_op (A : gset string) (E : dict string path) w :
  forM_ E (fun '(name, p) => if decide (name ∈ A) then ret tt else fs_op (fun m => remove_wrapper m p)) w =
  forM_ E (fun np => fs_op (fun m => let '(name, p) := np in
                                     if decide (name ∈ A) then Ok m else remove_wrapper m p)) w.
Proof. apply forM_ext. intros [n p] w'. apply if_fs_op. Qed.

(** Refinement: [sync_wrappers] is the outcome of [sync_wrappers_io]. *)
Lemma sync_wrappers_io_Ok environ home w m' :
  sync_wrappers environ home (w_fs w) = Ok m' -> sync_wrappers_io environ home w = (Ok tt, with_fs w m').
Proof.
  unfold sync_wrappers, sync_wrappers_io. intros H. unfold bind at 1 2 3 4, get_fs, lift.
  destruct (existing_wrappers (w_fs w)) as [E|e]; [rewrite bind_Ok in H|done].
  destruct (iter_env_path environ home (w_fs w)) as [dirs|e]; [rewrite bind_Ok in H|done].
  destruct (available_executables (w_fs w) dirs) as [A|e]; [rewrite bind_Ok in H|done].
  destruct (foldM _ (w_fs w) (elements A)) as [m1|e] eqn:Hc; [rewrite bind_Ok in H|done].
  unfold bind. rewrite create_loop_fs_op, (forM_fs_op_Ok _ _ _ m1 Hc).
  rewrite remove_loop_fs_op. by apply (forM_fs_op_Ok _ _ (with_fs w m1)).
Qed.

(** [MODULE_BIN.mkdir(parents=True, exist_ok=True)] on an existing
    [system/bin]. *)
Lemma makedirs_bin m : fs_wf m -> m !! MODULE_BIN = Some EDir -> makedirs m MODULE_BIN = Ok m.
Proof.
  intros Hwf Hb. assert (Hs : m !! ["system"%string] = Some EDir) by (apply (Hwf _ "bin"%string EDir), Hb).
  unfold makedirs, MODULE_BIN. cbn [inits tail fmap list_fmap map foldM app].
  rewrite (stat_nonlink _ _ _ Hs) by done. rewrite bind_Ok.
  rewrite (stat_nonlink _ _ EDir) by done. done.
Qed.

Lemma NoDup_take_l {A : Type} (l : list A) k : NoDup l -> NoDup (take k l).
Proof. intros Hnd. rewrite <- (take_drop k l) in Hnd. by apply NoDup_app in Hnd as [? _]. Qed.

Lemma not_in_take_lookup {A : Type} (l : list A) k x : NoDup l -> l !! k = Some x -> x ∉ take k l.
Proof.
  intros Hnd Hk. rewrite <- (take_drop_middle _ _ _ Hk) in Hnd.
  apply NoDup_app in Hnd as (_ & Hd & _). intros Hin. apply (Hd x Hin). by left.
Qed.

(** C34: An [OSError] in the middle of [sync_wrappers] keeps the wrappers
    already written: when the [k]-th available name, in the order the
    set yields them, is taken by a directory of [system/bin] and the names
    before it are free or regular files, update-bin exits with
    [SystemExit(1)] in the world where the wrappers of the names before
    it have been created, and none has been removed. *)
Theorem main_keeps_created_wrappers environ home log m dirs A k n :
  get (str_of "HOME") environ = Some home -> fs_wf m -> m !! MODULE_BIN = Some EDir ->
  iter_env_path environ home m = Ok dirs -> available_executables m dirs = Ok A ->
  elements A !! k = Some n -> m !! (MODULE_BIN </> n) = Some EDir ->
  (forall n', n' ∈ take k (elements A) -> is_file m (MODULE_BIN </> n') = false ->
     m !! (MODULE_BIN </> n') = None) ->
  main (mk_world m environ log) =
    (Err (SystemExit 1),
     mk_world (fold_left (create_step home (keys (wrapper_list m))) (take k (elements A)) m) environ log).
Proof.
  intros Hh Hwf Hb Hd HA Hk Hn Hfree.
  pose proof (not_in_take_lookup _ _ _ (NoDup_elements A) Hk) as Hnk.
  assert (HnK : n ∉ keys (wrapper_list m)).
  { rewrite keys_wrapper_list. unfold is_file. by rewrite (stat_nonlink _ _ _ Hn). }
  set (K := keys (wrapper_list m)) in *.
  assert (Hc : foldM (fun m name => if decide (name ∈ K) then Ok m else create_wrapper home m (MODULE_BIN </> name))
                 m (take k (elements A)) = Ok (fold_left (create_step home K) (take k (elements A)) m)).
  { apply create_loop; [apply NoDup_take_l, NoDup_elements|done|].
    intros n' Hn' HK. apply Hfree; [done|]. destruct (is_file m _) eqn:E; [|done].
    exfalso. apply HK. by apply keys_wrapper_list. }
  unfold main, bind at 1, get_environ. cbn [w_environ]. rewrite Hh. unfold catch, bind at 1.
  rewrite (fs_op_Ok _ _ m) by (by apply makedirs_bin).
  change (with_fs (mk_world m environ log) m) with (mk_world m environ log).
  unfold sync_wrappers_io, bind at 1 2 3 4, get_fs, lift. cbn [w_fs].
  rewrite existing_wrappers_Ok, Hd, HA by done. fold K. unfold bind at 1.
  set (m1 := fold_left (create_step home K) (take k (elements A)) m) in *.
  rewrite create_loop_fs_op, <- (take_drop_middle _ _ _ Hk).
  rewrite (forM_fs_op_app_Err _ _ _ _ (mk_world m environ log) _ (IsADirectoryError (MODULE_BIN </> n)) Hc);
    [done|].
  rewrite decide_False by done. unfold create_wrapper, write_bytes, m1.
  rewrite lookup_fold_create, bin_name_snoc, decide_False by naive_solver. by rewrite Hn.
Qed.

(** ** Scenarios *)

Definition pth (s : string) : path := path_of_str (str_of s).

(** A device: the module's [system/bin] holds a stale [python3] wrapper
    and an [old] one; [$HOME/bin] holds [python3] and [pip]; a sibling
    directory [/data/py2droid-old/bin] holds [legacy]. *)
Definition device_tree : fs :=
  list_to_map
    [([], EDir); (pth "system", EDir); (pth "system/bin", EDir);
     (pth "system/bin/python3", EFile (bytes_of_string "stale")); (pth "system/bin/old", EFile []);
     (["/"], EDir); (pth "/data", EDir); (pth "/data/py2droid", EDir); (pth "/data/py2droid/bin", EDir);
     (pth "/data/py2droid/bin/python3", EFile []); (pth "/data/py2droid/bin/pip", EFile []);
     (pth "/data/py2droid-old", EDir); (pth "/data/py2droid-old/bin", EDir);
     (pth "/data/py2droid-old/bin/legacy", EFile [])]%string.

Definition device_environ : dict str str :=
  [(str_of "HOME", str_of "/data/py2droid");
   (str_of "PATH", str_of "/data/py2droid/bin:/data/py2droid-old/bin:/system/bin")].

(** [iter_env_path] keeps every [PATH] entry in which the text of
    [HOME] occurs, not only the directories inside [HOME]: the sibling
    [/data/py2droid-old/bin] is yielded, so its executables get
    wrappers. *)
Theorem iter_env_path_sibling_dir :
  iter_env_path device_environ (str_of "/data/py2droid") device_tree =
    Ok [pth "/data/py2droid/bin"; pth "/data/py2droid-old/bin"] /\
  ~ (pth "/data/py2droid") `prefix_of` (pth "/data/py2droid-old/bin").
Proof. split; [vm_decide | vm_compute; intros [k Hk]; discriminate]. Qed.

Lemma sync_wrappers_spec_witness :
  exists m', sync_wrappers device_environ (str_of "/data/py2droid") device_tree = Ok m' /\
    forall q, m' !! q =
      match bin_name q with
      | Some n =>
          if is_file device_tree q
          then (if decide (n ∈ list_to_set (C := gset string) ["python3"; "pip"; "legacy"]%string)
                then device_tree !! q else None)
          else if decide (n ∈ list_to_set (C := gset string) ["python3"; "pip"; "legacy"]%string)
          then Some (wrapper_entry (str_of "/data/py2droid") n) else device_tree !! q
      | None => device_tree !! q
      end.
Proof.
  apply (sync_wrappers_spec _ _ _ [pth "/data/py2droid/bin"; pth "/data/py2droid-old/bin"]);
    [vm_decide | vm_decide | vm_decide |].
  intros n Hn. rewrite elem_of_list_to_set, !elem_of_cons, elem_of_nil in Hn.
  destruct Hn as [->|[->|[->|[]]]]; vm_decide.
Defined.

(** The device with a directory [system/bin/pip]: the available names
    come as [legacy], [python3], [pip]; the wrapper of [legacy] is written
    before [pip] fails. *)
Definition pip_dir_tree : fs := <[pth "system/bin/pip" := EDir]> device_tree.

Lemma main_keeps_created_wrappers_witness :
  main (mk_world pip_dir_tree device_environ []) =
    (Err (SystemExit 1),
     mk_world (fold_left (create_step (str_of "/data/py2droid") (keys (wrapper_list pip_dir_tree)))
                 (take 2 (elements (list_to_set (C := gset string) ["python3"; "pip"; "legacy"]%string)))
                 pip_dir_tree) device_environ []) /\
  fold_left (create_step (str_of "/data/py2droid") (keys (wrapper_list pip_dir_tree)))
    (take 2 (elements (list_to_set (C := gset string) ["python3"; "pip"; "legacy"]%string))) pip_dir_tree
    !! pth "system/bin/legacy" = Some (wrapper_entry (str_of "/data/py2droid") "legacy").
Proof.
  split; [|vm_compute; reflexivity].
  apply (main_keeps_created_wrappers _ _ _ _ [pth "/data/py2droid/bin"; pth "/data/py2droid-old/bin"] _ _ "pip"%string);
    [vm_compute; reflexivity | apply fs_wfb_sound; vm_compute; reflexivity | vm_compute; reflexivity
    | vm_compute; reflexivity | vm_compute; reflexivity | vm_compute; reflexivity | vm_compute; reflexivity |].
  intros n' Hn'. assert (Ht : take 2 (elements (list_to_set (C := gset string) ["python3"; "pip"; "legacy"]%string))
                              = ["legacy"; "python3"]%string) by (vm_compute; reflexivity).
  rewrite Ht, !elem_of_cons, elem_of_nil in Hn'. destruct Hn' as [->|[->|[]]]; vm_compute; congruence.
Defined.

(** [system/bin/python3] was left at [0o644] (not executable), [old] has
    [0o755]. *)
Definition device_modes : modes :=
  <[pth "system/bin/python3" := 420%N]> (<[pth "system/bin/old" := 493%N]> ∅).

Lemma sync_wrappers_modes_witness :
  exists md', sync_wrappers_m device_environ (str_of "/data/py2droid") (device_tree, device_modes) =
      (fun m' => (m', md')) <$> sync_wrappers device_environ (str_of "/data/py2droid") device_tree /\
    md' !! pth "system/bin/python3" = Some 420%N /\
    md' !! pth "system/bin/pip" = Some PERMISSIONS_MODE /\
    md' !! pth "system/bin/old" = None.
Proof.
  destruct (sync_wrappers_modes device_environ (str_of "/data/py2droid") device_tree device_modes
      [pth "/data/py2droid/bin"; pth "/data/py2droid-old/bin"]
      (list_to_set (C := gset string) ["python3"; "pip"; "legacy"]%string))
    as (md' & Heq & Hlk); [vm_decide | vm_decide | vm_decide |].
  exists md'. split; [exact Heq|]. rewrite !Hlk. split_and!; vm_compute; reflexivity.
Defined.

End UpdateBin.
