(* ===== verification/Release.v ===== *)
(** * [src/scripts/release.py]: version bump, changelog, commit and tag

    [main] normalises the tags with [process_tag], checks them with
    [VERSION_TAG_RE.match] and calls [prepare_release], which optionally
    rewrites the CPython references of [build.toml] and [README.md]
    ([update_cpython_refs]) and commits them, then rewrites
    [module/module.prop] and [module/update.json] ([update_module]), runs
    [git-cliff] ([generate_changelog]) and optionally commits and tags.

    The three regular expressions are modelled as the matchers they
    compile to ([version_match_at], [version_re], [badge_re]),
    and [pattern.sub(repl, s, count)] as [re_sub]: the replacement [repl]
    is a template of [re] ([parse_template], after CPython's
    [re._parser.parse_template] for a pattern without groups), expanded at
    each match found scanning left to right.  The state is the [world] of
    [Effects.v]; [json.load] and [json.dump] are the class [JsonCodec];
    [VERSION_CODE_DATE] is a section variable. *)

From Stdlib Require Import ZArith.
From S2P Require Import Prelude PyDict Template Bytes ModuleProp FileSystem Effects.

Module Release.
Import FS PyDict Effects Utf8.

(** ** Character classes of [re] on the code points of the model *)

(** [\d] on [str] patterns: the Unicode decimal digits, of which only
    the ASCII ones are below 256. *)
Definition dquote_char : ascii := "034"%char.

Definition is_digit : ascii -> bool := Template.is_digit.
Definition is_octal (c : ascii) : bool :=
  let n := nat_of_ascii c in bool_decide (48 <= n <= 55).
Definition is_ascii_letter : ascii -> bool := Template.is_alpha.

(** [str.isidentifier] below 256: [XID_Start] is the ASCII letters,
    [ª], [µ], [º] and the Latin-1 letters; [_] may start a name; digits
    and [·] may continue one. *)
Definition id_start (c : ascii) : bool :=
  let n := nat_of_ascii c in
  bool_decide (65 <= n <= 90 \/ 97 <= n <= 122 \/ n = 95 \/ n = 170 \/ n = 181 \/
               n = 186 \/ 192 <= n <= 214 \/ 216 <= n <= 246 \/ 248 <= n).
Definition id_continue (c : ascii) : bool :=
  id_start c || is_digit c || bool_decide (nat_of_ascii c = 183).
Definition isidentifier (s : str) : bool :=
  match s with c :: s' => id_start c && forallb id_continue s' | [] => false end.

(** The number a run of digits in base [base] denotes. *)
Definition digits_value (base : N) (ds : str) : N :=
  fold_left (fun acc d => base * acc + (N_of_ascii d - 48))%N ds 0%N.

(** The length of the longest prefix of [s] whose characters satisfy [p]. *)
Fixpoint span (p : ascii -> bool) (s : str) : nat :=
  match s with c :: s' => if p c then S (span p s') else 0 | [] => 0 end.

(** ** Replacement templates *)

(** A piece of a parsed template: a character, or [\g<0>] (the match). *)
Inductive tpiece := TChar (c : ascii) | TMatch.

(** [sre_parse.ESCAPES] *)
Definition template_escape (c : ascii) : option ascii :=
  match c with
  | "a" => Some "007" | "b" => Some "008" | "f" => Some "012" | "n" => Some "010"
  | "r" => Some "013" | "t" => Some "009" | "v" => Some "011" | "\" => Some "\"
  | _ => None
  end%char.

(** [s.getuntil(">", "group name")]: the name before the first [>]. *)
Fixpoint group_name (s : str) : option (str * str) :=
  match s with
  | [] => None
  | c :: s' => if decide (c = ">"%char) then Some ([], s')
               else (fun '(n, r) => (c :: n, r)) <$> group_name s'
  end.

Definition bad_template : py_exc := ReError "bad template".

(** [re._parser.parse_template(source, pattern)] for a pattern with no
    group: [\g<0>], [\g<00>] ... stand for the match, [\0] and three
    octal digits for a character, the escapes of [template_escape] for
    theirs, any other group reference raises [re.error] (an unknown group
    name [IndexError]), so does an unknown escape of an ASCII letter and
    a trailing backslash; any other escape is kept.  Each step consumes
    at least one character, so [length source] is enough fuel. *)
Fixpoint parse_template (fuel : nat) (s : str) : result (list tpiece) :=
  match fuel with
  | 0 => Ok []
  | S fuel =>
  match s with
  | [] => Ok []
  | c0 :: rest =>
  if decide (c0 = "\"%char) then
    match rest with
    | [] => Err bad_template
    | c :: s1 =>
      if decide (c = "g"%char) then
        match s1 with
        | c1 :: s2 =>
            if decide (c1 = "<"%char) then
              match group_name s2 with
              | None => Err bad_template
              | Some (name, s3) =>
                  if decide (name = []) then Err bad_template
                  else if forallb is_digit name then
                    if decide (digits_value 10 name = 0%N)
                    then (TMatch ::.) <$> parse_template fuel s3
                    else Err bad_template
                  else if isidentifier name then Err IndexError
                  else Err bad_template
              end
            else Err bad_template
        | [] => Err bad_template
        end
      else if decide (c = "0"%char) then
        let n := min 2 (span is_octal s1) in
        (TChar (ascii_of_N (digits_value 8 (take n s1) mod 256)) ::.)
          <$> parse_template fuel (drop n s1)
      else if is_digit c then
        match s1 with
        | d :: e :: s2 =>
            if is_octal c && is_octal d && is_octal e then
              let v := digits_value 8 [c; d; e] in
              if decide (255 < v)%N then Err bad_template
              else (TChar (ascii_of_N v) ::.) <$> parse_template fuel s2
            else Err bad_template
        | _ => Err bad_template
        end
      else match template_escape c with
           | Some e => (TChar e ::.) <$> parse_template fuel s1
           | None => if is_ascii_letter c then Err bad_template
                     else (fun t => TChar "\" :: TChar c :: t) <$> parse_template fuel s1
           end
    end
  else (TChar c0 ::.) <$> parse_template fuel rest
  end
  end.

(** The replacement a parsed template gives for the matched text. *)
Definition expand_template (pieces : list tpiece) (matched : str) : str :=
  pieces ≫= fun p => match p with TChar c => [c] | TMatch => matched end.

(** ** Matchers and [pattern.sub] *)

(** A compiled pattern: the length of its match at a position, given the
    text before the position (reversed, for lookbehind assertions) and
    the text from it.  The patterns of [release.py] never match the empty
    string, so a match has a positive length. *)
Definition matcher := str -> str -> option nat.

(** [pattern.sub(repl, s, count)] scanning from the position after
    [before]: [count = None] replaces every match ([count=0]); [skip]
    counts the characters of the match being replaced. *)
Fixpoint sub_scan (r : matcher) (repl : list tpiece) (count : option nat) (skip : nat)
    (before s : str) : str :=
  match s with
  | [] => []
  | c :: s' =>
      match skip with
      | S k => sub_scan r repl count k (c :: before) s'
      | 0 =>
          if decide (count = Some 0) then s else
          match r before s with
          | Some (S n) =>
              expand_template repl (take (S n) s) ++
              sub_scan r repl (pred <$> count) n (c :: before) s'
          | _ => c :: sub_scan r repl count 0 (c :: before) s'
          end
      end
  end.

(** [pattern.sub(repl, s, count)]: the template is compiled first, so a
    bad template raises even when nothing matches. *)
Definition re_sub (r : matcher) (repl : str) (count : option nat) (s : str) : result str :=
  pieces ← parse_template (length repl) repl;
  Ok (sub_scan r pieces count 0 [] s).

(** [VERSION_TAG_RE = re.compile(r"v?\d+\.\d+\.\d+")] at the start of
    [s]: an optional [v] (when the rest fails after it, backtracking to no
    [v] meets the [v] where a digit is needed), then three runs of digits
    separated by dots, each run maximal since a dot is not a digit. *)
Definition dotted_runs (s1 : str) : option nat :=
  let d1 := span is_digit s1 in
  match drop d1 s1 with
  | c :: s2 =>
      let d2 := span is_digit s2 in
      match drop d2 s2 with
      | c' :: s3 =>
          let d3 := span is_digit s3 in
          if decide (c = "."%char /\ c' = "."%char /\ d1 <> 0 /\ d2 <> 0 /\ d3 <> 0)
          then Some (d1 + 1 + d2 + 1 + d3) else None
      | [] => None
      end
  | [] => None
  end.

Definition starts_with (c : ascii) (s : str) : bool := bool_decide (head s = Some c).

Definition version_match_at (s : str) : option nat :=
  let o := if starts_with "v"%char s then 1 else 0 in
  Nat.add o <$> dotted_runs (drop o s).

Definition VERSION_TAG_RE : matcher := fun _ s => version_match_at s.

(** [(?<=version\s=\s")[^"]+] *)
Definition version_re : matcher := fun before s =>
  match before with
  | q :: s1 :: e :: s2 :: rest =>
      if bool_decide (q = dquote_char) && ModuleProp.is_space s1 && bool_decide (e = "="%char) && ModuleProp.is_space s2 &&
         bool_decide (rev (str_of "version") `prefix_of` rest)
      then match span (fun c => negb (bool_decide (c = dquote_char))) s with
           | 0 => None
           | n => Some n
           end
      else None
  | _ => None
  end.

(** [(?<=badge/Python-)v?[\d.]+(?=-)]: the run of digits and dots is
    maximal, since backtracking into it meets a digit or a dot where the
    lookahead needs a [-]. *)
Definition badge_re : matcher := fun before s =>
  if bool_decide (rev (str_of "badge/Python-") `prefix_of` before) then
    let o := if starts_with "v"%char s then 1 else 0 in
    let n := span (fun c => is_digit c || bool_decide (c = "."%char)) (drop o s) in
    if starts_with "-"%char (drop (o + n) s) && negb (bool_decide (n = 0))
    then Some (o + n) else None
  else None.

(** ** The files *)

Definition BUILD_TOML : path := ["build.toml"].
Definition CHANGELOG : path := ["CHANGELOG.md"].
Definition MODULE_PROP : path := ["module"; "module.prop"].
Definition README : path := ["README.md"].
Definition UPDATE_JSON : path := ["module"; "update.json"].

(** A JSON document as [json.load] returns it (numbers as integers). *)
Inductive json :=
| JNull
| JBool (b : bool)
| JInt (z : Z)
| JStr (s : str)
| JList (l : list json)
| JObject (d : dict str json).

(** [json.load] on the bytes of a file (decoding included; an invalid
    document raises [JSONDecodeError], a [ValueError]) and
    [json.dump(data, fin, indent=4)]. *)
Class JsonCodec := {
  json_load : list byte -> result json;
  json_dump : json -> list byte
}.

(** [d[k]] on a [dict]. *)
Definition getitem {V} (k : str) (d : dict str V) : result V :=
  match get k d with Some v => Ok v | None => Err (KeyError (String.string_of_list_ascii k)) end.

(** [data[k]] and [data[k] = v] on a JSON value: only an object has
    string keys. *)
Definition json_getitem (k : str) (j : json) : result json :=
  match j with
  | JObject d => getitem k d
  | _ => Err (TypeError "indices must be integers")
  end.

Definition json_setitem (k : str) (v : json) (j : json) : result json :=
  match j with
  | JObject d => Ok (JObject (set k v d))
  | _ => Err (TypeError "object does not support item assignment")
  end.

(** [pattern.sub(repl, x, count)] for a JSON value [x]: the template is
    compiled before the subject is checked to be a string. *)
Definition re_sub_json (r : matcher) (repl : str) (count : option nat) (x : json) : result str :=
  match x with
  | JStr s => re_sub r repl count s
  | _ => parse_template (length repl) repl ≫= fun _ => Err (TypeError "expected string or bytes-like object")
  end.

(** [int(s)] for the strings [strftime("%Y%m%d")] produces: a run of
    ASCII digits. *)
Definition int_of_str (s : str) : result Z :=
  if decide (s <> [] /\ forallb is_digit s = true) then Ok (Z.of_N (digits_value 10 s))
  else Err (ValueError "invalid literal for int() with base 10").

(** [Path.read_text()]: UTF-8, with universal newlines. *)
Definition read_text (m : fs) (p : path) : result str :=
  data ← read_bytes m p;
  match utf8_decode data with
  | Some text => Ok (ModuleProp.universal_newlines text)
  | None => Err (ValueError "'utf-8' codec can't decode")
  end.

(** [Path.write_text(text)] *)
Definition write_text (p : path) (text : str) : M unit :=
  fs_op (fun m => write_bytes m p (utf8_encode text)).

(** [process_tag(tag)] *)
Definition process_tag (tag : str) : str :=
  if starts_with "v"%char tag then tag else "v"%char :: tag.

(** [VERSION_TAG_RE.match(tag)] is truthy. *)
Definition valid_tag (tag : str) : bool := bool_decide (is_Some (version_match_at tag)).

Section Steps.
Context `{JsonCodec}.
Variable exec : fs -> command -> completed * fs.
(** [VERSION_CODE_DATE = datetime.now(tz=UTC).strftime("%Y%m%d")] *)
Variable VERSION_CODE_DATE : str.

(** [_process_module_prop(tag)] *)
Definition process_module_prop (tag : str) : M unit :=
  let* m := get_fs in
  let* text := lift (read_text m MODULE_PROP) in
  let props := ModuleProp.parse_module_prop text in
  let* version := lift (getitem (str_of "version") props) in
  let* version' := lift (re_sub VERSION_TAG_RE tag (Some 1) version) in
  let props := set (str_of "versionCode") VERSION_CODE_DATE (set (str_of "version") version' props) in
  write_text MODULE_PROP (ModuleProp.format_module_prop props).

(** [_process_update_json(tag)] *)
Definition process_update_json (tag : str) : M unit :=
  let* m := get_fs in
  let* raw := lift (read_bytes m UPDATE_JSON) in
  let* data := lift (json_load raw) in
  let* version := lift (json_getitem (str_of "version") data) in
  let* version' := lift (re_sub_json VERSION_TAG_RE tag None version) in
  let* data := lift (json_setitem (str_of "version") (JStr version') data) in
  let* code := lift (int_of_str VERSION_CODE_DATE) in
  let* data := lift (json_setitem (str_of "versionCode") (JInt code) data) in
  let* url := lift (json_getitem (str_of "zipUrl") data) in
  let* url' := lift (re_sub_json VERSION_TAG_RE tag None url) in
  let* data := lift (json_setitem (str_of "zipUrl") (JStr url') data) in
  fs_op (fun m => write_bytes m UPDATE_JSON (json_dump data)).

(** [update_module(tag)] *)
Definition update_module (tag : str) : M (list path) :=
  process_module_prop tag ;;;
  process_update_json tag ;;;
  ret [MODULE_PROP; UPDATE_JSON].

(** [run(...)] of [release.py]: [check=True], no [cwd] and no [env]. *)
Definition git (args : list str) : command := cmd (str_of "git" :: args).

(** [generate_changelog(tag)] *)
Definition cliff_command (tag : str) : command :=
  cmd [str_of "git-cliff"; str_of "-t"; tag; str_of "-o"; path_str CHANGELOG].

Definition generate_changelog (tag : str) : M (list path) :=
  run exec (cliff_command tag) ;;;
  ret [CHANGELOG].

(** One iteration of the loop of [update_cpython_refs]. *)
Definition update_ref (cpython_tag : str) (pr : path * matcher) : M unit :=
  let '(p, r) := pr in
  let* m := get_fs in
  let* content := lift (read_text m p) in
  let* content' := lift (re_sub r cpython_tag (Some 1) content) in
  write_text p content'.

(** [update_cpython_refs(cpython_tag)] *)
Definition update_cpython_refs (cpython_tag : str) : M (list path) :=
  forM_ [(BUILD_TOML, version_re); (README, badge_re)] (update_ref cpython_tag) ;;;
  ret [BUILD_TOML; README].

Definition git_add (files : list path) : command :=
  git (str_of "add" :: map path_str files).
Definition bump_commit (cpython_tag : str) : command :=
  git [str_of "commit"; str_of "-m"; str_of "build(cpython): bump to " ++ cpython_tag].
Definition release_commit (tag : str) : command :=
  git [str_of "commit"; str_of "-m"; str_of "chore(release): prepare for " ++ tag].
Definition tag_command (tag : str) : command := git [str_of "tag"; tag].

(** [prepare_release(tag, cpython_tag, commit=commit)] *)
Definition prepare_release (tag : str) (cpython_tag : option str) (commit : bool) : M unit :=
  match cpython_tag with
  | Some ct =>
      let* files := update_cpython_refs ct in
      if commit then run exec (git_add files) ;;; run exec (bump_commit ct) ;;; ret tt
      else ret tt
  | None => ret tt
  end ;;;
  let* files1 := update_module tag in
  let* files2 := generate_changelog tag in
  let files := files1 ++ files2 in
  if commit then
    run exec (git_add files) ;;; run exec (release_commit tag) ;;; run exec (tag_command tag) ;;; ret tt
  else ret tt.

(** [main()] after the arguments are parsed and [prepare_environment()]
    has returned: both tags are normalised, then checked in turn, an
    invalid one ending the program with [parser.error] (exit status 2). *)
Definition main (tag : str) (cpython_tag : option str) (commit : bool) : M unit :=
  let tag := process_tag tag in
  let cpython_tag := process_tag <$> cpython_tag in
  forM_ (tag :: option_list cpython_tag)
    (fun t => if valid_tag t then ret tt else raise (SystemExit 2)) ;;;
  prepare_release tag cpython_tag commit.

End Steps.

(** ** The language of [VERSION_TAG_RE] *)

Definition digit_run (d : str) : Prop := d <> [] /\ Forall (fun c => is_digit c = true) d.

(** [v?\d+\.\d+\.\d+] as a set of strings. *)
Definition is_version (t : str) : Prop :=
  exists o d1 d2 d3, (o = [] \/ o = ["v"%char]) /\ digit_run d1 /\ digit_run d2 /\ digit_run d3 /\
    t = o ++ d1 ++ "."%char :: d2 ++ "."%char :: d3.

Definition starts_with_digit (s : str) : Prop :=
  match s with c :: _ => is_digit c = true | [] => False end.

Lemma span_app p x y :
  Forall (fun c => p c = true) x ->
  match y with c :: _ => p c = false | [] => True end ->
  span p (x ++ y) = length x.
Proof.
  induction 1 as [|c x Hc _ IH]; cbn [app span length].
  - destruct y; [done|]. cbn. by intros ->.
  - rewrite Hc. intros Hy. by rewrite IH.
Qed.

Lemma span_split p s :
  exists x y, s = x ++ y /\ length x = span p s /\ Forall (fun c => p c = true) x /\
    match y with c :: _ => p c = false | [] => True end.
Proof.
  induction s as [|c s IH]; [by exists [], []|].
  cbn [span]. destruct (p c) eqn:Hc.
  - destruct IH as (x & y & -> & <- & Hx & Hy). exists (c :: x), y. split_and!; [done|done|by constructor|done].
  - by exists [], (c :: s).
Qed.

Lemma digit_not_dot c : is_digit c = true -> c <> "."%char.
Proof. by intros Hc ->. Qed.

Lemma not_starts_with_digit rest :
  ~ starts_with_digit rest -> match rest with c :: _ => is_digit c = false | [] => True end.
Proof. destruct rest as [|c ?]; [done|]. cbn. by destruct (is_digit c). Qed.

Lemma dotted_runs_spec s1 k :
  dotted_runs s1 = Some k <->
  exists d1 d2 d3 rest, s1 = d1 ++ "."%char :: d2 ++ "."%char :: d3 ++ rest /\
    digit_run d1 /\ digit_run d2 /\ digit_run d3 /\ ~ starts_with_digit rest /\
    k = length d1 + 1 + length d2 + 1 + length d3.
Proof.
  split.
  - unfold dotted_runs.
    destruct (span_split is_digit s1) as (x1 & y1 & -> & <- & F1 & _).
    rewrite drop_app_length. destruct y1 as [|c y1]; [done|].
    destruct (span_split is_digit y1) as (x2 & y2 & -> & <- & F2 & _).
    rewrite drop_app_length. destruct y2 as [|c' y2]; [done|].
    destruct (span_split is_digit y2) as (x3 & y3 & -> & <- & F3 & H3).
    case_decide as Hd; [|done]. intros [= <-].
    destruct Hd as (-> & -> & ? & ? & ?).
    exists x1, x2, x3, y3. split_and!; try done; try (split; [by intros ->|done]).
    destruct y3; cbn in *; [tauto|congruence].
  - intros (d1 & d2 & d3 & rest & -> & [? F1] & [? F2] & [? F3] & Hr & ->).
    unfold dotted_runs.
    rewrite span_app, drop_app_length by done.
    rewrite span_app, drop_app_length by done.
    rewrite (span_app _ d3 rest); [|done|by apply not_starts_with_digit].
    rewrite decide_True; [done|]. split_and!; try done; by intros ?%nil_length_inv.
Qed.

Lemma version_match_at_unfold s :
  version_match_at s = if starts_with "v"%char s then S <$> dotted_runs (tail s) else dotted_runs s.
Proof.
  unfold version_match_at. destruct (starts_with "v"%char s) eqn:E.
  - destruct s; [done|]. cbn [drop tail]. rewrite drop_0. by destruct (dotted_runs s).
  - rewrite drop_0. by destruct (dotted_runs s).
Qed.

Lemma length_version_parts (d1 d2 d3 : str) :
  length (d1 ++ "."%char :: d2 ++ "."%char :: d3) = length d1 + 1 + length d2 + 1 + length d3.
Proof. rewrite !length_app; cbn [length]; rewrite length_app; cbn [length]; lia. Qed.

(** [VERSION_TAG_RE] at the start of [s] matches the longest prefix of
    [s] in the language [v?\d+\.\d+\.\d+]. *)
Lemma version_match_at_spec s n :
  version_match_at s = Some n <->
  exists p rest, s = p ++ rest /\ length p = n /\ is_version p /\ ~ starts_with_digit rest.
Proof.
  rewrite version_match_at_unfold. split.
  - destruct (starts_with "v"%char s) eqn:Hv.
    + intros (k & Hk & ->)%fmap_Some.
      apply dotted_runs_spec in Hk as (d1 & d2 & d3 & rest & Hs & R1 & R2 & R3 & Hr & ->).
      destruct s as [|c s]; [done|]. apply bool_decide_eq_true in Hv. simplify_eq/=.
      exists ("v"%char :: d1 ++ "."%char :: d2 ++ "."%char :: d3), rest.
      split_and!; [by simplify_list_eq|by rewrite <- length_version_parts|
                   exists ["v"%char], d1, d2, d3; by split_and!; [right| | | |]|done].
    + intros Hk.
      apply dotted_runs_spec in Hk as (d1 & d2 & d3 & rest & -> & R1 & R2 & R3 & Hr & ->).
      exists (d1 ++ "."%char :: d2 ++ "."%char :: d3), rest.
      split_and!; [by simplify_list_eq|by rewrite length_version_parts|
                   exists [], d1, d2, d3; by split_and!; [left| | | |]|done].
  - intros (p & rest & -> & <- & (o & d1 & d2 & d3 & Ho & R1 & R2 & R3 & ->) & Hr).
    assert (Hk : dotted_runs (d1 ++ "."%char :: d2 ++ "."%char :: d3 ++ rest)
                 = Some (length (d1 ++ "."%char :: d2 ++ "."%char :: d3)))
      by (apply dotted_runs_spec; exists d1, d2, d3, rest; by rewrite length_version_parts).
    assert (E : (o ++ d1 ++ "."%char :: d2 ++ "."%char :: d3) ++ rest
                = o ++ d1 ++ "."%char :: d2 ++ "."%char :: d3 ++ rest)
      by (rewrite <- !app_assoc; cbn [app]; by rewrite <- !app_assoc).
    rewrite E. destruct Ho as [-> | ->]; cbn [app].
    + destruct R1 as [Hne F1]. destruct d1 as [|c d1]; [done|]. inversion F1; subst.
      unfold starts_with. rewrite bool_decide_false by (by intros [= ->]). exact Hk.
    + unfold starts_with. rewrite bool_decide_true by done. cbn [tail]. by rewrite Hk.
Qed.


(** [s] begins with a version number. *)
Definition starts_with_version (s : str) : Prop :=
  exists p rest, s = p ++ rest /\ is_version p.

Lemma is_version_extend p x :
  is_version p -> Forall (fun c => is_digit c = true) x -> is_version (p ++ x).
Proof.
  intros (o & d1 & d2 & d3 & Ho & R1 & R2 & [Hne F3] & ->) Fx.
  exists o, d1, d2, (d3 ++ x). split_and!; try done.
  - split; [by destruct d3|by apply Forall_app].
  - by simplify_list_eq.
Qed.

Lemma version_match_at_None s :
  version_match_at s = None <-> ~ starts_with_version s.
Proof.
  split.
  - intros Hn (p & rest & -> & Hp).
    destruct (span_split is_digit rest) as (x & y & -> & _ & Fx & Hy).
    assert (Hs : version_match_at ((p ++ x) ++ y) = Some (length (p ++ x))).
    { apply version_match_at_spec. exists (p ++ x), y. split_and!; try done.
      - by apply is_version_extend.
      - destruct y; cbn in *; congruence. }
    rewrite <- app_assoc in Hs. congruence.
  - intros Hn. destruct (version_match_at s) as [n|] eqn:E; [|done].
    apply version_match_at_spec in E as (p & rest & -> & _ & Hp & _).
    destruct Hn. by exists p, rest.
Qed.

(** [VERSION_TAG_RE.match(tag)] decides [starts_with_version]. *)
Lemma valid_tag_spec tag : valid_tag tag = true <-> starts_with_version tag.
Proof.
  unfold valid_tag. rewrite bool_decide_eq_true.
  destruct (version_match_at tag) eqn:E.
  - split; [intros _|done]. apply version_match_at_spec in E as (p & rest & -> & _ & Hp & _).
    by exists p, rest.
  - apply version_match_at_None in E. split; [by intros []|done].
Qed.

#[export] Instance starts_with_version_dec s : Decision (starts_with_version s).
Proof.
  destruct (valid_tag s) eqn:E; [left; by apply valid_tag_spec|right].
  intros ?%valid_tag_spec. congruence.
Defined.

(** ** [pattern.sub] with [count=1] *)

Lemma rev_cons_app (c : ascii) (a before : str) : rev (c :: a) ++ before = rev a ++ c :: before.
Proof. cbn [rev]. by rewrite <- app_assoc. Qed.

Section Sub.
Variable r : matcher.
Variable repl : list tpiece.
(** A pattern of [release.py] does not match at the end of the text. *)
Hypothesis r_end : forall before, r before [] = None.

(** No match starts at a position of [s] (after [before]). *)
Definition no_match (before s : str) : Prop :=
  forall a b k, s = a ++ b -> r (rev a ++ before) b <> Some (S k).

Lemma sub_scan_done k before s : sub_scan r repl (Some 0) k before s = drop k s.
Proof.
  revert k before. induction s as [|c s IH]; intros [|k] before; cbn [sub_scan]; try done.
Qed.

Lemma sub_scan_first before pre rest k :
  (forall a b k', pre = a ++ b -> b <> [] -> r (rev a ++ before) (b ++ rest) <> Some (S k')) ->
  r (rev pre ++ before) rest = Some (S k) ->
  sub_scan r repl (Some 1) 0 before (pre ++ rest) =
  pre ++ expand_template repl (take (S k) rest) ++ drop (S k) rest.
Proof.
  revert before. induction pre as [|c pre IH]; intros before Hn Hm; cbn [app] in *.
  - cbn [rev app] in Hm. destruct rest as [|c rest]; [by rewrite r_end in Hm|].
    cbn [sub_scan]. rewrite decide_False by done. rewrite Hm. cbn. by rewrite sub_scan_done.
  - cbn [sub_scan]. rewrite decide_False by done.
    destruct (r before (c :: pre ++ rest)) as [[|k']|] eqn:E.
    2: by destruct (Hn [] (c :: pre) k').
    all: f_equal; apply IH; [|by rewrite rev_cons_app in Hm].
    all: intros a b k'' -> ?; rewrite <- rev_cons_app in *; by apply (Hn (c :: a) b k'').
Qed.

Lemma sub_scan_no_match count before s :
  no_match before s -> sub_scan r repl count 0 before s = s.
Proof.
  revert before. induction s as [|c s IH]; intros before Hn; cbn [sub_scan]; [done|].
  case_decide; [done|].
  destruct (r before (c :: s)) as [[|k]|] eqn:E.
  2: by destruct (Hn [] (c :: s) k).
  all: f_equal; apply IH; intros a b k' -> ?; rewrite <- rev_cons_app in *; by apply (Hn (c :: a) b k').
Qed.
End Sub.

Lemma parse_template_literal fuel t :
  "\"%char ∉ t -> length t <= fuel -> parse_template fuel t = Ok (TChar <$> t).
Proof.
  revert fuel. induction t as [|c t IH]; intros [|fuel] Ht Hl; cbn in Hl; try done; [lia|].
  cbn [parse_template]. rewrite decide_False by set_solver.
  rewrite IH by (set_solver || lia). done.
Qed.

Lemma expand_literal t m : expand_template (TChar <$> t) m = t.
Proof. induction t as [|c t IH]; [done|]. unfold expand_template in *. cbn. by rewrite IH. Qed.

Lemma re_sub_literal r tag count s :
  "\"%char ∉ tag -> re_sub r tag count s = Ok (sub_scan r (TChar <$> tag) count 0 [] s).
Proof. intros Ht. unfold re_sub. by rewrite parse_template_literal. Qed.

Lemma VERSION_TAG_RE_end before : VERSION_TAG_RE before [] = None.
Proof. done. Qed.

(** No match of [VERSION_TAG_RE] starts at a position of [s]. *)
Lemma version_no_match before s :
  (forall a b, s = a ++ b -> ~ starts_with_version b) -> no_match VERSION_TAG_RE before s.
Proof.
  intros Hs a b k -> Hm. pose proof (proj2 (version_match_at_None b) (Hs a b eq_refl)).
  unfold VERSION_TAG_RE in Hm. congruence.
Qed.


Lemma is_version_length m : is_version m -> exists k, length m = S k.
Proof.
  intros (o & d1 & d2 & d3 & _ & _ & _ & _ & ->).
  exists (length o + length d1 + length (d2 ++ "."%char :: d3)).
  rewrite !length_app; cbn [length]; rewrite ?length_app; cbn [length]; lia.
Qed.

(** C14: [VERSION_TAG_RE.sub(tag, s, count=1)], for a tag without
    backslash, replaces the leftmost version number of [s] (an optional
    [v] and three dot-separated maximal runs of digits) by the tag and
    leaves the rest of [s] as it is. *)
Theorem version_sub_first tag pre m rest :
  "\"%char ∉ tag -> is_version m -> ~ starts_with_digit rest ->
  (forall a b, pre = a ++ b -> b <> [] -> ~ starts_with_version (b ++ m ++ rest)) ->
  re_sub VERSION_TAG_RE tag (Some 1) (pre ++ m ++ rest) = Ok (pre ++ tag ++ rest).
Proof.
  intros Ht Hm Hr Hpre. rewrite re_sub_literal by done.
  destruct (is_version_length m Hm) as [k Hk].
  rewrite (sub_scan_first VERSION_TAG_RE _ VERSION_TAG_RE_end [] pre (m ++ rest) k).
  - by rewrite <- Hk, take_app_length, drop_app_length, expand_literal.
  - intros a b k' -> Hb Hm'. apply (Hpre a b eq_refl Hb).
    destruct (decide (starts_with_version (b ++ m ++ rest))) as [|Hn]; [done|].
    apply version_match_at_None in Hn. unfold VERSION_TAG_RE in Hm'. congruence.
  - apply version_match_at_spec. by exists m, rest.
Qed.

(** [VERSION_TAG_RE.sub(tag, s, count)] leaves a string without version
    number as it is. *)
Lemma version_sub_none tag count s :
  "\"%char ∉ tag -> (forall a b, s = a ++ b -> ~ starts_with_version b) ->
  re_sub VERSION_TAG_RE tag count s = Ok s.
Proof.
  intros Ht Hs. rewrite re_sub_literal by done. f_equal.
  apply sub_scan_no_match. by apply version_no_match.
Qed.


(** ** The commands of a release *)

Section Log.
Context `{JsonCodec}.
Variable exec : fs -> command -> completed * fs.
Variable date : str.

Lemma update_module_runs tag :
  runs (update_module date tag) (fun files => files = [MODULE_PROP; UPDATE_JSON]) [].
Proof. unfold update_module, process_module_prop, process_update_json, write_text. runs_solve. Qed.

Lemma update_cpython_refs_runs ct :
  runs (update_cpython_refs ct) (fun files => files = [BUILD_TOML; README]) [].
Proof. unfold update_cpython_refs, update_ref, write_text. runs_solve. Qed.

#[local] Hint Resolve update_module_runs update_cpython_refs_runs : py2droid.

(** C12: The commands of a release, in order: with [--cpython-tag] and
    [--commit], [git add build.toml README.md] and the bump commit; then
    [git-cliff]; with [--commit], [git add] of [module.prop],
    [update.json] and [CHANGELOG.md], the release commit, and the tag
    last.  A successful [prepare_release] runs these commands and no
    other. *)
Theorem prepare_release_log tag ct commit w w' :
  prepare_release exec date tag ct commit w = (Ok tt, w') ->
  w_log w' = w_log w ++
    (match ct with
     | Some c => if commit then [git_add [BUILD_TOML; README]; bump_commit c] else []
     | None => []
     end) ++
    [cliff_command tag] ++
    (if commit then [git_add [MODULE_PROP; UPDATE_JSON; CHANGELOG]; release_commit tag; tag_command tag]
     else []).
Proof.
  intros Hp.
  apply (fun Hr : runs (prepare_release exec date tag ct commit) (fun _ => True) _ =>
           proj1 (Hr w tt w' Hp)).
  destruct ct, commit; unfold prepare_release, generate_changelog; runs_solve.
Qed.

(** The validation loop of [main]. *)
Lemma validate_tags (l : list str) w :
  forM_ l (fun t => if valid_tag t then ret tt else raise (SystemExit 2)) w =
  if decide (Forall starts_with_version l) then (Ok tt, w) else (Err (SystemExit 2), w).
Proof.
  revert w. induction l as [|t l IH]; intros w; [by rewrite decide_True|].
  rewrite forM_cons. unfold bind. destruct (valid_tag t) eqn:E.
  - pose proof (proj1 (valid_tag_spec t) E) as Ht. cbn. rewrite IH.
    destruct (decide (Forall starts_with_version l)) as [Hl|Hl].
    + by rewrite decide_True by (by constructor).
    + by rewrite decide_False by (by inversion 1).
  - cbn. rewrite decide_False; [done|]. inversion 1 as [|? ? Ht]; subst.
    apply valid_tag_spec in Ht. congruence.
Qed.

(** C13: [main] adds the leading [v] to both tags and accepts them when each
    begins with a version number, whatever follows it (so [1.2.3-rc1],
    [v1.2.3.4] or [v1.2.3\d] pass); otherwise it exits with status 2
    before any file is touched. *)
Theorem main_spec tag ct commit w :
  main exec date tag ct commit w =
  if decide (Forall starts_with_version (process_tag tag :: option_list (process_tag <$> ct)))
  then prepare_release exec date (process_tag tag) (process_tag <$> ct) commit w
  else (Err (SystemExit 2), w).
Proof.
  unfold main. unfold bind at 1. rewrite validate_tags. by case_decide.
Qed.

(** C25: [_process_module_prop] with a [version] that holds no version
    number leaves it as it is and still sets [versionCode] to the date:
    the module is released with its old version string. *)
Theorem process_module_prop_unnumbered tag w w' text v :
  "\"%char ∉ tag ->
  read_text (w_fs w) MODULE_PROP = Ok text ->
  get (str_of "version") (ModuleProp.parse_module_prop text) = Some v ->
  (forall a b, v = a ++ b -> ~ starts_with_version b) ->
  process_module_prop date tag w = (Ok tt, w') ->
  w_fs w' = <[MODULE_PROP := EFile (utf8_encode (ModuleProp.format_module_prop
              (set (str_of "versionCode") date (ModuleProp.parse_module_prop text))))]> (w_fs w).
Proof.
  intros Ht Hr Hv Hn. unfold process_module_prop, bind, get_fs, lift, write_text, fs_op.
  rewrite Hr. unfold getitem. rewrite Hv, version_sub_none by done. rewrite (set_get_id (str_of "version") v) by done.
  destruct (write_bytes _ _ _) eqn:E; [|congruence]. intros [= <-]. by apply write_bytes_Ok.
Qed.

(** C24: A tag that passes the check of [main] but is no valid [re]
    template (such as [1.2.3\d], a version number followed by a bad
    escape) is rejected only once the release has begun: with a CPython
    tag and [--commit], when the CPython references are rewritten and both
    git commands succeed without touching the tree, [main] commits the
    CPython bump and then raises the template error in
    [_process_module_prop], leaving the bump commit and no release. *)
Theorem release_bad_template_after_bump tag ct w w1 e text v :
  starts_with_version (process_tag tag) -> starts_with_version (process_tag ct) ->
  parse_template (length (process_tag tag)) (process_tag tag) = Err e ->
  update_cpython_refs (process_tag ct) w = (Ok [BUILD_TOML; README], w1) ->
  (forall m c, c ∈ [git_add [BUILD_TOML; README]; bump_commit (process_tag ct)] ->
     returncode (exec m c).1 = 0%Z /\ (exec m c).2 = m) ->
  read_text (w_fs w1) MODULE_PROP = Ok text -> get (str_of "version") (ModuleProp.parse_module_prop text) = Some v ->
  exists w', main exec date tag (Some ct) true w = (Err e, w') /\ w_fs w' = w_fs w1 /\
    w_log w' = w_log w1 ++ [git_add [BUILD_TOML; README]; bump_commit (process_tag ct)].
Proof.
  intros Ht Hc He Hup Hgit Hr Hv.
  destruct (Hgit (w_fs w1) (git_add [BUILD_TOML; README])) as [Ha1 Ha2]; [by left|].
  destruct (Hgit (w_fs w1) (bump_commit (process_tag ct))) as [Hb1 Hb2]; [by right; left|].
  exists (mk_world (w_fs w1) (w_environ w1)
            (w_log w1 ++ [git_add [BUILD_TOML; README]; bump_commit (process_tag ct)])).
  split; [|split; [reflexivity|reflexivity]].
  unfold main. unfold bind at 1. rewrite validate_tags, decide_True by (repeat constructor; done).
  unfold prepare_release. cbn [fmap option_fmap option_map]. unfold bind at 1 2. rewrite Hup.
  unfold bind at 1. rewrite run_ok by done. rewrite Ha2.
  unfold bind at 1. rewrite run_ok by done. cbn [w_fs]. rewrite Hb2. unfold ret. cbv beta iota.
  unfold update_module, process_module_prop, bind, get_fs, lift. cbn [w_fs]. rewrite Hr.
  unfold getitem. rewrite Hv. unfold re_sub. rewrite He. cbn [w_fs w_environ w_log].
  by rewrite <- app_assoc.
Qed.

End Log.


(** ** Helpers of the witnesses *)

(** No version number starts before position [k] of [s]. *)
Lemma no_version_before s k :
  Forall (fun i => version_match_at (drop i s) = None) (seq 0 k) ->
  forall a b, s = a ++ b -> length a < k -> ~ starts_with_version b.
Proof.
  intros Hall a b -> Hl. apply version_match_at_None.
  rewrite Forall_forall in Hall. rewrite <- (drop_app_length a b).
  apply Hall. apply elem_of_seq. lia.
Qed.

Lemma version_match_at_full m : version_match_at m = Some (length m) -> is_version m.
Proof.
  intros (p & rest & -> & Hl & Hp & _)%version_match_at_spec.
  rewrite length_app in Hl. destruct rest; [by rewrite app_nil_r|]. cbn in Hl. lia.
Qed.

(** ** A release *)

Definition pth (s : string) : path := path_of_str (str_of s).

Definition lines (l : list string) : str := l ≫= fun s => str_of s ++ [ModuleProp.NL].

Definition q (s : string) : str := [dquote_char] ++ str_of s ++ [dquote_char].

Definition build_toml (version : string) : str :=
  lines ["[cpython]"] ++ str_of "version = " ++ q version ++ [ModuleProp.NL].

Definition readme (version : string) : str :=
  lines ["# Py2Droid"; "![Python](https://img.shields.io/badge/Python-" ++ version ++ "-blue)"]%string.

Definition module_prop (version : string) : str :=
  lines ["id=py2droid"; "name=Py2Droid"; "version=" ++ version; "versionCode=20250101"]%string.

Definition sample_update_json : json :=
  JObject [(str_of "version", JStr (str_of "v0.2.0")); (str_of "versionCode", JInt 20250101);
           (str_of "zipUrl", JStr (str_of "https://example.org/v0.2.0/py2droid-v0.2.0.zip"))].

(** [update.json] holds [sample_update_json]; [json.dump] writes [{}]. *)
#[local] Instance sample_json : JsonCodec :=
  {| json_load _ := Ok sample_update_json; json_dump _ := bytes_of_string "{}" |}.

(** Every command succeeds and changes no file. *)
Definition ok_exec (m : fs) (c : command) : completed * fs := (mk_completed 0 [] [], m).

Definition release_tree (version : string) : fs :=
  list_to_map
    [([], EDir); (pth "module", EDir);
     (BUILD_TOML, EFile (utf8_encode (build_toml "3.13.1")));
     (README, EFile (utf8_encode (readme "v3.13.1")));
     (MODULE_PROP, EFile (utf8_encode (module_prop version)));
     (UPDATE_JSON, EFile (bytes_of_string "{}"))].

Definition release_world (version : string) : world := mk_world (release_tree version) [] [].

Definition today : str := str_of "20261109".

(** The world after [update_cpython_refs v3.14.0]. *)
Definition bumped_world : world := (update_cpython_refs (str_of "v3.14.0") (release_world "v0.2.0")).2.

(** [v1.2.3\d] with [--cpython-tag 3.14.0 --commit]: the bump of
    [build.toml] and [README.md] is committed, then [re.error]. *)
Lemma release_bad_template_after_bump_witness :
  exists w', main ok_exec today (str_of "1.2.3\d") (Some (str_of "3.14.0")) true (release_world "v0.2.0")
               = (Err bad_template, w') /\
    w_fs w' = w_fs bumped_world /\
    w_log w' = w_log bumped_world ++ [git_add [BUILD_TOML; README]; bump_commit (process_tag (str_of "3.14.0"))].
Proof.
  apply (release_bad_template_after_bump ok_exec today (str_of "1.2.3\d") (str_of "3.14.0")
           (release_world "v0.2.0") bumped_world bad_template
           (module_prop "v0.2.0") (str_of "v0.2.0")).
  - apply (proj1 (valid_tag_spec _)). vm_compute. reflexivity.
  - apply (proj1 (valid_tag_spec _)). vm_compute. reflexivity.
  - vm_compute. reflexivity.
  - apply M_Ok. vm_compute. reflexivity.
  - intros m c _. split; reflexivity.
  - vm_compute. reflexivity.
  - vm_compute. reflexivity.
Defined.

Lemma version_sub_first_witness :
  "\"%char ∉ str_of "v0.3.0" /\ is_version (str_of "v0.2.0") /\ ~ starts_with_digit (str_of " (beta)") /\
  re_sub VERSION_TAG_RE (str_of "v0.3.0") (Some 1) (str_of "Py2Droid " ++ str_of "v0.2.0" ++ str_of " (beta)")
    = Ok (str_of "Py2Droid " ++ str_of "v0.3.0" ++ str_of " (beta)").
Proof.
  assert (Ht : "\"%char ∉ str_of "v0.3.0") by vm_decide.
  assert (Hm : is_version (str_of "v0.2.0")) by (apply version_match_at_full; reflexivity).
  assert (Hr : ~ starts_with_digit (str_of " (beta)")) by (cbn; discriminate).
  split_and!; [exact Ht|exact Hm|exact Hr|].
  apply version_sub_first; [exact Ht|exact Hm|exact Hr|].
  intros a b Hab Hb.
  apply (no_version_before (str_of "Py2Droid " ++ str_of "v0.2.0" ++ str_of " (beta)") 9 ltac:(vm_decide) a).
  - rewrite Hab, <- app_assoc. reflexivity.
  - apply (f_equal length) in Hab. rewrite length_app in Hab. destruct b; [done|]. cbn in Hab. lia.
Defined.


(** The release [v0.3.0] with the CPython bump [v3.14.0], committed. *)
Definition release_run : result unit * world :=
  prepare_release ok_exec today (str_of "v0.3.0") (Some (str_of "v3.14.0")) true (release_world "v0.2.0").

Lemma prepare_release_log_witness :
  release_run = (Ok tt, release_run.2) /\
  w_log release_run.2 = w_log (release_world "v0.2.0") ++
    [git_add [BUILD_TOML; README]; bump_commit (str_of "v3.14.0")] ++
    [cliff_command (str_of "v0.3.0")] ++
    [git_add [MODULE_PROP; UPDATE_JSON; CHANGELOG]; release_commit (str_of "v0.3.0");
     tag_command (str_of "v0.3.0")].
Proof.
  assert (H1 : release_run.1 = Ok tt) by (vm_compute; reflexivity).
  assert (Hp : release_run = (Ok tt, release_run.2))
    by (rewrite (surjective_pairing release_run) at 1; by rewrite H1).
  split; [exact Hp|]. unfold release_run at 1 in Hp.
  exact (prepare_release_log ok_exec today _ _ _ _ _ Hp).
Defined.

Lemma process_module_prop_unnumbered_witness :
  let w := release_world "dev" in
  let w' := (process_module_prop today (str_of "v0.3.0") w).2 in
  process_module_prop today (str_of "v0.3.0") w = (Ok tt, w') /\
  w_fs w' = <[MODULE_PROP := EFile (utf8_encode (ModuleProp.format_module_prop
              (set (str_of "versionCode") today (ModuleProp.parse_module_prop (module_prop "dev")))))]>
              (w_fs w).
Proof.
  intros w w'.
  assert (Hp : process_module_prop today (str_of "v0.3.0") w = (Ok tt, w'))
    by (apply M_Ok; vm_compute; reflexivity).
  split; [exact Hp|].
  apply (process_module_prop_unnumbered today (str_of "v0.3.0") w w' (module_prop "dev") (str_of "dev")).
  - vm_decide.
  - vm_compute. reflexivity.
  - vm_compute. reflexivity.
  - intros a b Hab. apply (no_version_before (str_of "dev") 4 ltac:(vm_decide) a b Hab).
    apply (f_equal length) in Hab. rewrite length_app in Hab. cbn in Hab. lia.
  - exact Hp.
Defined.


(** ** Fuel and bounds *)

Lemma group_name_length s n r : group_name s = Some (n, r) -> length r < length s.
Proof.
  revert n. induction s as [|c s IH]; intros n; cbn; [done|].
  case_decide; [intros [= <- <-]; lia|].
  destruct (group_name s) as [[n' r']|] eqn:E; [|done]. intros [= _ <-].
  specialize (IH n' eq_refl). lia.
Qed.

(** [parse_template] terminates within [length source] steps: any
    fuel at least the length of the template gives the same result, so
    the fuel of [re_sub] never cuts the parse short. *)
Theorem parse_template_fuel f1 f2 s :
  length s <= f1 -> length s <= f2 -> parse_template f1 s = parse_template f2 s.
Proof.
  revert f2 s. induction f1 as [|f1 IH]; intros [|f2] s H1 H2;
    [done|destruct s; [done|cbn in H1; lia]|destruct s; [done|cbn in H2; lia]|].
  destruct s as [|c0 s]; [done|]. cbn [parse_template length] in *.
  repeat (case_match; try done); subst; cbn [length] in *;
    repeat match goal with H : group_name _ = Some _ |- _ => apply group_name_length in H end;
    try (f_equal; apply IH; rewrite ?length_drop; simpl in *; lia).
Qed.


Lemma parse_template_fuel_witness :
  length (str_of "x\g<0>y") <= 7 /\ length (str_of "x\g<0>y") <= 30 /\
  parse_template 7 (str_of "x\g<0>y") = parse_template 30 (str_of "x\g<0>y").
Proof.
  assert (H1 : length (str_of "x\g<0>y") <= 7) by (cbn; lia).
  assert (H2 : length (str_of "x\g<0>y") <= 30) by (cbn; lia).
  split_and!; [exact H1|exact H2|exact (parse_template_fuel 7 30 _ H1 H2)].
Defined.


End Release.
