(* ===== verification/Config.v ===== *)
(** * [build.py]: configuration, start-up and [main]

    [load_config] reads [build.toml] with [tomllib] and [_process_raw_config]
    turns its two tables into the keyword arguments of the dataclasses
    [CPythonConfig] and [ModuleConfig]: [include] becomes a list of paths,
    [name] a [Template], and the CPython version loses its leading [v]s.
    The generated [__init__] rejects a missing or an unexpected field with
    [TypeError]; nothing checks the type of a value.  [init] checks
    [ANDROID_HOME] and the tools on [PATH] ([_prepare_environment]) and
    the project layout ([_prepare_project_directory]); [main] runs [init],
    the optional clean step, [load_config], [CPythonBuilder.build] and
    [ModuleBuilder.build].  The clean step runs on the world one removal
    at a time ([clean_m]), so an exception keeps what it removed; [clean]
    is its outcome on the tree.

    A parsed TOML document is the type [toml] (dates and floats are not
    modelled) behind the class [TomlParser].  The values the dataclasses
    hold are [field]s.  [typed_config] reads them the way the builders use
    them (truth values with Python's truthiness, iterables of strings with
    Python's iteration); a value whose later use the model does not cover
    makes [typed_config] return [None], and [main] then stops after
    loading, returning [false]. *)

From Stdlib Require Import ZArith.
From S2P Require Import Prelude PyDict FileSystem Glob Debloat Effects Argparse Packaging SourceBuild.

Module Config.
Import FS PyDict Glob Debloat Effects.

(** ** TOML documents *)

Inductive toml :=
| TBool (b : bool)
| TInt (z : Z)
| TString (s : str)
| TArray (l : list toml)
| TTable (d : dict str toml).

(** [tomllib.load]: the top-level table, or [None] for [TOMLDecodeError]. *)
Class TomlParser := toml_load : list byte -> option (dict str toml).

(** A value held by a configuration dataclass. *)
Inductive field :=
| FToml (v : toml)
| FPaths (ps : list path)
| FTemplate (v : toml).

Definition BUILD_CONFIG : path := ["build.toml"].
Definition REQUIRED_TOOLS : list str := [str_of "curl"; str_of "patch"].

(** The fields of [CPythonConfig] and [ModuleConfig], in declaration order. *)
Definition cpython_fields : list str :=
  str_of <$> ["apply_patches"; "build_hosts"; "configure_args"; "configure_env"; "version"]%string.
Definition module_fields : list str :=
  str_of <$> ["debloat"; "debloat_patterns"; "fix_shebangs"; "include"; "name"; "strip"; "strip_args"]%string.

(** ** [_process_raw_config] *)

(** [v[k]] on a TOML value: only a table has string keys. *)
Definition subscript (v : toml) (k : str) : result toml :=
  match v with
  | TTable d => match get k d with
                | Some x => Ok x
                | None => Err (KeyError (String.string_of_list_ascii k))
                end
  | _ => Err (TypeError "indices must be integers")
  end.

(** [Path(x)] for a TOML value. *)
Definition to_path (v : toml) : result path :=
  match v with
  | TString s => Ok (path_of_str s)
  | _ => Err (TypeError "expected str, bytes or os.PathLike object")
  end.

(** Iterating a TOML value: an array yields its items, a string its
    characters, a table its keys; other values are not iterable. *)
Definition iter_toml (v : toml) : result (list toml) :=
  match v with
  | TArray l => Ok l
  | TString s => Ok ((fun c => TString [c]) <$> s)
  | TTable d => Ok (TString <$> keys d)
  | _ => Err (TypeError "object is not iterable")
  end.

(** [list(map(Path, module_include))] *)
Definition include_paths (v : toml) : result (list path) :=
  items ← iter_toml v;
  mapM to_path items.

(** [str.lstrip("v")] *)
Fixpoint lstrip_v (s : str) : str :=
  match s with
  | c :: s' => if decide (c = "v"%char) then lstrip_v s' else s
  | [] => []
  end.

(** [cpython_version.lstrip("v")] *)
Definition strip_version (v : toml) : result toml :=
  match v with
  | TString s => Ok (TString (lstrip_v s))
  | _ => Err (AttributeError "object has no attribute 'lstrip'")
  end.

(** The generated [__init__] called with [**kwargs]: an unexpected
    keyword is reported first, then a missing field. *)
Definition dataclass_init (fields : list str) (kwargs : dict str field) : result (dict str field) :=
  if decide (Forall (fun k => k ∈ fields) (keys kwargs)) then
    if decide (Forall (fun f => f ∈ keys kwargs) fields) then Ok kwargs
    else Err (TypeError "missing required argument")
  else Err (TypeError "got an unexpected keyword argument").

(** [**mapping]: a table's items as keyword arguments. *)
Definition kwargs_of (v : toml) : result (dict str toml) :=
  match v with
  | TTable d => Ok d
  | _ => Err (TypeError "argument after ** must be a mapping")
  end.

(** [_process_raw_config(config)]: the three reads, the three
    assignments, then the two constructors. *)
Definition process_raw_config (config : dict str toml) : result (dict str field * dict str field) :=
  module ← from_option Ok (Err (KeyError "module")) (get (str_of "module") config);
  cpython ← from_option Ok (Err (KeyError "cpython")) (get (str_of "cpython") config);
  module_include ← subscript module (str_of "include");
  module_name ← subscript module (str_of "name");
  cpython_version ← subscript cpython (str_of "version");
  include ← include_paths module_include;
  version ← strip_version cpython_version;
  cd ← kwargs_of cpython;
  md ← kwargs_of module;
  let cd := set (str_of "version") (FToml version) (prod_map id FToml <$> cd) in
  let md := set (str_of "name") (FTemplate module_name)
              (set (str_of "include") (FPaths include) (prod_map id FToml <$> md)) in
  c ← dataclass_init cpython_fields cd;
  m ← dataclass_init module_fields md;
  Ok (c, m).

(** [load_config(file)] *)
Definition load_config `{TomlParser} (m : fs) (file : path) : result (dict str field * dict str field) :=
  data ← read_bytes m file;
  match toml_load data with
  | None => Err (BuilderError "Failed to parse configuration file")
  | Some config =>
      if decide (str_of "cpython" ∈ keys config /\ str_of "module" ∈ keys config)
      then process_raw_config config
      else Err (BuilderError "Configuration file is missing 'cpython' or 'module' sections")
  end.


(** ** The values as the builders use them *)

(** [bool(v)]: the builders only test the flags with [if]. *)
Definition truthy (v : toml) : bool :=
  match v with
  | TBool b => b
  | TInt z => negb (Z.eqb z 0)
  | TString s => match s with [] => false | _ => true end
  | TArray l => match l with [] => false | _ => true end
  | TTable d => match d with [] => false | _ => true end
  end.

Definition as_string (v : toml) : option str :=
  match v with TString s => Some s | _ => None end.

(** An iterable of strings, as a [for] loop or [*args] reads it. *)
Definition as_strs (v : toml) : option (list str) :=
  match iter_toml v with Ok items => mapM as_string items | Err _ => None end.

(** [env.update(configure_env)] with string values. *)
Definition as_env (v : toml) : option (dict str str) :=
  match v with
  | TTable d => mapM (fun '(k, x) => (fun s => (k, s)) <$> as_string x) d
  | _ => None
  end.

Definition as_toml_val (v : toml) : option toml_val :=
  match v with
  | TString s => Some (TStr s)
  | TArray l => TList <$> mapM as_string l
  | _ => None
  end.

(** An item of [debloat_patterns]: [isinstance(pattern, str)] or a table. *)
Definition as_pattern (v : toml) : option debloat_pattern :=
  match v with
  | TString s => Some (DStr s)
  | TTable d => DDict <$> mapM (fun '(k, x) => (fun y => (k, y)) <$> as_toml_val x) d
  | _ => None
  end.

Definition as_patterns (v : toml) : option (list debloat_pattern) :=
  match iter_toml v with Ok items => mapM as_pattern items | Err _ => None end.

Definition field_toml (f : field) : option toml :=
  match f with FToml v => Some v | _ => None end.

Definition get_toml (k : string) (d : dict str field) : option toml :=
  get (str_of k) d ≫= field_toml.

(** The two dataclasses as the builders read them, when the model covers
    every use of their values. *)
Definition typed_config (c md : dict str field) : option (Source.cpython_config * Packaging.module_config) :=
  apply_patches ← truthy <$> get_toml "apply_patches" c;
  build_hosts ← get_toml "build_hosts" c ≫= as_strs;
  configure_args ← get_toml "configure_args" c ≫= as_strs;
  configure_env ← get_toml "configure_env" c ≫= as_env;
  version ← get_toml "version" c ≫= as_string;
  debloat ← truthy <$> get_toml "debloat" md;
  debloat_patterns ← get_toml "debloat_patterns" md ≫= as_patterns;
  fix_shebangs ← truthy <$> get_toml "fix_shebangs" md;
  include ← (match get (str_of "include") md with Some (FPaths ps) => Some ps | _ => None end);
  name ← (match get (str_of "name") md with Some (FTemplate v) => as_string v | _ => None end);
  strip ← truthy <$> get_toml "strip" md;
  strip_args ← get_toml "strip_args" md ≫= as_strs;
  Some (Source.mk_cpython_config apply_patches build_hosts configure_args configure_env version,
        Packaging.mk_module_config debloat debloat_patterns fix_shebangs include name strip strip_args).

(** ** [init] *)

(** [shutil.which(tool)] on POSIX: the first directory of [PATH] (of the
    default search path [/bin:/usr/bin] when [PATH] is unset) holding an
    entry named [tool] that exists and is not a directory; the execute
    permission is not modelled. *)
Definition which (environ : dict str str) (m : fs) (tool : str) : option path :=
  let search := default (str_of "/bin:/usr/bin") (get (str_of "PATH") environ) in
  match search with
  | [] => None
  | _ =>
      head (omap (fun d =>
          let q := path_of_str d ++ [String.string_of_list_ascii tool] in
          if exists_ m q && negb (is_dir m q) then Some q else None)
        (split_on ":"%char search))
  end.

(** [_prepare_environment()]; [os.chdir(PROJECT_DIR)] is the model's
    convention that relative paths start at the project root. *)
Definition prepare_environment (environ : dict str str) (m : fs) : result unit :=
  if decide (str_of "ANDROID_HOME" ∈ keys environ) then
    foldM (fun _ tool => if which environ m tool is Some _ then Ok tt
                         else Err (BuilderError "Required tool not found in PATH"))
      tt REQUIRED_TOOLS
  else Err (BuilderError "ANDROID_HOME environment variable is not set").

(** [_prepare_project_directory()] *)
Definition prepare_project_directory (m : fs) : result fs :=
  if negb (exists_ m MODULE_DIR) then Err (BuilderError "Module directory not found")
  else if negb (exists_ m BUILD_CONFIG) then Err (BuilderError "Build configuration file not found")
  else foldM (fun m p => if exists_ m p then Ok m else mkdir m p) m [BUILD_DIR; DIST_DIR].

(** [init()] *)
Definition init : M unit :=
  let* environ := get_environ in
  let* m := get_fs in
  lift (prepare_environment environ m) ;;;
  fs_op prepare_project_directory.

(** ** The clean step and [main] *)

(** The body of the clean loop. *)
Definition clean_path (m : fs) (p : path) : result fs :=
  if is_dir m p && negb (is_symlink m p) then rmtree m p else unlink m p.

(** The loop over the entries of one directory. *)
Definition clean_entries (d : path) (m : fs) : result fs :=
  iterdir m d ≫= foldM clean_path m.

(** [for path in chain(BUILD_DIR.iterdir(), DIST_DIR.iterdir())], the
    second directory being listed when the first one is done. *)
Definition clean (m : fs) : result fs :=
  m1 ← clean_entries BUILD_DIR m;
  clean_entries DIST_DIR m1.

(** The loop over the entries of one directory on the world: the
    directory is listed when the loop starts, and each entry is removed
    in one step, so an exception keeps the entries already removed. *)
Definition clean_entries_m (d : path) : M unit :=
  let* m := get_fs in
  let* ps := lift (iterdir m d) in
  forM_ ps (fun p => fs_op (fun m => clean_path m p)).

(** The clean step of [main] on the world; [clean] is its outcome. *)
Definition clean_m : M unit :=
  clean_entries_m BUILD_DIR ;;; clean_entries_m DIST_DIR.

(** [file.open("rb")] in [load_config] on the value of [args.config]:
    a [Path] opens, any other value raises [AttributeError]. *)
Definition config_file_path (v : Argparse.avalue) : result path :=
  match v with
  | Argparse.VPath p => Ok p
  | _ => Err (AttributeError "object has no attribute 'open'")
  end.

Section Main.
Context `{Matcher} `{Packaging.Archivers} `{Source.TarReader} `{TomlParser}.
Variable exec : fs -> command -> completed * fs.
Variable platform : str.

(** [main()] after [parse_args()], given [args.clean] and [args.config]:
    [true] when both builders ran, [false] when the configuration holds a
    value [typed_config] does not cover. *)
Definition main (clean_flag : bool) (config : Argparse.avalue) : M bool :=
  init ;;;
  (if clean_flag then clean_m else ret tt) ;;;
  let* m := get_fs in
  let* config_file := lift (config_file_path config) in
  let* cfg := lift (load_config m config_file) in
  match typed_config cfg.1 cfg.2 with
  | None => ret false
  | Some (cc, mc) =>
      let* res := Source.cpython_build exec cc in
      Packaging.build exec platform
        (Packaging.init_builder mc (path_str res.2) (Source.version cc) (Source.build_hosts_ cc)) res.1 ;;;
      ret true
  end.

End Main.


(** ** The shape of a loaded configuration *)

Lemma lstrip_v_head s : head (lstrip_v s) <> Some "v"%char.
Proof.
  induction s as [|c s IH]; cbn [lstrip_v]; [done|].
  case_decide; [done|]. cbn. congruence.
Qed.

Lemma dataclass_init_Ok fields kw r :
  dataclass_init fields kw = Ok r -> r = kw /\ forall k, k ∈ keys kw <-> k ∈ fields.
Proof.
  unfold dataclass_init. case_decide as H1; [|done]. case_decide as H2; [|done].
  intros [= <-]. split; [done|]. rewrite Forall_forall in H1, H2. naive_solver.
Qed.

Lemma strip_version_Ok v v' : strip_version v = Ok v' -> exists s, v' = TString s /\ head s <> Some "v"%char.
Proof. destruct v; intros [=<-]. eexists. split; [done|]. apply lstrip_v_head. Qed.

(** C15: A configuration [load_config] returns has exactly the fields of
    [CPythonConfig] and of [ModuleConfig]; its CPython version is a
    string without a leading [v], its [include] a list of paths and its
    [name] a template.  No other value has been checked. *)
Theorem load_config_shape `{TomlParser} m file c md :
  load_config m file = Ok (c, md) ->
  (forall k, k ∈ keys c <-> k ∈ cpython_fields) /\ (forall k, k ∈ keys md <-> k ∈ module_fields) /\
  (exists s, get (str_of "version") c = Some (FToml (TString s)) /\ head s <> Some "v"%char) /\
  (exists ps, get (str_of "include") md = Some (FPaths ps)) /\
  (exists v, get (str_of "name") md = Some (FTemplate v)).
Proof.
  intros Hl. unfold load_config in Hl. simpl_result.
  destruct (toml_load _) as [config|]; [|done]. case_decide; [|done].
  match goal with H : process_raw_config _ = Ok _ |- _ => unfold process_raw_config in H end.
  simpl_result. subst.
  match goal with H : dataclass_init cpython_fields _ = Ok _ |- _ => apply dataclass_init_Ok in H as [-> Hc] end.
  match goal with H : dataclass_init module_fields _ = Ok _ |- _ => apply dataclass_init_Ok in H as [-> Hm] end.
  match goal with H : strip_version _ = Ok _ |- _ => apply strip_version_Ok in H as (s & -> & Hs) end.
  split_and!; [done|done|exists s; by rewrite get_set_eq|eexists; by rewrite get_set_ne, get_set_eq|
               eexists; by rewrite get_set_eq].
Qed.


Lemma get_fmap_FToml k (d : dict str toml) : get k (prod_map id FToml <$> d) = FToml <$> get k d.
Proof. induction d as [|[k' x] d IH]; [done|]. cbn. case_decide; [done|apply IH]. Qed.

Lemma keys_fmap_FToml (d : dict str toml) : keys (prod_map id FToml <$> d) = keys d.
Proof. induction d as [|[k' x] d IH]; [done|]. cbn. by f_equal. Qed.

(** The generated [__init__] accepts keyword arguments that are exactly
    its fields, whatever their values. *)
Lemma dataclass_init_keys fields kw :
  (forall k, k ∈ keys kw <-> k ∈ fields) -> dataclass_init fields kw = Ok kw.
Proof.
  intros Hk. unfold dataclass_init.
  rewrite decide_True by (apply Forall_forall; intros k; apply Hk).
  rewrite decide_True by (apply Forall_forall; intros k; apply Hk). done.
Qed.

(** C18: [_process_raw_config] converts three values and checks nothing
    but the field names: for [cpython] and [module] tables holding
    exactly the fields of the dataclasses, a string [version], an
    [include] that [list(map(Path, ...))] converts and any [name], it
    succeeds; [version] loses its leading [v]s, [include] becomes the
    paths, [name] a [Template], and every other value is kept as
    written whatever its type or content (an empty [build_hosts], the
    string ["false"] for [debloat]). *)
Theorem process_raw_config_spec config cd md v inc ps nm :
  get (str_of "cpython") config = Some (TTable cd) -> get (str_of "module") config = Some (TTable md) ->
  (forall k, k ∈ keys cd <-> k ∈ cpython_fields) -> (forall k, k ∈ keys md <-> k ∈ module_fields) ->
  get (str_of "version") cd = Some (TString v) ->
  get (str_of "include") md = Some inc -> include_paths inc = Ok ps ->
  get (str_of "name") md = Some nm ->
  exists c m, process_raw_config config = Ok (c, m) /\
    (forall k, get k c = if decide (k = str_of "version") then Some (FToml (TString (lstrip_v v)))
                         else FToml <$> get k cd) /\
    (forall k, get k m = if decide (k = str_of "name") then Some (FTemplate nm)
                         else if decide (k = str_of "include") then Some (FPaths ps)
                         else FToml <$> get k md).
Proof.
  intros Hc Hm Hkc Hkm Hv Hi Hinc Hn. unfold process_raw_config. rewrite Hm, Hc. cbn [from_option].
  rewrite !bind_Ok. unfold subscript at 1 2 3. rewrite Hi, Hn, Hv, !bind_Ok, Hinc, bind_Ok.
  cbn [strip_version kwargs_of]. rewrite !bind_Ok.
  pose proof (get_Some_keys _ _ _ Hv) as Hvk. pose proof (get_Some_keys _ _ _ Hi) as Hik.
  pose proof (get_Some_keys _ _ _ Hn) as Hnk.
  rewrite (dataclass_init_keys cpython_fields), bind_Ok, (dataclass_init_keys module_fields), bind_Ok.
  - eexists _, _. split; [reflexivity|]. split; intros k; rewrite ?get_set, get_fmap_FToml;
      repeat case_decide; subst; done.
  - intros k. rewrite !elem_of_keys_set, keys_fmap_FToml, <- Hkm. naive_solver.
  - intros k. rewrite !elem_of_keys_set, keys_fmap_FToml, <- Hkc. naive_solver.
Qed.

(** ** The clean step removes what lies below [build] and [dist] *)

(** [q] lies strictly below [d]. *)
Definition below (d q : path) : Prop := d `prefix_of` q /\ q <> d.

#[export] Instance below_dec d q : Decision (below d q).
Proof. unfold below. apply _. Defined.

(** The tree without what lies below [build] and [dist]; without what
    lies below [build]. *)
Definition cleaned (m : fs) : fs :=
  filter (fun qe => ~ (below BUILD_DIR qe.1 \/ below DIST_DIR qe.1)) m.

Lemma clean_path_del_tree m q : fs_wf m -> is_Some (m !! q) -> clean_path m q = Ok (del_tree q m).
Proof. apply rm_path_del_tree. Qed.

Lemma lookup_fold_del_tree l m q :
  fold_left (fun m c => del_tree c m) l m !! q =
  if decide (Exists (fun c => c `prefix_of` q) l) then None else m !! q.
Proof.
  revert m. induction l as [|c l IH]; intros m; cbn [fold_left]; [by rewrite decide_False by inversion 1|].
  rewrite IH, lookup_del_tree.
  destruct (decide (Exists _ l)); [rewrite decide_True by (by right); done|].
  case_decide; [by rewrite decide_True by (by left)|].
  rewrite decide_False; [done|]. inversion 1; subst; done.
Qed.

Lemma fold_left_del_tree_wf l m : fs_wf m -> fs_wf (fold_left (fun m c => del_tree c m) l m).
Proof. revert m. induction l; intros m Hwf; cbn; [done|]. apply IHl, del_tree_wf, Hwf. Qed.

(** The loop over distinct entries none of which lies below another. *)
Lemma fold_clean m l :
  fs_wf m -> NoDup l -> (forall c, c ∈ l -> is_Some (m !! c)) ->
  (forall c1 c2, c1 ∈ l -> c2 ∈ l -> c1 `prefix_of` c2 -> c1 = c2) ->
  foldM clean_path m l = Ok (fold_left (fun m c => del_tree c m) l m).
Proof.
  revert m. induction l as [|c l IH]; intros m Hwf Hnd Hin Hpre; [done|].
  inversion Hnd as [|? ? Hc Hnd']; subst. cbn [foldM fold_left].
  rewrite clean_path_del_tree by (done || (apply Hin; set_solver)). rewrite bind_Ok.
  apply IH; [by apply del_tree_wf|done| |intros; apply Hpre; set_solver].
  intros c' Hc'. rewrite lookup_del_tree. rewrite decide_False; [apply Hin; set_solver|].
  intros Hp. apply Hc. rewrite (Hpre c c') by set_solver. done.
Qed.

Lemma child_prefix d c1 c2 : is_child d c1 -> is_child d c2 -> c1 `prefix_of` c2 -> c1 = c2.
Proof.
  intros [x ->] [y ->] Hp. apply prefix_length_eq; [done|]. rewrite !length_app. done.
Qed.

(** The children of a directory [d], as [iterdir] lists them. *)
Lemma clean_dir m d :
  fs_wf m -> m !! d = Some EDir ->
  exists m', clean_entries d m = Ok m' /\ fs_wf m' /\
    forall q, m' !! q = if decide (below d q) then None else m !! q.
Proof.
  intros Hwf Hd. unfold clean_entries, iterdir. rewrite (stat_nonlink _ _ _ Hd) by done. rewrite bind_Ok.
  set (l := filter (is_child d) (fst <$> map_to_list m)).
  assert (Hl : forall c, c ∈ l <-> is_child d c /\ is_Some (m !! c)).
  { intros c. unfold l. rewrite list_elem_of_filter. split.
    - intros [Hc (e & He)%list_elem_of_fmap_1]. split; [done|]. destruct e as [c' e'].
      destruct He as [-> He%elem_of_map_to_list]. by exists e'.
    - intros [Hc [e He]]. split; [done|]. by eapply elem_of_keys_fst. }
  eexists. rewrite fold_clean; [split; [done|split]| | | |].
  - by apply fold_left_del_tree_wf.
  - intros q. rewrite lookup_fold_del_tree.
    case_decide as Hex; case_decide as Hb; try done.
    + exfalso. apply Hb. apply Exists_exists in Hex as (c & Hc & Hpre).
      apply Hl in Hc as [[x ->] _]. split; [by eapply prefix_app_l|].
      intros ->. apply prefix_length in Hpre. rewrite length_app in Hpre. cbn in Hpre. lia.
    + destruct (m !! q) as [e|] eqn:Hq; [|done]. exfalso. apply Hex.
      destruct Hb as [[r ->] Hne]. destruct r as [|x r]; [by rewrite app_nil_r in Hne|].
      apply Exists_exists. exists (d ++ [x]). split; [|by exists r; rewrite <- app_assoc].
      apply Hl. split; [by exists x|].
      destruct (decide (r = [])) as [->|Hr]; [by rewrite Hq|].
      eexists. apply (fs_wf_ancestor m (d ++ [x]) r); [done| |done]. rewrite <- app_assoc. by eexists.
  - done.
  - apply NoDup_filter, NoDup_fst_map_to_list.
  - intros c Hc. by apply Hl in Hc as [_ ?].
  - intros c1 c2 H1%Hl H2%Hl. by apply child_prefix with d; [apply H1|apply H2].
Qed.


(** The clean step on a well-formed tree with [build] and [dist]
    directories. *)
Lemma clean_below m :
  fs_wf m -> m !! BUILD_DIR = Some EDir -> m !! DIST_DIR = Some EDir ->
  exists m', clean m = Ok m' /\ 
    forall q, m' !! q = if decide (below BUILD_DIR q \/ below DIST_DIR q) then None else m !! q.
Proof.
  intros Hwf Hb Hd. unfold clean.
  destruct (clean_dir m BUILD_DIR Hwf Hb) as (m1 & -> & Hwf1 & L1). rewrite bind_Ok.
  assert (Hd1 : m1 !! DIST_DIR = Some EDir).
  { rewrite L1, decide_False; [done|]. intros [Hp _]. by apply prefix_cons_inv_1 in Hp. }
  destruct (clean_dir m1 DIST_DIR Hwf1 Hd1) as (m2 & -> & _ & L2).
  exists m2. split; [done|]. intros q. rewrite L2, L1.
  repeat case_decide; tauto.
Qed.

(** C16: On a well-formed tree where [build] and [dist] are directories,
    the clean step of [main] succeeds and removes exactly what lies below
    them, keeping both directories and everything else. *)
Theorem clean_spec m :
  fs_wf m -> m !! BUILD_DIR = Some EDir -> m !! DIST_DIR = Some EDir ->
  exists m', clean m = Ok m' /\
    forall q, m' !! q = if decide (below BUILD_DIR q \/ below DIST_DIR q) then None else m !! q.
Proof. apply clean_below. Qed.

(** The clean step on the world: [clean_m] does what [clean] says. *)
Lemma clean_entries_m_Ok d w m' :
  clean_entries d (w_fs w) = Ok m' -> clean_entries_m d w = (Ok tt, with_fs w m').
Proof.
  unfold clean_entries, clean_entries_m, bind, get_fs, lift.
  destruct (iterdir _ d) as [ps|]; [rewrite bind_Ok | done]. apply forM_fs_op_Ok.
Qed.

Lemma clean_m_Ok w m' : clean (w_fs w) = Ok m' -> clean_m w = (Ok tt, with_fs w m').
Proof.
  unfold clean. destruct (clean_entries BUILD_DIR _) as [m1|] eqn:E; [rewrite bind_Ok | done]. intros H2.
  unfold clean_m, bind at 1. rewrite (clean_entries_m_Ok _ _ m1 E).
  by apply (clean_entries_m_Ok _ (with_fs w m1)).
Qed.

Lemma lookup_cleaned m q :
  cleaned m !! q = if decide (below BUILD_DIR q \/ below DIST_DIR q) then None else m !! q.
Proof. unfold cleaned. rewrite map_lookup_filter. destruct (m !! q); simpl; by repeat case_guard; case_decide. Qed.


(** C17: [main --clean] reports an error of the configuration only after
    the clean step: when [init] succeeds on a well-formed tree whose
    [build] and [dist] are directories, and the value of [--config] does
    not open, or [load_config] fails on the cleaned tree, [main] raises
    that error in the world where everything below [build] and [dist]
    (cached tarball and extracted sources included) is already gone. *)
Theorem main_cleans_before_config_check `{Matcher} `{Packaging.Archivers} `{Source.TarReader} `{TomlParser}
    exec platform config w w1 e :
  init w = (Ok tt, w1) -> fs_wf (w_fs w1) ->
  w_fs w1 !! BUILD_DIR = Some EDir -> w_fs w1 !! DIST_DIR = Some EDir ->
  (config_file_path config ≫= load_config (cleaned (w_fs w1))) = Err e ->
  main exec platform true config w = (Err e, with_fs w1 (cleaned (w_fs w1))).
Proof.
  intros Hinit Hwf Hb Hd Hload.
  destruct (clean_below _ Hwf Hb Hd) as (m' & Hc & L).
  assert (m' = cleaned (w_fs w1)) as -> by (apply map_eq; intros q; by rewrite L, lookup_cleaned).
  unfold main, bind at 1. rewrite Hinit. unfold bind at 1. rewrite (clean_m_Ok _ _ Hc).
  unfold bind, get_fs, lift. cbn [w_fs with_fs].
  destruct (config_file_path config) as [p|e']; simpl in Hload; [by rewrite Hload | by injection Hload as ->].
Qed.


(** ** [_prepare_project_directory] *)

Lemma exists_EDir m p : m !! p = Some EDir -> exists_ m p = true.
Proof. intros Hp. unfold exists_. rewrite (stat_nonlink _ _ _ Hp) by done. by apply bool_decide_true. Qed.

Lemma exists_None m p : m !! p = None -> exists_ m p = false.
Proof.
  intros Hp. unfold exists_, stat. destruct MAXSYMLINKS; cbn; rewrite Hp; by apply bool_decide_false.
Qed.

(** One iteration of the loop over [build] and [dist]. *)
Lemma prepare_dir_step m p x :
  p = [x] -> m !! [] = Some EDir -> m !! p = None \/ m !! p = Some EDir ->
  (if exists_ m p then Ok m else mkdir m p) = Ok (<[p := EDir]> m).
Proof.
  intros -> Hr [Hn|Hd].
  - rewrite exists_None by done. unfold mkdir. rewrite bool_decide_false by (rewrite Hn; by intros []).
    cbn. by rewrite Hr.
  - rewrite exists_EDir by done. f_equal. by rewrite insert_id.
Qed.

(** C19: When [module] and [build.toml] exist and [build] and [dist] are
    each absent or a directory, [_prepare_project_directory] succeeds
    and leaves both as directories, changing nothing else. *)
Theorem prepare_project_directory_spec m :
  m !! [] = Some EDir -> exists_ m MODULE_DIR = true -> exists_ m BUILD_CONFIG = true ->
  (m !! BUILD_DIR = None \/ m !! BUILD_DIR = Some EDir) ->
  (m !! DIST_DIR = None \/ m !! DIST_DIR = Some EDir) ->
  prepare_project_directory m = Ok (<[DIST_DIR := EDir]> (<[BUILD_DIR := EDir]> m)).
Proof.
  intros Hroot Hmod Hcfg Hb Hd. unfold prepare_project_directory. rewrite Hmod, Hcfg. cbn [negb foldM].
  rewrite (prepare_dir_step _ _ "build"%string) by done. rewrite bind_Ok.
  rewrite (prepare_dir_step _ _ "dist"%string); [done|done|by rewrite lookup_insert_ne|].
  by rewrite lookup_insert_ne.
Qed.

(** A dangling symlink [build] does not exist for [Path.exists()], but
    [mkdir] refuses it: [init] fails with [FileExistsError]. *)
Example prepare_project_directory_dangling_build :
  prepare_project_directory
    (list_to_map [([], EDir); (MODULE_DIR, EDir); (BUILD_CONFIG, EFile []);
                  (BUILD_DIR, ELink ["/"%string; "tmp"%string; "gone"%string])])
  = Err (FileExistsError BUILD_DIR).
Proof. vm_compute. reflexivity. Qed.


(** ** Scenarios *)

Definition pth (s : string) : path := path_of_str (str_of s).

(** [build.toml] without its [module] table. *)
#[local] Instance cpython_only_toml : TomlParser := fun _ =>
  Some [(str_of "cpython",
         TTable [(str_of "apply_patches", TBool false);
                 (str_of "build_hosts", TArray [TString (str_of "x86_64-linux-android")]);
                 (str_of "configure_args", TArray []); (str_of "configure_env", TTable []);
                 (str_of "version", TString (str_of "3.13.1"))])].

#[local] Instance empty_archivers : Packaging.Archivers :=
  {| Packaging.tar_xz _ := []; Packaging.tar_xz_aborted := []; Packaging.zip_encode _ := [] |}.
#[local] Instance no_tar : Source.TarReader := fun _ => None.

Definition ok_exec (m : fs) (c : command) : completed * fs := (mk_completed 0 [] [], m).

(** A project after an interrupted build: a cached source tarball and
    tree under [build], an old module under [dist]. *)
Definition cached_tree : fs :=
  list_to_map
    [([], EDir); (pth "module", EDir); (pth "module/module.prop", EFile []);
     (BUILD_CONFIG, EFile []);
     (pth "build", EDir); (pth "build/v3.13.1.tar.gz", EFile (bytes_of_string "tarball"));
     (pth "build/cpython-3.13.1", EDir); (pth "build/cpython-3.13.1/configure", EFile []);
     (pth "dist", EDir); (pth "dist/py2droid.zip", EFile []);
     (["/"], EDir); (pth "/usr", EDir); (pth "/usr/bin", EDir);
     (pth "/usr/bin/curl", EFile []); (pth "/usr/bin/patch", EFile [])]%string.

Definition cached_world : world :=
  mk_world cached_tree
    [(str_of "ANDROID_HOME", str_of "/opt/android"); (str_of "PATH", str_of "/usr/bin")] [].

(** ** Witnesses *)

Definition loose_cpython : dict str toml :=
  [(str_of "apply_patches", TBool false); (str_of "build_hosts", TArray []);
   (str_of "configure_args", TArray []); (str_of "configure_env", TTable []);
   (str_of "version", TString (str_of "v3.13.1"))].

Definition loose_module : dict str toml :=
  [(str_of "debloat", TString (str_of "false"));
   (str_of "debloat_patterns", TArray []); (str_of "fix_shebangs", TBool true);
   (str_of "include", TString (str_of "a.pem")); (str_of "name", TString (str_of "m.zip"));
   (str_of "strip", TBool false); (str_of "strip_args", TArray [])].

(** A configuration with the types of its values wrong: [debloat] the
    string ["false"], [include] a string instead of an array, and an
    empty host list. *)
Definition loose_config : dict str toml :=
  [(str_of "cpython", TTable loose_cpython); (str_of "module", TTable loose_module)].

(** [build.toml] as [loose_config]. *)
Definition loose_toml : TomlParser := fun _ => Some loose_config.

Definition loaded : dict str field * dict str field :=
  match @load_config loose_toml cached_tree BUILD_CONFIG with Ok p => p | Err _ => ([], []) end.

Lemma load_config_shape_witness :
  @load_config loose_toml cached_tree BUILD_CONFIG = Ok (loaded.1, loaded.2) /\
  (forall k, k ∈ keys loaded.1 <-> k ∈ cpython_fields) /\ (forall k, k ∈ keys loaded.2 <-> k ∈ module_fields) /\
  (exists s, get (str_of "version") loaded.1 = Some (FToml (TString s)) /\ head s <> Some "v"%char) /\
  (exists ps, get (str_of "include") loaded.2 = Some (FPaths ps)) /\
  (exists v, get (str_of "name") loaded.2 = Some (FTemplate v)).
Proof.
  assert (Hl : @load_config loose_toml cached_tree BUILD_CONFIG = Ok (loaded.1, loaded.2))
    by (vm_compute; reflexivity).
  split; [exact Hl|exact (@load_config_shape loose_toml _ _ _ _ Hl)].
Defined.

Lemma clean_spec_witness :
  fs_wf cached_tree /\ cached_tree !! BUILD_DIR = Some EDir /\ cached_tree !! DIST_DIR = Some EDir /\
  exists m', clean cached_tree = Ok m' /\
    forall q, m' !! q = if decide (below BUILD_DIR q \/ below DIST_DIR q) then None else cached_tree !! q.
Proof.
  assert (Hwf : fs_wf cached_tree) by (apply fs_wfb_sound; vm_compute; reflexivity).
  assert (Hb : cached_tree !! BUILD_DIR = Some EDir) by (vm_compute; reflexivity).
  assert (Hd : cached_tree !! DIST_DIR = Some EDir) by (vm_compute; reflexivity).
  split_and!; [exact Hwf|exact Hb|exact Hd|exact (clean_spec cached_tree Hwf Hb Hd)].
Defined.

(** [main --clean] on [cached_world] with a [build.toml] without its
    [module] table. *)
Lemma main_cleans_before_config_check_witness :
  init cached_world = (Ok tt, cached_world) /\ fs_wf cached_tree /\
  main ok_exec (str_of "linux") true (Argparse.VPath BUILD_CONFIG) cached_world =
    (Err (BuilderError "Configuration file is missing 'cpython' or 'module' sections"),
     with_fs cached_world (cleaned cached_tree)).
Proof.
  assert (Hi : init cached_world = (Ok tt, cached_world)) by (vm_compute; reflexivity).
  assert (Hwf : fs_wf cached_tree) by (apply fs_wfb_sound; vm_compute; reflexivity).
  split_and!; [exact Hi|exact Hwf|].
  exact (main_cleans_before_config_check ok_exec (str_of "linux") (Argparse.VPath BUILD_CONFIG)
           cached_world cached_world _ Hi Hwf ltac:(vm_compute; reflexivity) ltac:(vm_compute; reflexivity)
           ltac:(vm_compute; reflexivity)).
Defined.




(** [loose_config]: [include = "a.pem"] gives the paths [a], [.], [p],
    [e] and [m], one per character; [debloat = "false"] and the empty
    host list are kept. *)
Lemma process_raw_config_spec_witness :
  exists c m, process_raw_config loose_config = Ok (c, m) /\
    (forall k, get k c = if decide (k = str_of "version") then Some (FToml (TString (str_of "3.13.1")))
                         else FToml <$> get k loose_cpython) /\
    (forall k, get k m = if decide (k = str_of "name") then Some (FTemplate (TString (str_of "m.zip")))
                         else if decide (k = str_of "include")
                              then Some (FPaths [pth "a"; []; pth "p"; pth "e"; pth "m"])
                         else FToml <$> get k loose_module).
Proof.
  assert (Hkc : keys loose_cpython = cpython_fields) by reflexivity.
  assert (Hkm : keys loose_module = module_fields) by reflexivity.
  exact (process_raw_config_spec loose_config loose_cpython loose_module (str_of "v3.13.1")
           (TString (str_of "a.pem")) [pth "a"; []; pth "p"; pth "e"; pth "m"] (TString (str_of "m.zip"))
           eq_refl eq_refl (fun k => eq_ind_r (fun l => k ∈ l <-> k ∈ cpython_fields) (iff_refl _) Hkc)
           (fun k => eq_ind_r (fun l => k ∈ l <-> k ∈ module_fields) (iff_refl _) Hkm)
           eq_refl eq_refl ltac:(vm_compute; reflexivity) eq_refl).
Defined.

(** A fresh checkout: neither [build] nor [dist]. *)
Definition fresh_tree : fs :=
  list_to_map [([], EDir); (pth "module", EDir); (BUILD_CONFIG, EFile [])].

Lemma prepare_project_directory_spec_witness :
  fresh_tree !! [] = Some EDir /\ exists_ fresh_tree MODULE_DIR = true /\
  exists_ fresh_tree BUILD_CONFIG = true /\
  prepare_project_directory fresh_tree = Ok (<[DIST_DIR := EDir]> (<[BUILD_DIR := EDir]> fresh_tree)).
Proof.
  assert (Hr : fresh_tree !! [] = Some EDir) by (vm_compute; reflexivity).
  assert (Hm : exists_ fresh_tree MODULE_DIR = true) by (vm_compute; reflexivity).
  assert (Hc : exists_ fresh_tree BUILD_CONFIG = true) by (vm_compute; reflexivity).
  split_and!; [exact Hr|exact Hm|exact Hc|].
  apply prepare_project_directory_spec; [exact Hr|exact Hm|exact Hc|left; reflexivity|left; reflexivity].
Defined.

End Config.
