(* ===== verification/Cli.v ===== *)
(** * The command lines of [build.py] and [release.py]

    Each script's [main] builds an [ArgumentParser], calls [parse_args()]
    and runs the rest of the pipeline on the namespace.  This file holds
    the two parsers as the scripts declare them ([build_parser],
    [release_parser]), [release.py]'s [prepare_environment], and the two
    [main]s from the command line on: [build_main] hands [args.clean] and
    [args.config] to [Config.main], [release_main] runs
    [prepare_environment], reads [args.tag] and [args.cpython_tag] (which
    [process_tag] expects to be strings) and continues with
    [Release.main].  An exit of the parser is [SystemExit] with its
    status, raised before anything else happens.  The parser is the one
    of CPython 3.11 ([Argparse.v]); [release.py] runs on 3.11 or later,
    [build.py] on 3.12 or later, whose later releases changed how ["--"]
    is removed from option values, so [build_main_config_dashes] holds
    for 3.11's parser only. *)

From Stdlib Require Import ZArith.
From S2P Require Import Prelude PyDict FileSystem Glob Effects Argparse Packaging SourceBuild Release Config.

Module Cli.
Import PyDict FS Glob Effects Argparse.Argparse.

(** ** [build.py] *)

(** The [version] string of [build.py]'s [-v/--version]:
    [f"%(prog)s {__version__} by {__author__} ({__license__})"]. *)
Definition build_version : str := str_of "%(prog)s 0.2.0 by Mrakorez (MIT)".

(** The parser of [build.py]'s [main]. *)
Definition build_parser (prog : str) : parser :=
  mk_parser prog [
    help_action;
    mk_action [str_of "-v"; str_of "--version"] SUPPRESS (AVersion build_version) None;
    mk_action [str_of "-c"; str_of "--clean"] (str_of "clean") AStoreTrue (Some (VBool false));
    mk_action [str_of "-C"; str_of "--config"] (str_of "config")
      (AStore (fun s => VPath (path_of_str s))) (Some (VPath Config.BUILD_CONFIG))].

Section Build.
Context `{Glob.Matcher} `{Packaging.Archivers} `{Source.TarReader} `{Config.TomlParser}.
Variable exec : fs -> command -> completed * fs.
Variable platform : str.

(** [build.py]'s [main], from [parser.parse_args()] on; [prog] is the
    base name of [sys.argv[0]]. *)
Definition build_main (prog : str) (argv : list str) : M bool :=
  match parse_args (build_parser prog) argv with
  | None => raise (SystemExit 2)
  | Some (Exit e) => raise (SystemExit (exit_code e))
  | Some (Parsed ns) =>
      let* clean := lift (attr ns (str_of "clean")) in
      let* config := lift (attr ns (str_of "config")) in
      Config.main exec platform (truthy clean) config
  end.

End Build.

(** ** [release.py] *)

Definition release_version : str := str_of "%(prog)s 0.1.0 by Mrakorez (MIT)".

(** The parser of [release.py]'s [main]. *)
Definition release_parser (prog : str) : parser :=
  mk_parser prog [
    help_action;
    mk_action [] (str_of "tag") (AStore VStr) (Some VNone);
    mk_action [str_of "-c"; str_of "--cpython-tag"] (str_of "cpython_tag") (AStore VStr) (Some VNone);
    mk_action [str_of "--commit"] (str_of "commit") AStoreTrue (Some (VBool false));
    mk_action [str_of "-v"; str_of "--version"] SUPPRESS (AVersion release_version) None].

(** [REQUIRED_TOOLS] of [release.py] *)
Definition REQUIRED_TOOLS : list str := [str_of "git"; str_of "git-cliff"].

(** [prepare_environment()]: [ReleaseError] for the first tool
    [shutil.which] does not find; [os.chdir(PROJECT_DIR)] is the model's
    convention that paths are relative to the project root. *)
Definition prepare_environment : M unit :=
  let* environ := get_environ in
  let* m := get_fs in
  lift (foldM (fun _ tool => if Config.which environ m tool is Some _ then Ok tt
                             else Err (ReleaseError "Required tool not found in PATH"))
          tt REQUIRED_TOOLS).

(** [process_tag(v)] calls [v.startswith("v")]: only a [str] has it. *)
Definition str_arg (v : avalue) : result str :=
  match v with
  | VStr s => Ok s
  | _ => Err (AttributeError "object has no attribute 'startswith'")
  end.

(** [if args.cpython_tag is not None: process_tag(args.cpython_tag)] *)
Definition opt_str_arg (v : avalue) : result (option str) :=
  match v with
  | VNone => Ok None
  | _ => Some <$> str_arg v
  end.

Section Release.
Context `{Release.JsonCodec}.
Variable exec : fs -> command -> completed * fs.
Variable VERSION_CODE_DATE : str.

(** [release.py]'s [main]: [parse_args()], [prepare_environment()], the
    reads of [args.tag] and [args.cpython_tag] by [process_tag], then the
    checks and [prepare_release] of [Release.main]. *)
Definition release_main (prog : str) (argv : list str) : M unit :=
  match parse_args (release_parser prog) argv with
  | None => raise (SystemExit 2)
  | Some (Exit e) => raise (SystemExit (exit_code e))
  | Some (Parsed ns) =>
      prepare_environment ;;;
      let* tag := lift (attr ns (str_of "tag") ≫= str_arg) in
      let* cpython_tag := lift (attr ns (str_of "cpython_tag") ≫= opt_str_arg) in
      let* commit := lift (attr ns (str_of "commit")) in
      Release.main exec VERSION_CODE_DATE tag cpython_tag (truthy commit)
  end.

End Release.

(** ** Properties *)

(** A canonical command line of [release.py]: the options with their
    values attached, the tag after ["--"] so that any string is read as
    the tag. *)
Definition release_argv (tag : str) (cpython_tag : option str) (commit : bool) : list str :=
  (if cpython_tag is Some c then [str_of "--cpython-tag=" ++ c] else []) ++
  (if commit then [str_of "--commit"] else []) ++ [DOUBLE_DASH; tag].

(** The namespace [release.py] expects: attributes in declaration order. *)
Definition release_ns (tag : str) (cpython_tag : option str) (commit : bool) : dict str avalue :=
  [(str_of "tag", VStr tag); (str_of "cpython_tag", from_option VStr VNone cpython_tag);
   (str_of "commit", VBool commit)].

Definition build_argv (clean : bool) (config : str) : list str :=
  (if clean then [str_of "--clean"] else []) ++ [str_of "--config=" ++ config].

Definition build_ns (clean : bool) (config : str) : dict str avalue :=
  [(str_of "clean", VBool clean); (str_of "config", VPath (path_of_str config))].

(** [prepare_environment] only reads the world. *)
Lemma prepare_environment_world w : (prepare_environment w).2 = w.
Proof. reflexivity. Qed.

(** [--cpython-tag=--] leaves an empty list in the namespace. *)
Lemma release_parse_dashes prog tag :
  parse_args (release_parser prog) [str_of "--cpython-tag=--"; DOUBLE_DASH; tag] =
  Some (Parsed [(str_of "tag", VStr tag); (str_of "cpython_tag", VList []);
                (str_of "commit", VBool false)]).
Proof. reflexivity. Qed.

(** Termination of [parse_args] on both scripts' parsers: the main
    loop of [_parse_known_args], run on fuel, answers with any fuel above
    the number of arguments and gives the same answer as [parse_args], so
    the branch of [build_main] and [release_main] for a parser out of fuel
    is never taken. *)
Theorem cli_parse_total prog argv f :
  length argv < f ->
  parse_args_fuel (release_parser prog) f argv = parse_args (release_parser prog) argv /\
  is_Some (parse_args (release_parser prog) argv) /\
  parse_args_fuel (build_parser prog) f argv = parse_args (build_parser prog) argv /\
  is_Some (parse_args (build_parser prog) argv).
Proof.
  intros Hf.
  destruct (parse_args_fuel_enough (release_parser prog) argv f Hf) as [-> ?].
  destruct (parse_args_fuel_enough (build_parser prog) argv f Hf) as [-> ?].
  done.
Qed.

(** C20: Round trip between the namespaces and the command lines: the
    canonical command line of any tag, CPython tag and [--commit] flag
    parses back to exactly that namespace, and so does [build.py]'s for any
    [--clean] flag and configuration path; the only value that does not
    survive is the option value ["--"] itself, which [_get_values]
    strips. *)
Theorem cli_args_roundtrip prog tag cpython_tag commit clean config :
  (forall c, cpython_tag = Some c -> c <> DOUBLE_DASH) ->
  config <> DOUBLE_DASH ->
  parse_args (release_parser prog) (release_argv tag cpython_tag commit) =
    Some (Parsed (release_ns tag cpython_tag commit)) /\
  parse_args (build_parser prog) (build_argv clean config) =
    Some (Parsed (build_ns clean config)).
Proof.
  intros Hc Hconf. split.
  - destruct cpython_tag as [[|x c]|], commit; try reflexivity;
      unfold parse_args; lazy -[remove_first];
      rewrite remove_first_single by exact (Hc _ eq_refl); reflexivity.
  - destruct config as [|x c], clean; try reflexivity;
      unfold parse_args; lazy -[remove_first];
      rewrite remove_first_single by exact Hconf; reflexivity.
Qed.

Section Props.
Context `{Release.JsonCodec}.
Variable exec : fs -> command -> completed * fs.
Variable VERSION_CODE_DATE : str.

(** C21: [release.py --cpython-tag=-- -- TAG] gets past argparse with
    [args.cpython_tag = []]; once the tools are found, [process_tag]
    calls [startswith] on the list and the script dies with
    [AttributeError] instead of a usage error, before any command runs. *)
Theorem release_main_cpython_tag_dashes prog tag w :
  (prepare_environment w).1 = Ok tt ->
  release_main exec VERSION_CODE_DATE prog [str_of "--cpython-tag=--"; DOUBLE_DASH; tag] w =
  (Err (AttributeError "object has no attribute 'startswith'"), w).
Proof.
  intros Hp. unfold release_main. rewrite release_parse_dashes.
  unfold bind at 1. rewrite (surjective_pairing (prepare_environment w)), Hp, prepare_environment_world.
  reflexivity.
Qed.

End Props.

Section BuildProps.
Context `{Glob.Matcher} `{Packaging.Archivers} `{Source.TarReader} `{Config.TomlParser}.
Variable exec : fs -> command -> completed * fs.
Variable platform : str.

(** [build.py -c --config=--] gets past argparse with
    [args.config = []]: [init] and the clean step run, emptying [build]
    and [dist] (the cached tarball and sources included), and only then
    does [load_config] fail with [AttributeError] on [[].open]. *)
Theorem build_main_config_dashes :
  let r := build_main exec platform (str_of "build.py") [str_of "-c"; str_of "--config=--"]
             Config.cached_world in
  r.1 = Err (AttributeError "object has no attribute 'open'") /\
  w_fs r.2 !! Config.pth "build/v3.13.1.tar.gz" = None /\
  w_fs r.2 !! Config.pth "build/cpython-3.13.1" = None /\
  w_fs r.2 !! Config.pth "dist/py2droid.zip" = None /\
  w_fs r.2 !! Config.pth "build" = Some EDir.
Proof. vm_compute. split_and!; reflexivity. Qed.

End BuildProps.

(** ** Witnesses *)

#[local] Instance empty_json : Release.JsonCodec :=
  {| Release.json_load _ := Err (ValueError "Expecting value"); Release.json_dump _ := [] |}.

Definition ok_exec (m : fs) (c : command) : completed * fs := (mk_completed 0 [] [], m).

(** [Config.cached_world] with [git] and [git-cliff] on [PATH]. *)
Definition git_world : world :=
  mk_world (<[Config.pth "/usr/bin/git" := EFile []]> (<[Config.pth "/usr/bin/git-cliff" := EFile []]>
              (w_fs Config.cached_world)))
    (w_environ Config.cached_world) [].

Lemma cli_parse_total_witness :
  length [str_of "-cv"; str_of "x"] < 3 /\
  parse_args_fuel (release_parser (str_of "release.py")) 3 [str_of "-cv"; str_of "x"] =
    parse_args (release_parser (str_of "release.py")) [str_of "-cv"; str_of "x"] /\
  is_Some (parse_args (release_parser (str_of "release.py")) [str_of "-cv"; str_of "x"]) /\
  parse_args_fuel (build_parser (str_of "release.py")) 3 [str_of "-cv"; str_of "x"] =
    parse_args (build_parser (str_of "release.py")) [str_of "-cv"; str_of "x"] /\
  is_Some (parse_args (build_parser (str_of "release.py")) [str_of "-cv"; str_of "x"]).
Proof. split; [simpl; lia | apply cli_parse_total; simpl; lia]. Defined.

Lemma cli_args_roundtrip_witness :
  (forall c, Some (str_of "3.13.1") = Some c -> c <> DOUBLE_DASH) /\ str_of "build.toml" <> DOUBLE_DASH /\
  parse_args (release_parser (str_of "release.py")) (release_argv (str_of "-1.2.3") (Some (str_of "3.13.1")) true) =
    Some (Parsed (release_ns (str_of "-1.2.3") (Some (str_of "3.13.1")) true)) /\
  parse_args (build_parser (str_of "release.py")) (build_argv true (str_of "build.toml")) =
    Some (Parsed (build_ns true (str_of "build.toml"))).
Proof.
  assert (H1 : forall c, Some (str_of "3.13.1") = Some c -> c <> DOUBLE_DASH) by (intros c [= <-]; discriminate).
  assert (H2 : str_of "build.toml" <> DOUBLE_DASH) by discriminate.
  destruct (cli_args_roundtrip (str_of "release.py") (str_of "-1.2.3") _ true true _ H1 H2) as [R B].
  split_and!; [exact H1 | exact H2 | exact R | exact B].
Defined.

Lemma release_main_cpython_tag_dashes_witness :
  (prepare_environment git_world).1 = Ok tt /\
  release_main ok_exec (str_of "20250101") (str_of "release.py")
    [str_of "--cpython-tag=--"; DOUBLE_DASH; str_of "1.2.3"] git_world =
  (Err (AttributeError "object has no attribute 'startswith'"), git_world).
Proof.
  assert (Hp : (prepare_environment git_world).1 = Ok tt) by (vm_compute; reflexivity).
  split; [exact Hp | exact (release_main_cpython_tag_dashes ok_exec _ _ _ _ Hp)].
Defined.

End Cli.
